(** * Normative contradiction detection engine: embedding and verification

    A shallow embedding of the analysis core of the document-review system:
    - [app/mcp/servers/analyzer.py]  ([ContradictionAnalyzer]),
    - [app/mcp/servers/comparer.py]  ([DocumentComparer]),
    - [app/mcp/orchestrator.py]      ([ClaudeOrchestrator]),
    with [app/mcp/servers/reader.py], [scripts/import_documents.py] and
    the upload of [app/api/routes.py] for the documents themselves,
    followed by the theorems that settle the properties of the
    specification against these definitions.

    Python values are modelled as follows.
    - [float] is IEEE 754 binary64, through the executable specification
      of the Standard Library ([SpecFloat], precision 53, [emax] 1024),
      with round-to-nearest-even; no arithmetic is idealised.
    - [str] is a list of Unicode code points.
    - A [dict] whose iteration order matters is an association list in
      insertion order; a [set] is a [gset].
    - What the code takes from the interpreter (the Unicode tables behind
      [\d], [\s], [\b], [re.IGNORECASE], [str.lower], [str.strip],
      [str.isupper], the builtin [float()] and the order of [list] of a
      set) is the class [PyRuntime];
      [latin1] is an instance to run the code on concrete documents. *)

From Stdlib Require Import ZArith NArith Bool Lia.
From Stdlib Require Import Floats.SpecFloat.
From Stdlib Require QArith Qabs.
From stdpp Require Import base list strings gmap sets sorting.
From Equations Require Import Equations.

Set Warnings "-register-all".

(* ===================================================================== *)
(** * Python floats *)
(* ===================================================================== *)

Module PyFloat.

Local Open Scope Z_scope.

Definition prec : Z := 53.
Definition emax : Z := 1024.

Definition float := spec_float.

Definition add : float -> float -> float := SFadd prec emax.
Definition sub : float -> float -> float := SFsub prec emax.
Definition mul : float -> float -> float := SFmul prec emax.
Definition div : float -> float -> float := SFdiv prec emax.
Definition abs : float -> float := SFabs.
Definition eqb : float -> float -> bool := SFeqb.
Definition ltb : float -> float -> bool := SFltb.
Definition leb : float -> float -> bool := SFleb.

(** [x != y], [x > y], [x >= y] of Python. *)
Definition neb (x y : float) : bool := negb (eqb x y).
Definition gtb (x y : float) : bool := ltb y x.
Definition geb (x y : float) : bool := leb y x.

Definition zero : float := S754_zero false.

(** The double nearest to the rational [n / d], for [0 <= n] and
    [0 < d].  This is what the interpreter computes for a decimal
    literal, for [float()] of a decimal numeral and for the true
    division of two integers. *)
Definition of_ratio (n d : Z) : float :=
  match n with
  | Z0 => zero
  | _ =>
      let '(q, e, l) := SFdiv_core_binary prec emax n 0 d 0 in
      binary_round_aux prec emax false q e l
  end.

(** Conversion of a Python [int]. *)
Definition of_Z (n : Z) : float := binary_normalize prec emax n 0 false.
Definition of_nat (n : nat) : float := of_Z (Z.of_nat n).

(** The literals of the source. *)
Definition f1_0 : float := of_Z 1.
Definition f2_0 : float := of_Z 2.
Definition f0_2 : float := of_ratio 2 10.
Definition f0_1 : float := of_ratio 1 10.
Definition f0_05 : float := of_ratio 5 100.
Definition f0_9 : float := of_ratio 9 10.
Definition f0_7 : float := of_ratio 7 10.
Definition f0_5 : float := of_ratio 5 10.
Definition f0_3 : float := of_ratio 3 10.

(** [max(0, x)]: the builtin keeps its first argument unless a later
    one is strictly greater.  The [int] 0 it then returns is
    represented by the float [+0.0] it is equal to. *)
Definition max0 (x : float) : float := if gtb x zero then x else zero.

(** Quotient rounded to the nearest integer, ties to even. *)
Definition div_half_even (n d : Z) : Z :=
  let q := n / d in
  match 2 * (n mod d) ?= d with
  | Lt => q
  | Gt => q + 1
  | Eq => if Z.even q then q else q + 1
  end.

Definition with_sign (s : bool) (x : float) : float :=
  match x with
  | S754_zero _ => S754_zero s
  | S754_infinity _ => S754_infinity s
  | S754_nan => S754_nan
  | S754_finite _ m e => S754_finite s m e
  end.

(** [round(x, ndigits)] for [0 <= ndigits]: the exact value of [x] is
    rounded (half to even) to [ndigits] decimal places and the decimal
    numeral obtained is converted back to a double. *)
Definition round (x : float) (ndigits : Z) : float :=
  match x with
  | S754_finite s m e =>
      let p := 10 ^ ndigits in
      let q := if 0 <=? e then Z.pos m * 2 ^ e * p
               else div_half_even (Z.pos m * p) (2 ^ (- e)) in
      with_sign s (of_ratio q p)
  | _ => x
  end.

End PyFloat.

(* ===================================================================== *)
(** * Python strings *)
(* ===================================================================== *)

Module PyStr.

(** A code point. *)
Definition char := N.
Definition str := list char.

Local Open Scope N_scope.

(** Decoding of a UTF-8 byte sequence; the literals of this file are
    written in UTF-8. *)
Fixpoint utf8_decode (bs : list N) : str :=
  match bs with
  | [] => []
  | b :: r =>
      if b <? 128 then b :: utf8_decode r
      else if b <? 224 then
        match r with
        | b1 :: r1 => ((b - 192) * 64 + (b1 - 128)) :: utf8_decode r1
        | _ => [b]
        end
      else if b <? 240 then
        match r with
        | b1 :: b2 :: r2 =>
            ((b - 224) * 4096 + (b1 - 128) * 64 + (b2 - 128)) :: utf8_decode r2
        | _ => b :: r
        end
      else
        match r with
        | b1 :: b2 :: b3 :: r3 =>
            ((b - 240) * 262144 + (b1 - 128) * 4096 + (b2 - 128) * 64 + (b3 - 128))
              :: utf8_decode r3
        | _ => b :: r
        end
  end.

Definition u (s : string) : str :=
  utf8_decode (map Ascii.N_of_ascii (String.list_ascii_of_string s)).

#[global] Arguments u : simpl never.

Definition eqb (s t : str) : bool := bool_decide (s = t).

Fixpoint startswith (p s : str) : bool :=
  match p, s with
  | [], _ => true
  | _ :: _, [] => false
  | c :: p', d :: s' => (c =? d) && startswith p' s'
  end.

(** [p in s]. *)
Fixpoint contains (p s : str) : bool :=
  startswith p s ||
  match s with
  | [] => false
  | _ :: s' => contains p s'
  end.

(** [s.replace(c, r)] for a one-character [c]. *)
Definition replace (c : char) (r : str) (s : str) : str :=
  flat_map (fun x => if x =? c then r else [x]) s.

(** [s.split(c)] for a one-character separator. *)
Fixpoint split (c : char) (s : str) : list str :=
  match s with
  | [] => [[]]
  | x :: s' =>
      match split c s' with
      | [] => [[]]
      | w :: ws => if x =? c then [] :: w :: ws else (x :: w) :: ws
      end
  end.

(** [s.strip()], given the white space. *)
Fixpoint lstrip_by (p : char -> bool) (s : str) : str :=
  match s with
  | [] => []
  | c :: s' => if p c then lstrip_by p s' else s
  end.

Definition strip_by (p : char -> bool) (s : str) : str :=
  rev (lstrip_by p (rev (lstrip_by p s))).

(** [s[i:j]] for [0 <= i], [0 <= j]. *)
Definition slice (i j : nat) (s : str) : str := take (j - i) (drop i s).

(** [sep.join(l)]. *)
Fixpoint join (sep : str) (l : list str) : str :=
  match l with
  | [] => []
  | [x] => x
  | x :: l' => x ++ sep ++ join sep l'
  end.

End PyStr.

Export PyStr(char, str, u).

(* ===================================================================== *)
(** * What the code takes from the interpreter *)
(* ===================================================================== *)

Class PyRuntime := {
  (** [Py_UNICODE_ISSPACE]: [\s] of [re], [str.strip]. *)
  isspace : char -> bool;
  (** [\d] of [re]: the decimal digits. *)
  isdecimal : char -> bool;
  (** [\w] of [re], which decides [\b]. *)
  isword : char -> bool;
  (** [re.IGNORECASE]: the pattern literal [c] matches the text
      character [x]. *)
  ignorecase_eq : char -> char -> bool;
  (** [str.lower()]. *)
  lower : str -> str;
  (** [str.isupper()]. *)
  isupper : str -> bool;
  (** [float(s)]; [None] when it raises [ValueError]. *)
  py_float : str -> option PyFloat.float;
  (** [list(s)] for a set [s] of strings, in the order that the
      hashing of the interpreter gives. *)
  py_list : gset str -> list str
}.

(** [s.strip()]. *)
Definition strip `{PyRuntime} (s : str) : str := PyStr.strip_by isspace s.

(* ===================================================================== *)
(** * Regular expressions: the backtracking matcher of [re] *)
(* ===================================================================== *)

Module Regex.

Inductive regex :=
| Eps
| Lit (c : char)                      (* a literal character *)
| LitI (c : char)                     (* a literal under re.IGNORECASE *)
| Digit                               (* \d *)
| Space                               (* \s *)
| InSet (ranges : list (char * char)) (* [...], as inclusive ranges *)
| Boundary                            (* \b *)
| Seq (r1 r2 : regex)
| Alt (r1 r2 : regex)                 (* r1|r2, r1 tried first *)
| Star (r : regex)                    (* r*, greedy *)
| Group (r : regex).                  (* (r), capturing *)

Definition Plus (r : regex) : regex := Seq r (Star r).
Definition Opt (r : regex) : regex := Alt r Eps.
Fixpoint Repeat (n : nat) (r : regex) : regex :=
  match n with
  | O => Eps
  | S n' => Seq r (Repeat n' r)
  end.
Fixpoint Seqs (l : list regex) : regex :=
  match l with
  | [] => Eps
  | [r] => r
  | r :: l' => Seq r (Seqs l')
  end.
Fixpoint Alts (l : list regex) : regex :=
  match l with
  | [] => Eps
  | [r] => r
  | r :: l' => Alt r (Alts l')
  end.
(** A word of a pattern, read with [re.IGNORECASE]. *)
Definition wordI (s : string) : regex := Seqs (map LitI (u s)).

(** Number of capturing groups. *)
Fixpoint groups (r : regex) : nat :=
  match r with
  | Seq r1 r2 | Alt r1 r2 => groups r1 + groups r2
  | Star r1 => groups r1
  | Group r1 => S (groups r1)
  | _ => 0
  end.

Definition in_ranges (ranges : list (char * char)) (c : char) : bool :=
  existsb (fun '(lo, hi) => (lo <=? c)%N && (c <=? hi)%N) ranges.

(** The matcher's position in the text: offset, the character before
    it, the text from it on, and what group 1 holds. *)
Record mstate := {
  m_pos : nat;
  m_prev : option char;
  m_rest : str;
  m_group : option str
}.

Definition advance (st : mstate) (x : char) (rest : str) : mstate :=
  {| m_pos := S (m_pos st); m_prev := Some x; m_rest := rest;
     m_group := m_group st |}.

Section Matcher.
Context `{PyRuntime}.
Context {R : Type}.

Definition one (p : char -> bool) (st : mstate) (k : mstate -> option R)
  : option R :=
  match m_rest st with
  | x :: rest => if p x then k (advance st x rest) else None
  | [] => None
  end.

Definition word_at (c : option char) : bool :=
  match c with
  | Some x => isword x
  | None => false
  end.

(** [rmatch r st k]: the first way, in the order in which [re]
    explores them, to match [r] from [st] so that the continuation
    [k] succeeds.  The body of a star has to consume a character for
    the star to iterate; none of the patterns below has a star over
    an expression that matches the empty string. *)
Fixpoint rmatch (r : regex) (st : mstate) (k : mstate -> option R)
  : option R :=
  match r with
  | Eps => k st
  | Lit c => one (N.eqb c) st k
  | LitI c => one (ignorecase_eq c) st k
  | Digit => one isdecimal st k
  | Space => one isspace st k
  | InSet ranges => one (in_ranges ranges) st k
  | Boundary =>
      if xorb (word_at (m_prev st)) (word_at (head (m_rest st)))
      then k st else None
  | Seq r1 r2 => rmatch r1 st (fun st1 => rmatch r2 st1 k)
  | Alt r1 r2 =>
      match rmatch r1 st k with
      | Some x => Some x
      | None => rmatch r2 st k
      end
  | Star r1 =>
      (fix iterate (n : nat) (st : mstate) : option R :=
         match n with
         | O => k st
         | S n' =>
             match rmatch r1 st (fun st1 =>
                     if (m_pos st1 =? m_pos st)%nat then None
                     else iterate n' st1) with
             | Some x => Some x
             | None => k st
             end
         end) (length (m_rest st)) st
  | Group r1 =>
      rmatch r1 st (fun st1 =>
        k {| m_pos := m_pos st1; m_prev := m_prev st1;
             m_rest := m_rest st1;
             m_group := Some (take (m_pos st1 - m_pos st) (m_rest st)) |})
  end.
End Matcher.

(** A match object: [start()], [end()], [group(0)] and [group(1)]. *)
Record rmatch_result := {
  m_start : nat;
  m_end : nat;
  group0 : str;
  group1 : option str
}.

Section Search.
Context `{PyRuntime}.

(** The match of [r] that starts at offset [pos], if any. *)
Definition match_at (r : regex) (pos : nat) (prev : option char) (s : str)
  : option rmatch_result :=
  match rmatch r {| m_pos := pos; m_prev := prev; m_rest := s;
                    m_group := None |} Some with
  | Some st =>
      Some {| m_start := pos; m_end := m_pos st;
              group0 := take (m_pos st - pos) s;
              group1 := m_group st |}
  | None => None
  end.

(** Left-to-right scan for non-overlapping matches; [skip] characters
    belong to the match found last.  The patterns never match the
    empty string, so nothing can match at the end of the text. *)
Fixpoint scan (r : regex) (pos : nat) (prev : option char) (skip : nat)
    (s : str) : list rmatch_result :=
  match s with
  | [] => []
  | c :: s' =>
      match skip with
      | S n => scan r (S pos) (Some c) n s'
      | O =>
          match match_at r pos prev s with
          | Some m => m :: scan r (S pos) (Some c) (m_end m - pos - 1) s'
          | None => scan r (S pos) (Some c) 0 s'
          end
      end
  end.

(** [re.finditer(r, s)]. *)
Definition finditer (r : regex) (s : str) : list rmatch_result :=
  scan r 0 None 0 s.

(** [match.group(1) if match.groups() else match.group(0)].  In the
    patterns that have a group, the group takes part in every match. *)
Definition group1_or_0 (r : regex) (m : rmatch_result) : str :=
  match groups r, group1 m with
  | S _, Some g => g
  | _, _ => group0 m
  end.

(** [re.findall(r, s)] for a pattern with at most one group. *)
Definition findall (r : regex) (s : str) : list str :=
  map (group1_or_0 r) (finditer r s).

(** [re.match(r, s)] succeeds. *)
Definition matches_start (r : regex) (s : str) : bool :=
  bool_decide (is_Some (match_at r 0 None s)).

End Search.

End Regex.

(* ===================================================================== *)
(** * An instance of the interpreter's tables *)
(* ===================================================================== *)

Module Latin1.

Import PyFloat.
Local Open Scope N_scope.

Definition between (lo hi c : N) : bool := (lo <=? c) && (c <=? hi).

(** The white space of Unicode, complete. *)
Definition space (c : char) : bool :=
  between 9 13 c || between 28 32 c || (c =? 133) || (c =? 160)
  || (c =? 5760) || between 8192 8202 c || (c =? 8232) || (c =? 8233)
  || (c =? 8239) || (c =? 8287) || (c =? 12288).

(** From here on the tables are those of Unicode on the code points
    below 256, which cover Spanish text. *)
Definition decimal (c : char) : bool := between 48 57 c.

Definition uppercase (c : char) : bool :=
  between 65 90 c || between 192 214 c || between 216 222 c.

Definition lowercase (c : char) : bool :=
  between 97 122 c || (c =? 170) || (c =? 181) || (c =? 186)
  || between 223 246 c || between 248 255 c.

Definition wordchar (c : char) : bool :=
  between 48 57 c || between 65 90 c || (c =? 95) || between 97 122 c
  || (c =? 170) || between 178 179 c || (c =? 181) || between 185 186 c
  || between 188 190 c || between 192 214 c || between 216 246 c
  || between 248 255 c.

Definition tolower (c : char) : char := if uppercase c then c + 32 else c.

Definition same_letter (c x : char) : bool := tolower x =? tolower c.

Definition all_upper (s : str) : bool :=
  existsb uppercase s && negb (existsb lowercase s).

Fixpoint read_digits (s : str) (acc : Z) (n : nat) : Z * nat * str :=
  match s with
  | c :: s' =>
      if decimal c then read_digits s' (10 * acc + Z.of_N (c - 48))%Z (S n)
      else (acc, n, s)
  | [] => (acc, n, s)
  end.

(** The sign of a numeral and the rest of it. *)
Definition split_sign (s : str) : bool * str :=
  match s with
  | 45 :: r => (true, r)
  | 43 :: r => (false, r)
  | _ => (false, s)
  end.

(** [float(s)] on the plain decimal numerals: an optional sign, digits
    and an optional fraction, between optional blanks.  (The builtin
    also reads exponents, [inf], [nan] and underscores; no pattern of
    the analyzer captures such a string.) *)
Definition float_of_numeral (s : str) : option float :=
  let s0 := PyStr.strip_by space s in
  let '(neg, s1) := split_sign s0 in
  let '(ip, ni, s2) := read_digits s1 0%Z 0%nat in
  match s2 with
  | [] =>
      if (ni =? 0)%nat then None else Some (with_sign neg (of_ratio ip 1))
  | 46 :: s3 =>
      let '(fp, nf, s4) := read_digits s3 ip 0%nat in
      match s4 with
      | [] =>
          if (ni + nf =? 0)%nat then None
          else Some (with_sign neg (of_ratio fp (10 ^ Z.of_nat nf)))
      | _ => None
      end
  | _ => None
  end.

#[export] Instance latin1 : PyRuntime := {|
  isspace := space;
  isdecimal := decimal;
  isword := wordchar;
  ignorecase_eq := same_letter;
  lower := map tolower;
  isupper := all_upper;
  py_float := float_of_numeral;
  py_list := elements
|}.

End Latin1.

(* ===================================================================== *)
(** * [analyzer.py]: ContradictionAnalyzer *)
(* ===================================================================== *)

Module Analyzer.

Import Regex PyFloat.

(** The keys of [contradiction_patterns], in the order of the dict. *)
Inductive pattern_type :=
| plazo_dias | plazo_meses | plazo_años
| monto_soles | monto_dolares | porcentaje
| obligacion | prohibicion | opcion
| autoriza | deniega.

#[export] Instance pattern_type_eq_dec : EqDecision pattern_type.
Proof. solve_decision. Defined.

(** ["medium"], ["high"], ["critical"]. *)
Inductive severity_tier := medium | high | critical.

#[export] Instance severity_tier_eq_dec : EqDecision severity_tier.
Proof. solve_decision. Defined.

(** The sensitivity is a [str]; these are the three documented ones. *)
Definition strict : str := u "strict".
Definition moderate : str := u "moderate".
Definition flexible : str := u "flexible".

(** The first code point of a literal. *)
Definition chr (s : string) : char := default 0%N (head (u s)).

(** [\d+(?:,\d{3})*(?:\.\d{2})?] *)
Definition amount : regex :=
  Seqs [Plus Digit;
        Star (Seq (Lit (chr ",")) (Repeat 3 Digit));
        Opt (Seq (Lit (chr ".")) (Repeat 2 Digit))].

Definition one_of_words (l : list string) : regex :=
  Group (Alts (map wordI l)).

(** [self.contradiction_patterns]; every pattern is used with
    [re.IGNORECASE]. *)
Definition contradiction_patterns : list (pattern_type * regex) :=
  [ (plazo_dias,
      Seqs [Group (Plus Digit); Star Space; wordI "día"; Opt (LitI (chr "s"))]);
    (plazo_meses,
      Seqs [Group (Plus Digit); Star Space; wordI "mese"; Opt (LitI (chr "s"))]);
    (plazo_años,
      Seqs [Group (Plus Digit); Star Space; wordI "año"; Opt (LitI (chr "s"))]);
    (monto_soles,
      Seqs [LitI (chr "S"); Lit (chr "/"); Opt (Lit (chr ".")); Star Space;
            Group amount]);
    (monto_dolares,
      Seqs [Lit (chr "$"); Star Space; Group amount]);
    (porcentaje,
      Seqs [Group (Seq (Plus Digit) (Opt (Seq (Lit (chr ".")) (Plus Digit))));
            Star Space; Lit (chr "%")]);
    (obligacion,
      one_of_words ["debe"; "deberá"; "obligatorio"; "requerido";
                    "necesario"; "imperativo"]);
    (prohibicion,
      one_of_words ["no debe"; "no deberá"; "prohibido"; "vedado"; "impedido"]);
    (opcion,
      one_of_words ["puede"; "podrá"; "opcional"; "facultativo";
                    "discrecional"]);
    (autoriza,
      one_of_words ["autoriza"; "aprueba"; "permite"; "habilita"]);
    (deniega,
      one_of_words ["deniega"; "rechaza"; "impide"; "prohíbe"]) ].

(** [self.severity_weights]. *)
Definition severity_weights (t : pattern_type) : severity_tier :=
  match t with
  | plazo_dias => high
  | plazo_meses => high
  | plazo_años => high
  | monto_soles => high
  | monto_dolares => high
  | porcentaje => medium
  | obligacion => critical
  | prohibicion => critical
  | opcion => medium
  | autoriza => high
  | deniega => critical
  end.

(** An extracted value: [{"value", "position", "context"}]. *)
Record fact := {
  value : str;
  position : nat;
  context : str
}.

(** The two keys that the analyzer reads in a metadata dict; [None]
    when the key is absent. *)
Record metadata := {
  doc_id : option str;
  nivel_jerarquico : option Z
}.

(** An entry of [_compare_values]. *)
Record conflict := {
  target : str;
  rector : str;
  conflict_context_target : str;
  conflict_context_rector : str
}.

(** An entry of the [contradictions] and [warnings] lists. *)
Record contradiction := {
  type : pattern_type;
  severity : severity_tier;
  target_value : str;
  rector_value : str;
  rector_doc : str;
  rector_level : Z;
  context_target : str;
  context_rector : str;
  description : str
}.

Record summary := {
  critical_issues : nat;
  high_issues : nat;
  medium_issues : nat;
  total_rectores_checked : nat;
  recommendation : str
}.

(** The dict that [detect_contradictions] returns. *)
Record analysis := {
  success : bool;
  contradictions_found : nat;
  warnings_found : nat;
  contradictions : list contradiction;
  warnings : list contradiction;
  compliance_score : float;
  analysis_summary : summary
}.

Definition data := list (pattern_type * list fact).

Definition lookup_data (t : pattern_type) (d : data) : option (list fact) :=
  snd <$> List.find (fun e => bool_decide (fst e = t)) d.

Definition is_member {A} `{EqDecision A} (x : A) (l : list A) : bool :=
  bool_decide (x ∈ l).

Section WithRuntime.
Context `{PyRuntime}.

Definition extract_values (r : regex) (content : str) : list fact :=
  map (fun m =>
         let start := m_start m - 50 in
         let end_ := min (length content) (m_end m + 50) in
         {| value := group1_or_0 r m;
            position := m_start m;
            context :=
              strip (PyStr.replace 10%N [32%N]
                       (PyStr.slice start end_ content)) |})
      (finditer r content).

(** [_extract_data]: a pattern type is a key only if it has matches. *)
Definition extract_data (content : str) : data :=
  flat_map (fun '(pattern_type, pattern) =>
              match extract_values pattern content with
              | [] => []
              | values => [(pattern_type, values)]
              end)
           contradiction_patterns.

Definition opposites : list (string * list string) :=
  [ ("debe", ["no debe"; "puede"]);
    ("obligatorio", ["opcional"; "prohibido"]);
    ("requerido", ["opcional"]) ].

(** [_values_conflict] *)
Definition values_conflict (target_val rector_val : str)
    (pattern_type : pattern_type) (sensitivity : str) : bool :=
  if is_member pattern_type [plazo_dias; plazo_meses; plazo_años; porcentaje]
  then
    match py_float target_val with
    | None => false
    | Some t =>
        match py_float rector_val with
        | None => false
        | Some r =>
            if PyStr.eqb sensitivity strict then neb t r
            else if PyStr.eqb sensitivity moderate
            then gtb (abs (sub t r)) (mul r f0_1)
            else gtb (abs (sub t r)) (mul r f0_2)
        end
    end
  else if is_member pattern_type [monto_soles; monto_dolares]
  then
    match py_float (PyStr.replace (chr ",") [] target_val) with
    | None => false
    | Some t =>
        match py_float (PyStr.replace (chr ",") [] rector_val) with
        | None => false
        | Some r =>
            if PyStr.eqb sensitivity strict then neb t r
            else gtb (abs (sub t r)) (mul r f0_05)
        end
    end
  else if is_member pattern_type [obligacion; prohibicion; opcion]
  then
    existsb (fun '(key, vals) =>
               PyStr.contains (u key) (lower target_val)
               && existsb (fun opp => PyStr.contains (u opp) (lower rector_val))
                          vals)
            opposites
  else false.

(** [_compare_values] *)
Definition compare_values (target_values rector_values : list fact)
    (pattern_type : pattern_type) (sensitivity : str) : list conflict :=
  flat_map (fun target_val =>
    flat_map (fun rector_val =>
      if values_conflict (value target_val) (value rector_val)
           pattern_type sensitivity
      then [ {| target := value target_val;
                rector := value rector_val;
                conflict_context_target := context target_val;
                conflict_context_rector := context rector_val |} ]
      else [])
      rector_values)
    target_values.

End WithRuntime.

(** [_calculate_severity] *)
Definition calculate_severity (pattern_type : pattern_type)
    (target_level rector_level : Z) (sensitivity : str) : severity_tier :=
  let base_severity := severity_weights pattern_type in
  let level_diff := (target_level - rector_level)%Z in
  let base_severity :=
    if (2 <? level_diff)%Z && bool_decide (base_severity = medium)
    then high else base_severity in
  let base_severity :=
    if bool_decide (base_severity = high) && PyStr.eqb sensitivity strict
    then critical else base_severity in
  base_severity.

(** [_generate_description] *)
Definition generate_description (pattern_type : pattern_type)
    (target_val rector_val rector_doc : str) : str :=
  match pattern_type with
  | plazo_dias =>
      u "El documento establece " ++ target_val ++ u " días, pero "
        ++ rector_doc ++ u " requiere " ++ rector_val ++ u " días"
  | plazo_meses =>
      u "El documento indica " ++ target_val ++ u " meses, pero "
        ++ rector_doc ++ u " establece " ++ rector_val ++ u " meses"
  | monto_soles =>
      u "El monto de S/ " ++ target_val ++ u " difiere del monto en "
        ++ rector_doc ++ u ": S/ " ++ rector_val
  | monto_dolares =>
      u "El monto de $ " ++ target_val ++ u " difiere del monto en "
        ++ rector_doc ++ u ": $ " ++ rector_val
  | porcentaje =>
      u "El porcentaje de " ++ target_val ++ u "% difiere del establecido en "
        ++ rector_doc ++ u ": " ++ rector_val ++ u "%"
  | obligacion =>
      u "Posible conflicto de obligaciones con " ++ rector_doc
  | _ =>
      u "Diferencia detectada: '" ++ target_val ++ u "' vs '" ++ rector_val
        ++ u "' en " ++ rector_doc
  end.

(** [_generate_recommendation] *)
Definition generate_recommendation (contradictions : list contradiction)
    (score : float) : str :=
  if geb score f0_9 then
    u "✅ El documento cumple con los requisitos normativos"
  else if geb score f0_7 then
    u "⚠️ El documento tiene algunas inconsistencias que deben revisarse"
  else if geb score f0_5 then
    u "❌ El documento presenta contradicciones importantes que requieren corrección"
  else
    u "🚨 El documento tiene contradicciones críticas y debe ser reescrito".

Section Detect.
Context `{PyRuntime}.

(** The body of the innermost loop of [detect_contradictions]: the
    conflict is classified, then appended to [contradictions] or to
    [warnings]. *)
Definition report (target_metadata rector_metadata : metadata)
    (pattern_type : pattern_type) (sensitivity : str)
    (lists : list contradiction * list contradiction) (c : conflict)
  : list contradiction * list contradiction :=
  let '(contradictions, warnings) := lists in
  let severity :=
    calculate_severity pattern_type
      (default 999%Z (nivel_jerarquico target_metadata))
      (default 1%Z (nivel_jerarquico rector_metadata))
      sensitivity in
  let contradiction :=
    {| type := pattern_type;
       severity := severity;
       target_value := target c;
       rector_value := rector c;
       rector_doc := default (u "Desconocido") (doc_id rector_metadata);
       rector_level := default 1%Z (nivel_jerarquico rector_metadata);
       context_target := conflict_context_target c;
       context_rector := conflict_context_rector c;
       description :=
         generate_description pattern_type (target c) (rector c)
           (default (u "Rector") (doc_id rector_metadata)) |} in
  if is_member severity [critical; high]
  then (contradictions ++ [contradiction], warnings)
  else (contradictions, warnings ++ [contradiction]).

(** The body of the loop over the governing documents. *)
Definition check_rector (target_data : data) (target_metadata : metadata)
    (sensitivity : str)
    (lists : list contradiction * list contradiction)
    (rector_entry : str * metadata)
  : list contradiction * list contradiction :=
  let '(rector_content, rector_metadata) := rector_entry in
  let rector_data := extract_data rector_content in
  fold_left
    (fun lists '(pattern_type, target_values) =>
       match lookup_data pattern_type rector_data with
       | None => lists
       | Some rector_values =>
           fold_left
             (report target_metadata rector_metadata pattern_type sensitivity)
             (compare_values target_values rector_values pattern_type
                sensitivity)
             lists
       end)
    target_data lists.

(** The penalty loop. *)
Definition penalty_of (contradictions : list contradiction) : float :=
  fold_left
    (fun penalty c =>
       if bool_decide (severity c = critical) then add penalty f0_2
       else if bool_decide (severity c = high) then add penalty f0_1
       else add penalty f0_05)
    contradictions zero.

Definition count_severity (s : severity_tier) (l : list contradiction) : nat :=
  length (List.filter (fun c => bool_decide (severity c = s)) l).

(** [detect_contradictions] *)
Definition detect_contradictions (target_content : str)
    (target_metadata : metadata) (rector_contents : list (str * metadata))
    (sensitivity : str) : analysis :=
  let target_data := extract_data target_content in
  let '(contradictions, warnings) :=
    fold_left (check_rector target_data target_metadata sensitivity)
      rector_contents ([], []) in
  let total_checks := length target_data * length rector_contents in
  let compliance_score :=
    if 0 <? total_checks then
      max0 (sub f1_0 (div (penalty_of contradictions)
                          (of_nat (max total_checks 1))))
    else f1_0 in
  {| success := true;
     contradictions_found := length contradictions;
     warnings_found := length warnings;
     contradictions := contradictions;
     warnings := warnings;
     compliance_score := round compliance_score 3;
     analysis_summary :=
       {| critical_issues := count_severity critical contradictions;
          high_issues := count_severity high contradictions;
          medium_issues := count_severity medium contradictions;
          total_rectores_checked := length rector_contents;
          recommendation :=
            generate_recommendation contradictions compliance_score |} |}.

End Detect.

End Analyzer.

(* ===================================================================== *)
(** * [difflib.SequenceMatcher(None, a, b).ratio()] *)
(* ===================================================================== *)

Module Difflib.

(** [Match(a, b, size)] *)
Record Match := { besti : nat; bestj : nat; bestsize : nat }.

Section SequenceMatcher.
Context {A : Type} `{EqDecision A}.
Variables a b : list A.

Fixpoint indices_from (x : A) (l : list A) (j : nat) : list nat :=
  match l with
  | [] => []
  | y :: l' =>
      if decide (y = x) then j :: indices_from x l' (S j)
      else indices_from x l' (S j)
  end.

(** [b2j.get(x, [])] as [__chain_b] leaves it: no junk ([isjunk] is
    [None]), and with [autojunk] the elements that occur more than
    [n // 100 + 1] times in a [b] of 200 elements or more are
    dropped. *)
Definition b2j (x : A) : list nat :=
  let idxs := indices_from x b 0 in
  let n := length b in
  if (200 <=? n) && (n / 100 + 1 <? length idxs) then [] else idxs.

(** [j2len.get(j - 1, 0)] *)
Definition j2len_get_pred (j2len : list (nat * nat)) (j : nat) : nat :=
  match j with
  | O => 0
  | S j' =>
      match List.find (fun e => fst e =? j') j2len with
      | Some e => snd e
      | None => 0
      end
  end.

Fixpoint take_below (bhi : nat) (l : list nat) : list nat :=
  match l with
  | [] => []
  | j :: l' => if bhi <=? j then [] else j :: take_below bhi l'
  end.

Definition same_at (i j : nat) : bool :=
  match a !! i, b !! j with
  | Some x, Some y => bool_decide (x = y)
  | _, _ => false
  end.

(** The body of [for i in range(alo, ahi)]. *)
Definition row (blo bhi : nat) (st : Match * list (nat * nat)) (i : nat)
  : Match * list (nat * nat) :=
  let '(best, j2len) := st in
  match a !! i with
  | None => (best, [])
  | Some x =>
      fold_left
        (fun '(best, newj2len) j =>
           if j <? blo then (best, newj2len)
           else
             let k := j2len_get_pred j2len j + 1 in
             let newj2len := (j, k) :: newj2len in
             if bestsize best <? k
             then ({| besti := i + 1 - k; bestj := j + 1 - k;
                      bestsize := k |}, newj2len)
             else (best, newj2len))
        (take_below bhi (b2j x)) (best, [])
  end.

Fixpoint extend_left (fuel alo blo : nat) (m : Match) : Match :=
  match fuel with
  | O => m
  | S fuel' =>
      if (alo <? besti m) && (blo <? bestj m)
         && same_at (besti m - 1) (bestj m - 1)
      then extend_left fuel' alo blo
             {| besti := besti m - 1; bestj := bestj m - 1;
                bestsize := bestsize m + 1 |}
      else m
  end.

Fixpoint extend_right (fuel ahi bhi : nat) (m : Match) : Match :=
  match fuel with
  | O => m
  | S fuel' =>
      if (besti m + bestsize m <? ahi) && (bestj m + bestsize m <? bhi)
         && same_at (besti m + bestsize m) (bestj m + bestsize m)
      then extend_right fuel' ahi bhi
             {| besti := besti m; bestj := bestj m;
                bestsize := bestsize m + 1 |}
      else m
  end.

(** [find_longest_match(alo, ahi, blo, bhi)].  Each turn of the first
    [while] lowers [besti] and each turn of the second raises
    [besti + bestsize] towards [ahi], which bounds them; the two
    loops over junk never run, there being no junk. *)
Definition find_longest_match (alo ahi blo bhi : nat) : Match :=
  let start := ({| besti := alo; bestj := blo; bestsize := 0 |}, []) in
  let best := fst (fold_left (row blo bhi) (seq alo (ahi - alo)) start) in
  let best := extend_left (besti best) alo blo best in
  extend_right (ahi - (besti best + bestsize best)) ahi bhi best.

(** The [while queue] loop of [get_matching_blocks]; the head of the
    list is the end of the Python list, where [pop] and [append]
    work.  A block found splits its region in two strictly smaller
    ones, so that [2 * len(a) + 1] turns empty the queue. *)
Fixpoint matching_loop (fuel : nat) (queue : list (nat * nat * nat * nat))
    (matching_blocks : list Match) : list Match :=
  match fuel, queue with
  | S fuel', (alo, ahi, blo, bhi) :: queue =>
      let x := find_longest_match alo ahi blo bhi in
      let '(i, j, k) := (besti x, bestj x, bestsize x) in
      if 0 <? k then
        let queue :=
          if (alo <? i) && (blo <? j) then (alo, i, blo, j) :: queue
          else queue in
        let queue :=
          if (i + k <? ahi) && (j + k <? bhi)
          then (i + k, ahi, j + k, bhi) :: queue
          else queue in
        matching_loop fuel' queue (matching_blocks ++ [x])
      else matching_loop fuel' queue matching_blocks
  | _, _ => matching_blocks
  end.

(** The blocks found; [get_matching_blocks] then sorts and merges
    them, which does not change the sum of their sizes. *)
Definition matching_blocks : list Match :=
  matching_loop (2 * length a + 1) [(0, length a, 0, length b)] [].

(** [ratio()], that is [_calculate_ratio(matches, len(a) + len(b))]. *)
Definition ratio : PyFloat.float :=
  let matches := sum_list (map bestsize matching_blocks) in
  let length := length a + length b in
  if 0 <? length
  then PyFloat.div (PyFloat.mul PyFloat.f2_0 (PyFloat.of_nat matches))
                   (PyFloat.of_nat length)
  else PyFloat.f1_0.

End SequenceMatcher.

End Difflib.

(* ===================================================================== *)
(** * [comparer.py]: DocumentComparer *)
(* ===================================================================== *)

Module Comparer.

Import Regex PyFloat.

Definition chr := Analyzer.chr.

Definition capital : regex :=
  InSet [(chr "A", chr "Z"); (chr "Á", chr "Á"); (chr "É", chr "É");
         (chr "Í", chr "Í"); (chr "Ó", chr "Ó"); (chr "Ú", chr "Ú");
         (chr "Ñ", chr "Ñ")].

Definition small : regex :=
  InSet [(chr "a", chr "z"); (chr "á", chr "á"); (chr "é", chr "é");
         (chr "í", chr "í"); (chr "ó", chr "ó"); (chr "ú", chr "ú");
         (chr "ñ", chr "ñ")].

(** [\b[A-ZÁÉÍÓÚÑ][a-záéíóúñ]+(?:\s+[A-ZÁÉÍÓÚÑ][a-záéíóúñ]+)*\b] *)
Definition term_pattern : regex :=
  Seqs [Boundary; capital; Plus small;
        Star (Seqs [Plus Space; capital; Plus small]);
        Boundary].

Definition common_words : gset str :=
  list_to_set (map u ["El"; "La"; "Los"; "Las"; "Un"; "Una"; "De"; "Del";
                      "En"; "Por"; "Para"; "Con"]).

(** The keys of [patterns] in [_compare_numeric_values]. *)
Inductive category :=
| dias | meses | años | porcentajes | montos | numeros_generales.

#[export] Instance category_eq_dec : EqDecision category.
Proof. solve_decision. Defined.

Definition digits_then (w : string) : regex :=
  Seqs [Group (Plus Digit); Star Space; wordI w; Opt (LitI (chr "s"))].

Definition patterns : list (category * regex) :=
  [ (dias, digits_then "día");
    (meses, digits_then "mese");
    (años, digits_then "año");
    (porcentajes,
      Seqs [Group (Seq (Plus Digit) (Opt (Seq (Lit (chr ".")) (Plus Digit))));
            Star Space; Lit (chr "%")]);
    (montos, Seqs [Lit (chr "$"); Star Space; Group Analyzer.amount]);
    (numeros_generales, Seqs [Boundary; Group (Plus Digit); Boundary]) ].

(** The dict of [_compare_terminology]; each of the three lists of
    terms holds the first 20 elements of the list made from a set.  In
    each dict the [analysis] sentence, a formatting of the other
    entries, is left out. *)
Record terminology := {
  unique_to_doc1 : list str;
  unique_to_doc2 : list str;
  common_terms : list str;
  terminology_similarity : float;
  total_unique_terms_doc1 : nat;
  total_unique_terms_doc2 : nat
}.

Record mismatch := {
  solo_en_doc1 : gset str;
  solo_en_doc2 : gset str
}.

Record numeric := {
  values_doc1 : list (category * list str);
  values_doc2 : list (category * list str);
  mismatches : list (category * mismatch);
  potential_contradictions : bool
}.

Record structure := {
  doc1_lines : nat;
  doc2_lines : nat;
  doc1_sections : nat;
  doc2_sections : nat;
  structure_similarity : float;
  line_difference : nat;
  sections_sample_doc1 : list str;
  sections_sample_doc2 : list str
}.

Record full_summary := {
  similar_terminology : bool;
  has_numeric_differences : bool;
  similar_structure : bool;
  overall_similarity : float
}.

Record full := {
  text_similarity : float;
  length_doc1 : nat;
  length_doc2 : nat;
  terminology_analysis : terminology;
  numeric_analysis : numeric;
  structure_analysis : structure;
  summary : full_summary
}.

Inductive comparison :=
| Terminology (r : terminology)
| Numeric (r : numeric)
| Structure (r : structure)
| Full (r : full).

Section WithRuntime.
Context `{PyRuntime}.

(** [set(re.findall(pattern, doc)) - common_words] *)
Definition terms_of (doc : str) : gset str :=
  list_to_set (findall term_pattern doc) ∖ common_words.

(** [_compare_terminology]; [len(common_terms)], the length of the
    list made from the set of the common terms, is the size of that
    set. *)
Definition compare_terminology (doc1 doc2 : str) : terminology :=
  let terms1 := terms_of doc1 in
  let terms2 := terms_of doc2 in
  let common := terms1 ∩ terms2 in
  let similarity :=
    of_ratio (Z.of_nat (size common))
             (Z.of_nat (max (size (terms1 ∪ terms2)) 1)) in
  {| unique_to_doc1 := take 20 (py_list (terms1 ∖ terms2));
     unique_to_doc2 := take 20 (py_list (terms2 ∖ terms1));
     common_terms := take 20 (py_list common);
     terminology_similarity := round similarity 3;
     total_unique_terms_doc1 := size terms1;
     total_unique_terms_doc2 := size terms2 |}.

(** [_compare_numeric_values] *)
Definition compare_numeric_values (doc1 doc2 : str) : numeric :=
  let values1 := map (fun '(c, p) => (c, findall p doc1)) patterns in
  let values2 := map (fun '(c, p) => (c, findall p doc2)) patterns in
  let mismatches :=
    flat_map (fun '(c, p) =>
      if bool_decide (c = numeros_generales) then []
      else
        let set1 : gset str := list_to_set (findall p doc1) in
        let set2 : gset str := list_to_set (findall p doc2) in
        if bool_decide (set1 = set2) then []
        else [(c, {| solo_en_doc1 := set1 ∖ set2;
                     solo_en_doc2 := set2 ∖ set1 |})])
      patterns in
  let shown :=
    fun values : list (category * list str) =>
      map (fun '(k, v) => (k, take 10 v))
          (List.filter (fun e => negb (bool_decide (fst e = numeros_generales)))
                       values) in
  {| values_doc1 := shown values1;
     values_doc2 := shown values2;
     mismatches := mismatches;
     potential_contradictions := 0 <? length mismatches |}.

(** [[l.strip() for l in doc.split('\n') if l.strip()]] *)
Definition lines_of (doc : str) : list str :=
  List.filter (fun l => negb (bool_decide (l = [])))
              (map strip (PyStr.split 10%N doc)).

(** [[l for l in lines if re.match(r'^\d+\.', l) or l.isupper()]] *)
Definition sections_of (lines : list str) : list str :=
  List.filter (fun l =>
                 matches_start (Seq (Plus Digit) (Lit (chr "."))) l
                 || isupper l)
              lines.

Definition abs_diff (n m : nat) : nat := (n - m) + (m - n).

(** [_compare_structure] *)
Definition compare_structure (doc1 doc2 : str) : structure :=
  let lines1 := lines_of doc1 in
  let lines2 := lines_of doc2 in
  let sections1 := sections_of lines1 in
  let sections2 := sections_of lines2 in
  let similarity := Difflib.ratio lines1 lines2 in
  {| doc1_lines := length lines1;
     doc2_lines := length lines2;
     doc1_sections := length sections1;
     doc2_sections := length sections2;
     structure_similarity := round similarity 3;
     line_difference := abs_diff (length lines1) (length lines2);
     sections_sample_doc1 := take 5 sections1;
     sections_sample_doc2 := take 5 sections2 |}.

(** [_compare_full] *)
Definition compare_full (doc1 doc2 : str) : full :=
  let terminology := compare_terminology doc1 doc2 in
  let numeric := compare_numeric_values doc1 doc2 in
  let structure := compare_structure doc1 doc2 in
  let text_similarity := Difflib.ratio doc1 doc2 in
  {| text_similarity := round text_similarity 3;
     length_doc1 := length doc1;
     length_doc2 := length doc2;
     terminology_analysis := terminology;
     numeric_analysis := numeric;
     structure_analysis := structure;
     summary :=
       {| similar_terminology :=
            gtb (terminology_similarity terminology) f0_5;
          has_numeric_differences := potential_contradictions numeric;
          similar_structure :=
            gtb (structure_similarity structure) f0_3;
          overall_similarity := round text_similarity 3 |} |}.

(** [compare_documents]; the identifiers [doc1_id] and [doc2_id] are
    only copied into the dict. *)
Definition compare_documents (doc1_content doc2_content : str)
    (comparison_type : str) : comparison :=
  if PyStr.eqb comparison_type (u "terminology")
  then Terminology (compare_terminology doc1_content doc2_content)
  else if PyStr.eqb comparison_type (u "numeric")
  then Numeric (compare_numeric_values doc1_content doc2_content)
  else if PyStr.eqb comparison_type (u "structure")
  then Structure (compare_structure doc1_content doc2_content)
  else Full (compare_full doc1_content doc2_content).

End WithRuntime.

End Comparer.

(* ===================================================================== *)
(** * [tools.py] and [orchestrator.py]: the tool-use loop *)
(* ===================================================================== *)

Module Orchestrator.

(** The values exchanged with the planner and with the tools: what
    JSON can hold. *)
Inductive value :=
| VNone
| VBool (b : bool)
| VInt (z : Z)
| VFloat (f : PyFloat.float)
| VStr (s : str)
| VList (l : list value)
| VDict (d : list (str * value)).

(** Exceptions, with what [str(e)] needs. *)
Inductive exn :=
| KeyError (key : str)
| TypeError (msg : str)
| AttributeError (msg : str)
| OtherError (msg : str).

(** A computation that returns or raises. *)
Definition result (A : Type) : Type := exn + A.

Definition ret {A} (x : A) : result A := inr x.
Definition raise {A} (e : exn) : result A := inl e.
Definition bind {A B} (m : result A) (f : A -> result B) : result B :=
  match m with
  | inl e => inl e
  | inr x => f x
  end.

Notation "'let*' x ':=' m 'in' k" := (bind m (fun x => k))
  (at level 10, x name, m at level 100, k at level 200).

(** [str(e)]; the [repr] of a key is the key between quotes. *)
Definition str_of_exn (e : exn) : str :=
  match e with
  | KeyError key => u "'" ++ key ++ u "'"
  | TypeError msg => msg
  | AttributeError msg => msg
  | OtherError msg => msg
  end.

Fixpoint assoc (k : str) (d : list (str * value)) : option value :=
  match d with
  | [] => None
  | (k', v) :: d' => if PyStr.eqb k' k then Some v else assoc k d'
  end.

(** [v[k]] *)
Definition getitem (v : value) (k : string) : result value :=
  match v with
  | VDict d =>
      match assoc (u k) d with
      | Some x => ret x
      | None => raise (KeyError (u k))
      end
  | _ => raise (TypeError (u "object is not subscriptable with a str"))
  end.

(** [v.get(k, default)] *)
Definition get (v : value) (k : string) (default : value) : result value :=
  match v with
  | VDict d => ret (from_option id default (assoc (u k) d))
  | _ => raise (AttributeError (u "object has no attribute 'get'"))
  end.

(** Truth value of an object. *)
Definition truthy (v : value) : bool :=
  match v with
  | VNone => false
  | VBool b => b
  | VInt z => negb (z =? 0)%Z
  | VFloat f => negb (PyFloat.eqb f PyFloat.zero)
  | VStr s => negb (bool_decide (s = []))
  | VList l => negb (bool_decide (length l = 0))
  | VDict d => negb (bool_decide (length d = 0))
  end.

(** [for x in v] *)
Definition iterate (v : value) : result (list value) :=
  match v with
  | VList l => ret l
  | VStr s => ret (map (fun c => VStr [c]) s)
  | VDict d => ret (map (fun e => VStr (fst e)) d)
  | _ => raise (TypeError (u "object is not iterable"))
  end.

(** An entry of [TOOLS]: the name of the tool, the properties of its
    input schema and those the schema requires. *)
Record tool := {
  name : string;
  properties : list string;
  required : list string
}.

Definition TOOLS : list tool :=
  [ {| name := "read_document";
       properties := ["doc_id"; "section"];
       required := ["doc_id"] |};
    {| name := "list_documents";
       properties := ["tipo"; "es_rector"; "institucion"];
       required := [] |};
    {| name := "get_document_hierarchy";
       properties := ["doc_id"];
       required := ["doc_id"] |};
    {| name := "compare_documents";
       properties := ["doc1_id"; "doc2_id"; "comparison_type"];
       required := ["doc1_id"; "doc2_id"] |};
    {| name := "detect_contradictions";
       properties := ["target_doc_id"; "rector_doc_ids"; "sensitivity"];
       required := ["target_doc_id"; "rector_doc_ids"] |};
    {| name := "extract_key_terms";
       properties := ["doc_id"; "term_types"];
       required := ["doc_id"] |} ].

(** The collaborators of the orchestrator.  Each may return a dict or
    raise. *)
Record servers := {
  (** [reader.read_document(doc_id, section)] *)
  read_document : value -> value -> result value;
  (** [reader.list_documents(tipo, es_rector, institucion)] *)
  list_documents : value -> value -> value -> result value;
  (** [reader.get_document_hierarchy(doc_id)] *)
  get_document_hierarchy : value -> result value;
  (** [comparer.compare_documents(doc1_content, doc2_content, doc1_id,
      doc2_id, comparison_type)] *)
  compare_documents : value -> value -> value -> value -> value -> result value;
  (** [analyzer.detect_contradictions(target_content, target_metadata,
      rector_contents, sensitivity)] *)
  detect_contradictions :
    value -> value -> list (value * value) -> value -> result value;
  (** [str(x)] inside an f-string *)
  format : value -> str;
  (** [list(s)] for a set [s], in the order of the interpreter *)
  list_of_set : gset str -> list str;
  (** [json.dumps(x, ensure_ascii=False, indent=2)] *)
  json_dumps : value -> str
}.

(** A block of the planner's response: text, a tool request, or
    anything else. *)
Inductive block :=
| TextBlock (text : str)
| ToolUseBlock (id : str) (name : str) (input : value)
| OtherBlock.

(** An entry of [tool_results]; its ["type"] is ["tool_result"]. *)
Record tool_result := {
  tool_use_id : str;
  content : str
}.

Inductive message :=
| UserText (content : str)
| Assistant (content : list block)
| UserToolResults (content : list tool_result).

(** What the loop reads in a response; [usage] is [None] when the
    response has no such attribute. *)
Record response := {
  stop_reason : str;
  response_content : list block;
  usage : option (Z * Z)
}.

Record log_entry := {
  log_iteration : nat;
  log_stop_reason : str;
  input_tokens : Z;
  output_tokens : Z
}.

(** The dict that [_run_tool_use_loop] returns, by its ["status"]. *)
Inductive outcome :=
| completed (result : str) (iterations : nat) (tool_use_log : list log_entry)
    (doc_id : option str)
| error (error : str) (iterations : nat) (tool_use_log : list log_entry)
| max_iterations_reached (iterations : nat) (tool_use_log : list log_entry).

Definition iterations_of (o : outcome) : nat :=
  match o with
  | completed _ n _ _ | error _ n _ | max_iterations_reached n _ => n
  end.

Definition tool_use_log_of (o : outcome) : list log_entry :=
  match o with
  | completed _ _ l _ | error _ _ l | max_iterations_reached _ l => l
  end.

(** [self.max_iterations] *)
Definition max_iterations : nat := 15.

Definition error_payload (msg : str) : value := VDict [(u "error", VStr msg)].

Section Dispatch.
Context `{PyRuntime}.
Variable srv : servers.

(** The loop over [tool_input["rector_doc_ids"]]. *)
Fixpoint read_rectors (ids : list value) (rector_contents : list (value * value))
  : result (list (value * value)) :=
  match ids with
  | [] => ret rector_contents
  | rector_id :: ids' =>
      let* rector := read_document srv rector_id VNone in
      let* ok := getitem rector "success" in
      if truthy ok then
        let* c := getitem rector "content" in
        let* m := getitem rector "metadata" in
        read_rectors ids' (rector_contents ++ [(c, m)])
      else read_rectors ids' rector_contents
  end.

Definition is_name (tool_name : str) (s : string) : bool :=
  PyStr.eqb tool_name (u s).

(** The [try] block of [_dispatch_tool]. *)
Definition dispatch_body (tool_name : str) (tool_input : value)
  : result value :=
  if is_name tool_name "read_document" then
    let* doc_id := getitem tool_input "doc_id" in
    let* section := get tool_input "section" VNone in
    read_document srv doc_id section
  else if is_name tool_name "list_documents" then
    let* tipo := get tool_input "tipo" VNone in
    let* es_rector := get tool_input "es_rector" VNone in
    let* institucion := get tool_input "institucion" VNone in
    list_documents srv tipo es_rector institucion
  else if is_name tool_name "get_document_hierarchy" then
    let* doc_id := getitem tool_input "doc_id" in
    get_document_hierarchy srv doc_id
  else if is_name tool_name "compare_documents" then
    let* id1 := getitem tool_input "doc_id_1" in
    let* doc1 := read_document srv id1 VNone in
    let* id2 := getitem tool_input "doc_id_2" in
    let* doc2 := read_document srv id2 VNone in
    let* ok1 := getitem doc1 "success" in
    if negb (truthy ok1)
    then ret (error_payload (u "No se pudieron leer los documentos"))
    else
      let* ok2 := getitem doc2 "success" in
      if negb (truthy ok2)
      then ret (error_payload (u "No se pudieron leer los documentos"))
      else
        let* c1 := getitem doc1 "content" in
        let* c2 := getitem doc2 "content" in
        let* id1 := getitem tool_input "doc_id_1" in
        let* id2 := getitem tool_input "doc_id_2" in
        let* comparison_type := get tool_input "comparison_type" (VStr (u "full")) in
        compare_documents srv c1 c2 id1 id2 comparison_type
  else if is_name tool_name "detect_contradictions" then
    let* target_id := getitem tool_input "target_doc_id" in
    let* target_doc := read_document srv target_id VNone in
    let* ok := getitem target_doc "success" in
    if negb (truthy ok)
    then
      let* target_id := getitem tool_input "target_doc_id" in
      ret (error_payload
             (u "No se pudo leer el documento " ++ format srv target_id))
    else
      let* ids := getitem tool_input "rector_doc_ids" in
      let* ids := iterate ids in
      let* rector_contents := read_rectors ids [] in
      let* target_content := getitem target_doc "content" in
      let* target_metadata := getitem target_doc "metadata" in
      let* sensitivity := get tool_input "sensitivity" (VStr (u "moderate")) in
      detect_contradictions srv target_content target_metadata
        rector_contents sensitivity
  else if is_name tool_name "extract_key_terms" then
    let* doc_id := getitem tool_input "doc_id" in
    let* doc := read_document srv doc_id VNone in
    let* ok := getitem doc "success" in
    if negb (truthy ok)
    then ret (error_payload (u "No se pudo leer el documento"))
    else
      let* doc_content := getitem doc "content" in
      match doc_content with
      | VStr text =>
          let terms : gset str :=
            list_to_set (Regex.findall Comparer.term_pattern text) in
          let* doc_id := getitem tool_input "doc_id" in
          ret (VDict [ (u "success", VBool true);
                       (u "doc_id", doc_id);
                       (u "key_terms",
                         VList (map VStr (take 30 (list_of_set srv terms))));
                       (u "total_unique_terms",
                         VInt (Z.of_nat (size terms))) ])
      | _ => raise (TypeError (u "expected string or bytes-like object"))
      end
  else
    ret (error_payload
           (u "Herramienta '" ++ tool_name ++ u "' no implementada")).

(** [_dispatch_tool]: the [try] block under its [except Exception]. *)
Definition dispatch_tool (tool_name : str) (tool_input : value) : value :=
  match dispatch_body tool_name tool_input with
  | inr payload => payload
  | inl e =>
      error_payload
        (u "Error ejecutando " ++ tool_name ++ u ": " ++ str_of_exn e)
  end.

(** [_execute_tools] *)
Definition execute_tools (content : list block) : list tool_result :=
  flat_map (fun block =>
              match block with
              | ToolUseBlock id tool_name tool_input =>
                  [ {| tool_use_id := id;
                       content :=
                         json_dumps srv (dispatch_tool tool_name tool_input) |} ]
              | _ => []
              end)
           content.

(** [_extract_text] *)
Definition extract_text (content : list block) : str :=
  PyStr.join [10%N]
    (flat_map (fun block =>
                 match block with
                 | TextBlock text => [text]
                 | _ => []
                 end)
              content).

End Dispatch.

Section Loop.
Context `{PyRuntime}.
Variable srv : servers.
(** The planner: what [client.messages.create] answers, or raises,
    at the round trip of a given number for the messages sent. *)
Variable planner : nat -> list message -> result response.
(** [context.get("doc_id")] *)
Variable doc_id : option str.

Definition log_of (iteration : nat) (r : response) : log_entry :=
  {| log_iteration := iteration;
     log_stop_reason := stop_reason r;
     input_tokens := from_option fst 0%Z (usage r);
     output_tokens := from_option snd 0%Z (usage r) |}.

(** The [while iteration < self.max_iterations] loop, from the state
    it has at the head of a turn. *)
Equations? run_from (iteration : nat) (messages : list message)
    (tool_use_log : list log_entry) : outcome
  by wf (max_iterations - iteration) lt :=
run_from iteration messages tool_use_log
  with decide (iteration < max_iterations) := {
  | right _ => max_iterations_reached iteration tool_use_log
  | left _ with planner (S iteration) messages := {
    | inl e => error (str_of_exn e) (S iteration) tool_use_log
    | inr response
        with PyStr.eqb (stop_reason response) (u "end_turn") := {
      | true =>
          completed (extract_text (response_content response))
            (S iteration)
            (tool_use_log ++ [log_of (S iteration) response])
            doc_id
      | false
          with PyStr.eqb (stop_reason response) (u "tool_use") := {
        | true =>
            run_from (S iteration)
              (messages
                 ++ [Assistant (response_content response);
                     UserToolResults
                       (execute_tools srv (response_content response))])
              (tool_use_log ++ [log_of (S iteration) response])
        | false =>
            run_from (S iteration) messages
              (tool_use_log ++ [log_of (S iteration) response]) } } } }.
Proof. all: unfold max_iterations in *; lia. Qed.

(** [_run_tool_use_loop] *)
Definition run_tool_use_loop (messages : list message) : outcome :=
  run_from 0 messages [].

End Loop.

End Orchestrator.

(* ===================================================================== *)
(** * The specification's formulas, as it words them *)
(* ===================================================================== *)

Module Spec.

Import PyFloat Analyzer.

(** Section 4.4: the fixed base severity of a fact type. *)
Definition base_severity (t : pattern_type) : severity_tier :=
  match t with
  | plazo_dias | plazo_meses | plazo_años => high
  | monto_soles | monto_dolares => high
  | porcentaje | opcion => medium
  | obligacion | prohibicion | deniega => critical
  | autoriza => high
  end.

(** Section 4.4: the two escalations, in order. *)
Definition classify (t : pattern_type) (target_rank governing_rank : Z)
    (sensitivity : str) : severity_tier :=
  let s0 := base_severity t in
  let s1 :=
    if bool_decide (s0 = medium ∧ (target_rank - governing_rank > 2)%Z)
    then high else s0 in
  if bool_decide (s1 = high ∧ sensitivity = strict) then critical else s1.

(** Section 4.5: the penalty of an item. *)
Definition weight (s : severity_tier) : float :=
  match s with
  | critical => f0_2
  | high => f0_1
  | medium => f0_05
  end.

Fixpoint accumulate (penalty : float) (items : list contradiction) : float :=
  match items with
  | [] => penalty
  | c :: items' => accumulate (add penalty (weight (severity c))) items'
  end.

(** Section 4.5: the score of a list of items for [total_checks]. *)
Definition score (items : list contradiction) (total_checks : nat) : float :=
  if bool_decide (total_checks = 0) then f1_0
  else
    round (max0 (sub f1_0 (div (accumulate zero items)
                               (of_nat (max total_checks 1)))))
          3.

(** A conflict is reported as a contradiction when it is classified
    critical or high. *)
Definition is_contradiction (c : contradiction) : bool :=
  bool_decide (severity c = critical ∨ severity c = high).

(** Otherwise it is reported as a warning. *)
Definition is_warning (c : contradiction) : bool := negb (is_contradiction c).

(** The entry that [detect_contradictions] builds for a conflict. *)
Definition entry_of (target_metadata rector_metadata : metadata)
    (t : pattern_type) (sensitivity : str) (c : conflict) : contradiction :=
  {| type := t;
     severity :=
       calculate_severity t
         (default 999%Z (nivel_jerarquico target_metadata))
         (default 1%Z (nivel_jerarquico rector_metadata))
         sensitivity;
     target_value := target c;
     rector_value := rector c;
     rector_doc := default (u "Desconocido") (doc_id rector_metadata);
     rector_level := default 1%Z (nivel_jerarquico rector_metadata);
     context_target := conflict_context_target c;
     context_rector := conflict_context_rector c;
     description :=
       generate_description t (target c) (rector c)
         (default (u "Rector") (doc_id rector_metadata)) |}.

Section WithRuntime.
Context `{PyRuntime}.

(** The conflicts between the target and one governing document, in
    the order in which the loops meet them. *)
Definition conflicts_with (target_data : data) (target_metadata : metadata)
    (sensitivity : str) (rector_entry : str * metadata)
  : list contradiction :=
  flat_map
    (fun '(t, target_values) =>
       match lookup_data t (extract_data (fst rector_entry)) with
       | None => []
       | Some rector_values =>
           map (entry_of target_metadata (snd rector_entry) t sensitivity)
               (compare_values target_values rector_values t sensitivity)
       end)
    target_data.

(** The same conflicts before they are classified: what
    [_compare_values] returns for each fact type present in both
    documents. *)
Definition raw_conflicts (target_data : data) (sensitivity : str)
    (rector_content : str) : list (pattern_type * list conflict) :=
  flat_map
    (fun '(t, target_values) =>
       match lookup_data t (extract_data rector_content) with
       | None => []
       | Some rector_values =>
           [(t, compare_values target_values rector_values t sensitivity)]
       end)
    target_data.

(** All the conflicts of an analysis. *)
Definition all_conflicts (target_content : str) (target_metadata : metadata)
    (rector_contents : list (str * metadata)) (sensitivity : str)
  : list contradiction :=
  flat_map
    (conflicts_with (extract_data target_content) target_metadata sensitivity)
    rector_contents.

End WithRuntime.

(** The number that a plain decimal numeral denotes: digits and an
    optional fraction. *)
Definition denoted (s : str) : option QArith_base.Q :=
  let '(ip, ni, rest) := Latin1.read_digits s 0%Z 0%nat in
  match rest with
  | [] => if (ni =? 0)%nat then None else Some (QArith_base.inject_Z ip)
  | 46%N :: fraction =>
      let '(fp, nf, rest') := Latin1.read_digits fraction ip 0%nat in
      match rest' with
      | [] =>
          if (ni + nf =? 0)%nat then None
          else Some (QArith_base.Qmake fp (Z.to_pos (10 ^ Z.of_nat nf)))
      | _ => None
      end
  | _ => None
  end.

(** [|target − governing| > tolerance × governing], on the numbers
    themselves. *)
Definition apart (tolerance target governing : QArith_base.Q) : bool :=
  negb (QArith_base.Qle_bool
          (Qabs.Qabs (QArith_base.Qminus target governing))
          (QArith_base.Qmult tolerance governing)).

(** The rule of section 4.3 for the period and percentage types, as
    the specification words it, on real numbers: any inequality under
    [strict], a distance above 0.10 of the governing value under
    [moderate] and above 0.20 of it under [flexible]. *)
Definition period_conflict (sensitivity : str)
    (target governing : QArith_base.Q) : bool :=
  if PyStr.eqb sensitivity strict
  then negb (QArith_base.Qeq_bool target governing)
  else if PyStr.eqb sensitivity moderate
  then apart (QArith_base.Qmake 10 100) target governing
  else apart (QArith_base.Qmake 20 100) target governing.

(** The rule of section 4.3 for the currency types: any inequality
    under [strict], and a distance above 5% of the governing value
    under every other tier. *)
Definition currency_conflict (sensitivity : str)
    (target governing : QArith_base.Q) : bool :=
  if PyStr.eqb sensitivity strict
  then negb (QArith_base.Qeq_bool target governing)
  else apart (QArith_base.Qmake 5 100) target governing.

(** The two rules on the values: a value that is not a numeral never
    conflicts, and the commas of an amount are dropped. *)
Definition period_conflict_of (sensitivity target_val rector_val : str)
  : bool :=
  match denoted target_val, denoted rector_val with
  | Some target, Some governing => period_conflict sensitivity target governing
  | _, _ => false
  end.

Definition currency_conflict_of (sensitivity target_val rector_val : str)
  : bool :=
  match denoted (PyStr.replace (chr ",") [] target_val),
        denoted (PyStr.replace (chr ",") [] rector_val) with
  | Some target, Some governing =>
      currency_conflict sensitivity target governing
  | _, _ => false
  end.

(** The operation catalog of section 6 of the specification: each
    operation with its required input fields, under the keys of a
    request ([governing_doc_ids] is the key [rector_doc_ids]).  The
    optional fields, marked [?] in the catalog, are left out. *)
Definition catalog : list (string * list string) :=
  [ ("read_document", ["doc_id"]);
    ("list_documents", []);
    ("get_document_hierarchy", ["doc_id"]);
    ("compare_documents", ["doc_id_1"; "doc_id_2"]);
    ("detect_contradictions", ["target_doc_id"; "rector_doc_ids"]);
    ("extract_key_terms", ["doc_id"]) ].

(** What the loop keeps true at the head of each turn: the log holds
    one entry for each of the turns made, in order.  The outcome then
    tells how many round trips there were, never more than the
    ceiling. *)
Definition well_logged (o : Orchestrator.outcome) : Prop :=
  match o with
  | Orchestrator.completed _ n log _ =>
      n ≤ Orchestrator.max_iterations ∧ map Orchestrator.log_iteration log = seq 1 n
  | Orchestrator.error _ n log =>
      n ≤ Orchestrator.max_iterations ∧ map Orchestrator.log_iteration log = seq 1 (n - 1)
  | Orchestrator.max_iterations_reached n log =>
      n = Orchestrator.max_iterations ∧ map Orchestrator.log_iteration log = seq 1 n
  end.

(** A computation that raises or returns an error payload. *)
Definition fails (r : Orchestrator.result Orchestrator.value) : Prop :=
  match r with
  | inl _ => True
  | inr v => ∃ msg, v = Orchestrator.error_payload msg
  end.

(** One sensitivity tier is stricter than another. *)
Definition stricter (s1 s2 : str) : Prop :=
  (s1 = strict ∧ s2 = moderate)
  ∨ (s1 = strict ∧ s2 = flexible)
  ∨ (s1 = moderate ∧ s2 = flexible).

(** The number that [_values_conflict] reads in a value of a numeric
    fact type: commas are dropped from an amount. *)
Definition number_of `{PyRuntime} (t : pattern_type) (v : str) : option float :=
  if is_member t [plazo_dias; plazo_meses; plazo_años; porcentaje]
  then py_float v
  else if is_member t [monto_soles; monto_dolares]
  then py_float (PyStr.replace (chr ",") [] v)
  else None.

(** The turns that a region of the queue may still cost. *)
Definition turns (queue : list (nat * nat * nat * nat)) : nat :=
  sum_list (map (fun '(alo, ahi, _, _) => 2 * (ahi - alo) + 1) queue).

(** ** What the patterns of the numeric fact types capture *)

Import Regex.

(** The expression starts with a decimal digit. *)
Fixpoint leads_digit (r : regex) : bool :=
  match r with
  | Digit => true
  | Seq r1 _ => leads_digit r1
  | Alt r1 r2 => leads_digit r1 && leads_digit r2
  | Group r1 => leads_digit r1
  | _ => false
  end.

(** Every match of the expression leaves in group 1 a text that starts
    with a decimal digit. *)
Fixpoint captures_numeral (r : regex) : bool :=
  match r with
  | Group r1 => (groups r1 =? 0)%nat && leads_digit r1
  | Seq r1 r2 =>
      (captures_numeral r1 && (groups r2 =? 0)%nat)
      || ((groups r1 =? 0)%nat && captures_numeral r2)
  | Alt r1 r2 => captures_numeral r1 && captures_numeral r2
  | _ => false
  end.

Definition digit_led `{PyRuntime} (s : str) : Prop :=
  ∃ c w, s = c :: w ∧ isdecimal c = true.

(** What a match of [r] from [st] to [st'] has done. *)
Definition matched `{PyRuntime} (r : regex) (st st' : mstate) : Prop :=
  (∃ consumed,
     m_rest st = consumed ++ m_rest st'
     ∧ m_pos st' = m_pos st + length consumed
     ∧ (leads_digit r = true → digit_led consumed))
  ∧ (groups r = 0 → m_group st' = m_group st)
  ∧ (captures_numeral r = true → ∃ g, m_group st' = Some g ∧ digit_led g).

(** [float()] reads no negative number in a text that starts with a
    decimal digit, and the comma is no decimal digit. *)
Definition unsigned_numerals `{PyRuntime} : Prop :=
  isdecimal (chr ",") = false
  ∧ ∀ s r, digit_led s → py_float s = Some r → ltb r zero = false.

(** The fact types whose values [_values_conflict] reads as numbers. *)
Definition numeric (t : pattern_type) : bool :=
  is_member t [plazo_dias; plazo_meses; plazo_años; porcentaje;
               monto_soles; monto_dolares].

(** Two entries report the same conflict, whatever its severity. *)
Definition same_conflict (c c' : contradiction) : Prop :=
  type c = type c' ∧ target_value c = target_value c'
  ∧ rector_value c = rector_value c' ∧ rector_doc c = rector_doc c'
  ∧ rector_level c = rector_level c'
  ∧ context_target c = context_target c'
  ∧ context_rector c = context_rector c'
  ∧ description c = description c'.

End Spec.

(* ===================================================================== *)
(** * The stages of the rounding of [SpecFloat] *)
(* ===================================================================== *)

(** [binary_round_aux] shifts the mantissa to the precision, rounds it,
    shifts it again if the rounding carried, and builds the number.
    These are the stages, named for the proofs on rounding below. *)
Module Rounding.

Import PyFloat.
Local Open Scope Z_scope.

Definition shrn (n : Z) (mrs : shr_record) : shr_record :=
  match n with
  | Zpos p => SpecFloat.iter_pos shr_1 p mrs
  | _ => mrs
  end.
Definition rnd (mrs : shr_record) : Z :=
  round_nearest_even (shr_m mrs) (loc_of_shr_record mrs).
Definition exact (m : Z) : shr_record :=
  {| shr_m := m; shr_r := false; shr_s := false |}.
Definition final (m e : Z) : float :=
  match m with
  | Z0 => S754_zero false
  | Zpos p => if e <=? emax - prec then S754_finite false p e
              else S754_infinity false
  | Zneg _ => S754_nan
  end.
Definition shifted (n e : Z) : Z := if 0 <? n then e + n else e.
Definition fexp (x : Z) : Z := Z.max (x - 53) (-1074).
(** [x] is below [y]: whatever is above [y] is above [x]. *)
Definition below (x y : float) : Prop :=
  ∀ d, ltb y d = true → ltb x d = true.

(** The whole numbers from 0 to [N], each with its float. *)
Definition whole_numbers (N : Z) : list (Z * float) :=
  map (fun n => (n, of_Z n)) (seqZ 0 (N + 1)).

(** The four comparisons of [_values_conflict] on the floats [x] and
    [r] of the whole numbers [n] and [m] give what the same
    comparisons give on [n] and [m] themselves; [t10], [t20] and [t5]
    are the products of [r] by 0.1, 0.2 and 0.05. *)
Definition decided_alike (m : Z) (r t10 t20 t5 : float) (entry : Z * float)
  : bool :=
  let '(n, x) := entry in
  let distance := abs (sub x r) in
  let d := Z.abs (n - m) in
  Bool.eqb (neb x r) (negb (n =? m))
  && Bool.eqb (gtb distance t10) (10 * m <? 100 * d)
  && Bool.eqb (gtb distance t20) (20 * m <? 100 * d)
  && Bool.eqb (gtb distance t5) (5 * m <? 100 * d).

Definition all_decided_alike (N : Z) : bool :=
  let numbers := whole_numbers N in
  forallb (fun '(m, r) =>
             forallb (decided_alike m r (mul r f0_1) (mul r f0_2)
                        (mul r f0_05))
                     numbers)
          numbers.
End Rounding.

(* ===================================================================== *)
(** * Documents and requests to run the code on *)
(* ===================================================================== *)

Module Examples.

Import PyFloat Analyzer.

(** The worked example of section 8 of the specification. *)
Definition example_target : str := u "plazo de 30 días... $5,000... opcionalmente".
Definition example_governing : str :=
  u "plazo mínimo de 45 días... no debe exceder $10,000... obligatoria".

(** The documents of the test at the end of [analyzer.py], from which
    the example is abridged, and their metadata. *)
Definition test_target : str := u "
    La unidad otorga un plazo de 30 días para la respuesta.
    El presupuesto máximo autorizado es de $5,000 dólares.
    Los usuarios pueden opcionalmente usar autenticación multifactor.
    ".

Definition test_rector : str := u "
    Todas las entidades deben otorgar un plazo mínimo de 45 días.
    El presupuesto autorizado no debe exceder $10,000 dólares.
    La autenticación multifactor es obligatoria para todos los usuarios.
    ".

Definition target_meta : metadata :=
  {| doc_id := Some (u "DIR_TEST_001"); nivel_jerarquico := Some 4%Z |}.

Definition rector_meta : metadata :=
  {| doc_id := Some (u "LEY_RECTOR_001"); nivel_jerarquico := Some 1%Z |}.

(** The two conflicts that [_compare_values] finds in the example. *)
Definition c_days : conflict :=
  {| target := u "30"; rector := u "45";
     conflict_context_target := example_target;
     conflict_context_rector := example_governing |}.

Definition c_dollars : conflict :=
  {| target := u "5,000"; rector := u "10,000";
     conflict_context_target := example_target;
     conflict_context_rector := example_governing |}.

(** What the tests below read in an entry. *)
Definition brief (c : contradiction)
  : pattern_type * severity_tier * str * str :=
  (type c, severity c, target_value c, rector_value c).

(** Two documents that differ in a percentage, one rank apart. *)
Definition discount_10 : str := u "El descuento es de 10% del total.".
Definition discount_50 : str := u "El descuento es de 50% del total.".

Definition rank (n : Z) : metadata :=
  {| doc_id := None; nivel_jerarquico := Some n |}.

(** The two words with which the documentation of [difflib] shows that
    [ratio()] depends on the order of its arguments, as texts and as
    texts of one letter a line. *)
Definition tide : str := u "tide".
Definition diet : str := u "diet".
Definition one_a_line (s : str) : str :=
  PyStr.join [10%N] (map (fun c => [c]) s).

Import Orchestrator.

(** Collaborators that find every document and answer every request. *)
Definition found (doc_id : value) : value :=
  VDict [ (u "success", VBool true); (u "doc_id", doc_id);
          (u "content", VStr (u "Texto")); (u "metadata", VDict []) ].

Definition answered : value := VDict [(u "success", VBool true)].

Definition demo_servers : servers :=
  {| read_document := fun doc_id _ => ret (found doc_id);
     list_documents := fun _ _ _ => ret answered;
     get_document_hierarchy := fun _ => ret answered;
     compare_documents := fun _ _ _ _ _ => ret answered;
     detect_contradictions := fun _ _ _ _ => ret answered;
     format := fun _ => [];
     list_of_set := fun s => elements s;
     json_dumps := fun _ => [] |}.

(** A planner that asks for a tool at every round trip and never ends
    its turn. *)
Definition request : list block :=
  [ToolUseBlock (u "t1") (u "read_document") (VDict [])].

Definition restless_planner (i : nat) (messages : list message)
  : result response :=
  ret {| stop_reason := u "tool_use"; response_content := request;
         usage := Some (10%Z, 5%Z) |}.

End Examples.

(* ===================================================================== *)
(** * [database.py] and [reader.py]: the documents and their reader *)
(* ===================================================================== *)

Module Reader.

Import Orchestrator.

(** A row of the table [documents], with the columns that the code
    reads or writes; [None] is NULL.  The column [doc_id] is unique. *)
Record document := {
  doc_id : str;
  filename : option str;
  filepath : option str;
  tipo : option str;
  nivel_jerarquico : option Z;
  institucion : option str;
  numero_oficial : option str;
  año : option Z;
  tema_principal : option str;
  content : option str;
  content_hash : option str;
  es_rector : option bool;
  alcance : option str;
  vigente : option bool
}.

(** The session: the rows of the table in the order of their
    insertion, or a database whose every query raises. *)
Inductive session :=
| Rows (rows : list document)
| Broken (e : exn).

(** What SQL leaves open: the order among the rows that have equal
    keys.  [by_level] is [ORDER BY nivel_jerarquico] and
    [by_level_and_year] is [ORDER BY nivel_jerarquico, año].
    [null_comparison] is the [ArgumentError] that SQLAlchemy raises
    when a query compares a column with [None] by [<]. *)
Record engine := {
  by_level : list document -> list document;
  by_level_and_year : list document -> list document;
  null_comparison : exn
}.

(** A column in a dict. *)
Definition column {A} (f : A -> value) (x : option A) : value :=
  from_option f VNone x.

Definition failure (msg : str) : value :=
  VDict [ (u "success", VBool false); (u "error", VStr msg) ].

(** [query(Document).filter(Document.doc_id == doc_id).first()] *)
Definition first_with_id (rows : list document) (id : str) : option document :=
  List.find (fun d => PyStr.eqb (doc_id d) id) rows.

(** Truth value of an optional string. *)
Definition given (s : option str) : bool :=
  match s with
  | Some (_ :: _) => true
  | _ => false
  end.

Section WithRuntime.
Context `{PyRuntime}.
(** [str.isdigit()] of a character. *)
Variable isdigit : char -> bool.

(** The loop of [_extract_section], from a line on; [section] is
    [section.lower()]. *)
Fixpoint section_loop (section : str) (lines : list str) (in_section : bool)
    (section_content : list str) : list str :=
  match lines with
  | [] => section_content
  | line :: lines' =>
      let found := PyStr.contains section (lower line) in
      let in_section := in_section || found in
      if in_section then
        let section_content := section_content ++ [line] in
        if (1 <? length section_content)
           && negb (bool_decide (strip line = []))
           && from_option isdigit false (head line)
           && negb found
        then section_content
        else section_loop section lines' in_section section_content
      else section_loop section lines' in_section section_content
  end.

(** [_extract_section] *)
Definition extract_section (content section : str) : str :=
  let lines := PyStr.split 10%N content in
  match section_loop (lower section) lines false [] with
  | [] => content
  | section_content => PyStr.join [10%N] section_content
  end.

(** The ["metadata"] of [read_document]. *)
Definition metadata_of (d : document) (content : str) : value :=
  VDict [ (u "tipo", column VStr (tipo d));
          (u "nivel_jerarquico", column VInt (nivel_jerarquico d));
          (u "institucion", column VStr (institucion d));
          (u "año", column VInt (año d));
          (u "tema", column VStr (tema_principal d));
          (u "es_rector", column VBool (es_rector d));
          (u "alcance", column VStr (alcance d));
          (u "length", VInt (Z.of_nat (length content))) ].

(** [read_document]; a NULL content raises in [_extract_section] or in
    [len], under the [except Exception] of the function. *)
Definition read_document (db : session) (doc_id : str) (section : option str)
  : value :=
  match db with
  | Broken e => failure (u "Error al leer documento: " ++ str_of_exn e)
  | Rows rows =>
      match first_with_id rows doc_id with
      | None =>
          failure (u "Documento '" ++ doc_id
                     ++ u "' no encontrado en la base de datos")
      | Some document =>
          match content document with
          | None =>
              failure
                (u "Error al leer documento: "
                   ++ (if given section
                       then u "'NoneType' object has no attribute 'split'"
                       else u "object of type 'NoneType' has no len()"))
          | Some content =>
              let content :=
                if given section
                then extract_section content (default [] section)
                else content in
              VDict [ (u "success", VBool true);
                      (u "doc_id", VStr doc_id);
                      (u "content", VStr content);
                      (u "metadata", metadata_of document content) ]
          end
      end
  end.

End WithRuntime.

(** The filters of [list_documents]: [==] of SQL never holds of a
    NULL. *)
Definition has {A} `{EqDecision A} (x : A) (column : option A) : bool :=
  bool_decide (column = Some x).

Definition selected (tipo institucion : option str) (es_rector : option bool)
    (d : document) : bool :=
  (if given tipo then has (default [] tipo) (Reader.tipo d) else true)
  && match es_rector with
     | Some b => has b (Reader.es_rector d)
     | None => true
     end
  && (if given institucion
      then has (default [] institucion) (Reader.institucion d) else true).

Definition listed (d : document) : value :=
  VDict [ (u "doc_id", VStr (doc_id d));
          (u "tipo", column VStr (tipo d));
          (u "nivel", column VInt (nivel_jerarquico d));
          (u "institucion", column VStr (institucion d));
          (u "año", column VInt (año d));
          (u "tema", column VStr (tema_principal d));
          (u "es_rector", column VBool (es_rector d)) ].

(** [list_documents] *)
Definition list_documents (sql : engine) (db : session)
    (tipo : option str) (es_rector : option bool) (institucion : option str)
  : value :=
  match db with
  | Broken e => failure (u "Error al listar documentos: " ++ str_of_exn e)
  | Rows rows =>
      let documents :=
        by_level_and_year sql
          (List.filter (selected tipo institucion es_rector) rows) in
      let result := map listed documents in
      VDict [ (u "success", VBool true);
              (u "total", VInt (Z.of_nat (length result)));
              (u "documents", VList result) ]
  end.

(** [Document.nivel_jerarquico < level] for the rank [level] of a
    document: it holds of no NULL. *)
Definition above (level : Z) (d : document) : bool :=
  match nivel_jerarquico d with
  | Some l => (l <? level)%Z
  | None => false
  end.

(** The documents of a higher rank than [level], in the order of their
    ranks. *)
Definition superior_docs (sql : engine) (rows : list document)
    (level : Z) : list Reader.document :=
  by_level sql (List.filter (above level) rows).

Definition superior (d : document) : value :=
  VDict [ (u "doc_id", VStr (doc_id d));
          (u "tipo", column VStr (tipo d));
          (u "nivel", column VInt (nivel_jerarquico d));
          (u "tema", column VStr (tema_principal d)) ].

(** [get_document_hierarchy]; for a document whose rank is NULL the
    filter of the second query is [Document.nivel_jerarquico < None],
    which SQLAlchemy refuses to build: the exception is raised under
    the [except Exception] of the function. *)
Definition get_document_hierarchy (sql : engine) (db : session)
    (doc_id : str) : value :=
  match db with
  | Broken e => failure (u "Error al obtener jerarquía: " ++ str_of_exn e)
  | Rows rows =>
      match first_with_id rows doc_id with
      | None => failure (u "Documento no encontrado")
      | Some document =>
          match nivel_jerarquico document with
          | None =>
              failure (u "Error al obtener jerarquía: "
                         ++ str_of_exn (null_comparison sql))
          | Some level =>
              VDict [ (u "success", VBool true);
                      (u "documento_actual",
                        VDict [ (u "doc_id", VStr (Reader.doc_id document));
                                (u "nivel", VInt level) ]);
                      (u "documentos_superiores",
                        VList (map superior (superior_docs sql rows level))) ]
          end
      end
  end.

End Reader.

(* ===================================================================== *)
(** * [orchestrator.py]: the analysis without the planner *)
(* ===================================================================== *)

Module Demo.

Import Orchestrator.

(** [[f(x) for x in l]] for an [f] that may raise. *)
Fixpoint collect {A B} (f : A -> result B) (l : list A) : result (list B) :=
  match l with
  | [] => ret []
  | x :: l' =>
      let* y := f x in
      let* ys := collect f l' in
      ret (y :: ys)
  end.

Definition status_error (e : value) : value :=
  VDict [ (u "status", VStr (u "error")); (u "error", e) ].

Definition no_rectors : value :=
  VDict [ (u "status", VStr (u "completed"));
          (u "result",
            VStr (u "No se encontraron documentos rectores para este documento."));
          (u "iterations", VInt 1) ].

Section WithServers.
Context `{PyRuntime}.
Variable srv : servers.
(** [', '.join(l)], which raises on an item that is not a [str]. *)
Variable join_ids : list value -> result str.
(** [f"{x:.1%}"] *)
Variable percent : value -> result str.
(** [x.upper()] *)
Variable upper : value -> result str.

(** The lines of the report for one contradiction. *)
Definition contradiction_lines (c : value) : result str :=
  let* severity := getitem c "severity" in
  let* severity := upper severity in
  let* type := getitem c "type" in
  let* description := getitem c "description" in
  let* rector_doc := getitem c "rector_doc" in
  ret (u "
[" ++ severity ++ u "] " ++ format srv type ++ u "
- " ++ format srv description ++ u "
- Documento rector: " ++ format srv rector_doc ++ u "
").

(** [_analyze_without_claude] *)
Definition analyze_without_claude (doc_id : str) (rector_ids : value)
  : result value :=
  let* hierarchy := get_document_hierarchy srv (VStr doc_id) in
  let* ok := getitem hierarchy "success" in
  if negb (truthy ok) then
    let* e := getitem hierarchy "error" in
    ret (status_error e)
  else
    let* rector_ids :=
      if negb (truthy rector_ids) then
        let* superiors := getitem hierarchy "documentos_superiores" in
        let* superiors := iterate superiors in
        let* ids := collect (fun doc => getitem doc "doc_id") superiors in
        ret (VList ids)
      else ret rector_ids in
    if negb (truthy rector_ids) then ret no_rectors
    else
      let* target := read_document srv (VStr doc_id) VNone in
      let* ok := getitem target "success" in
      if negb (truthy ok) then
        let* e := getitem target "error" in
        ret (status_error e)
      else
        let* ids := iterate rector_ids in
        let* rector_contents := read_rectors srv ids [] in
        let* target_content := getitem target "content" in
        let* target_metadata := getitem target "metadata" in
        let* analysis :=
          detect_contradictions srv target_content target_metadata
            rector_contents (VStr (u "moderate")) in
        let* joined := join_ids ids in
        let* found := getitem analysis "contradictions_found" in
        let* warnings := getitem analysis "warnings_found" in
        let* score := getitem analysis "compliance_score" in
        let* score_text := percent score in
        let result := u "
ANÁLISIS DE CUMPLIMIENTO NORMATIVO (MODO DEMO)

Documento analizado: " ++ doc_id ++ u "
Documentos rectores: " ++ joined ++ u "

RESULTADOS:
- Contradicciones encontradas: " ++ format srv found ++ u "
- Advertencias: " ++ format srv warnings ++ u "
- Score de cumplimiento: " ++ score_text ++ u "

CONTRADICCIONES DETECTADAS:
" in
        let* contradictions := getitem analysis "contradictions" in
        let* contradictions := iterate contradictions in
        let* lines := collect contradiction_lines contradictions in
        let result := result ++ concat lines in
        let* summary := getitem analysis "analysis_summary" in
        let* recommendation := getitem summary "recommendation" in
        let result := result ++ [10%N] ++ format srv recommendation in
        let* found := getitem analysis "contradictions_found" in
        let* score := getitem analysis "compliance_score" in
        ret (VDict [ (u "status", VStr (u "completed"));
                     (u "result", VStr result);
                     (u "iterations", VInt 1);
                     (u "contradictions_found", found);
                     (u "compliance_score", score) ]).

End WithServers.

End Demo.

(* ===================================================================== *)
(** * [import_documents.py] and [routes.py]: how documents come in *)
(* ===================================================================== *)

Module Importer.

Import Orchestrator.

(** [s.replace(old, new)] for a non-empty [old]: the occurrences are
    taken from the left and do not overlap.  [skip] characters belong
    to the occurrence found last. *)
Fixpoint replace_from (skip : nat) (old new s : str) : str :=
  match s with
  | [] => []
  | c :: s' =>
      match skip with
      | S n => replace_from n old new s'
      | O =>
          if PyStr.startswith old s
          then new ++ replace_from (length old - 1) old new s'
          else c :: replace_from 0 old new s'
      end
  end.

Definition replace_text (old new s : str) : str := replace_from 0 old new s.

(** [s.endswith(suffix)] *)
Definition endswith (suffix s : str) : bool :=
  PyStr.startswith (rev suffix) (rev s).

(** [filename.replace(".txt", "")], the identifier of the document of
    a file. *)
Definition stem (filename : str) : str := replace_text (u ".txt") [] filename.

(** An entry of [TIPO_CONFIG]. *)
Record tipo_config := {
  nivel : Z;
  alcance : string;
  es_rector : bool
}.

Definition TIPO_CONFIG : list (string * tipo_config) :=
  [ ("LEY", {| nivel := 1; alcance := "nacional"; es_rector := true |});
    ("REGL", {| nivel := 2; alcance := "nacional"; es_rector := true |});
    ("POL", {| nivel := 3; alcance := "institucional"; es_rector := true |});
    ("DIR", {| nivel := 4; alcance := "operativo"; es_rector := false |});
    ("ISO", {| nivel := 5; alcance := "internacional"; es_rector := false |});
    ("NTP", {| nivel := 5; alcance := "nacional"; es_rector := false |}) ].

(** [TIPO_CONFIG.get(tipo, {})] *)
Definition config_of (tipo : str) : option tipo_config :=
  snd <$> List.find (fun e => PyStr.eqb (u (fst e)) tipo) TIPO_CONFIG.

(** The dict of [parse_filename]. *)
Record parsed := {
  parsed_tipo : str;
  parsed_institucion : str;
  parsed_numero_oficial : str;
  parsed_año : Z;
  parsed_tema_principal : str
}.

Section WithTables.
(** [str.isdigit()] of a character, and [int(s)], [None] when it
    raises [ValueError]. *)
Variable isdigit : char -> bool.
Variable py_int : str -> option Z.

(** [s.isdigit()] *)
Definition all_digits (s : str) : bool :=
  negb (bool_decide (s = [])) && forallb isdigit s.

(** [parse_filename]; [int] may raise on digits that are not decimal. *)
Definition parse_filename (filename : str) : result (option parsed) :=
  let parts := PyStr.split 95%N (stem filename) in
  match parts with
  | tipo :: institucion :: numero :: año :: rest =>
      let tema :=
        match rest with
        | [] => u "sin_tema"
        | _ => PyStr.join [95%N] rest
        end in
      let* year :=
        if all_digits año then
          match py_int año with
          | Some n => ret n
          | None =>
              raise (OtherError
                       (u "invalid literal for int() with base 10: '"
                          ++ año ++ u "'"))
          end
        else ret 2024%Z in
      ret (Some {| parsed_tipo := tipo;
                   parsed_institucion := institucion;
                   parsed_numero_oficial := numero;
                   parsed_año := year;
                   parsed_tema_principal := PyStr.replace 95%N [32%N] tema |})
  | _ => ret None
  end.

(** [calculate_hash]: the first 16 digits of the SHA-256 of the
    content. *)
Variable calculate_hash : str -> str.
(** [os.path.join(root, filename)] *)
Variable path_join : str -> str -> str.

(** A file that [os.walk] meets: its directory, its name and what
    reading it gives. *)
Record file := {
  root : str;
  name : str;
  text : result str
}.

(** What the loop of [import_documents] holds: the rows of the table,
    the count of the documents imported and the errors. *)
Record progress := {
  rows : list Reader.document;
  imported : nat;
  errors : list str
}.

Definition failed (p : progress) (message : str) : progress :=
  {| rows := rows p; imported := imported p;
     errors := errors p ++ [message] |}.

(** The row that [import_documents] adds for a file. *)
Definition imported_document (f : file) (content : str) (metadata : parsed)
  : Reader.document :=
  let tipo_config := config_of (parsed_tipo metadata) in
  {| Reader.doc_id := stem (name f);
     Reader.filename := Some (name f);
     Reader.filepath := Some (path_join (root f) (name f));
     Reader.tipo := Some (parsed_tipo metadata);
     Reader.nivel_jerarquico := Some (from_option nivel 999%Z tipo_config);
     Reader.institucion := Some (parsed_institucion metadata);
     Reader.numero_oficial := Some (parsed_numero_oficial metadata);
     Reader.año := Some (parsed_año metadata);
     Reader.tema_principal := Some (parsed_tema_principal metadata);
     Reader.content := Some content;
     Reader.content_hash := Some (calculate_hash content);
     Reader.es_rector := Some (from_option es_rector false tipo_config);
     Reader.alcance :=
       Some (from_option (fun c => u (alcance c)) (u "desconocido") tipo_config);
     Reader.vigente := Some true |}.

(** The body of the loop over the files. *)
Definition import_file (p : progress) (f : file) : progress :=
  if negb (endswith (u ".txt") (name f)) then p
  else
    match text f with
    | inl e =>
        failed p (u "❌ Error en " ++ name f ++ u ": " ++ str_of_exn e)
    | inr content =>
        match parse_filename (name f) with
        | inl e =>
            failed p (u "❌ Error en " ++ name f ++ u ": " ++ str_of_exn e)
        | inr None => failed p (u "❌ No se pudo parsear: " ++ name f)
        | inr (Some metadata) =>
            match Reader.first_with_id (rows p) (stem (name f)) with
            | Some _ => p
            | None =>
                {| rows := rows p ++ [imported_document f content metadata];
                   imported := S (imported p);
                   errors := errors p |}
            end
        end
    end.

(** [import_documents], on the files that [os.walk] meets and the rows
    that the table holds. *)
Definition import_documents (files : list file) (table : list Reader.document)
  : progress :=
  fold_left import_file files {| rows := table; imported := 0; errors := [] |}.

End WithTables.

End Importer.

(* ===================================================================== *)
(** * [routes.py]: the upload of a document *)
(* ===================================================================== *)

Module Api.

Import Orchestrator.

(** What an endpoint gives: its response, or the [HTTPException] that
    it raises. *)
Inductive http (A : Type) :=
| Response (a : A)
| HTTPException (status_code : Z) (detail : str).
#[global] Arguments Response {A} a.
#[global] Arguments HTTPException {A} status_code detail.

(** [DocumentUploadResponse] *)
Record upload_response := {
  document_id : str;
  filename : str;
  status : str;
  message : str
}.

Section WithTables.
(** [str.upper()], and the first 16 digits of the SHA-256 of a
    content. *)
Variable upper : str -> str.
Variable calculate_hash : str -> str.

(** The row that [upload_document] adds. *)
Definition uploaded_document (filename doc_type content_str : str)
  : Reader.document :=
  {| Reader.doc_id := Importer.stem filename;
     Reader.filename := Some filename;
     Reader.filepath := Some (u "./data/documents/uploaded/" ++ filename);
     Reader.tipo := Some (upper doc_type);
     Reader.nivel_jerarquico := Some 4%Z;
     Reader.institucion := Some (u "MRE");
     Reader.numero_oficial := Some (u "000");
     Reader.año := Some 2024%Z;
     Reader.tema_principal := Some (u "documento_subido");
     Reader.content := Some content_str;
     Reader.content_hash := Some (calculate_hash content_str);
     Reader.es_rector := Some false;
     Reader.alcance := Some (u "operativo");
     Reader.vigente := Some true |}.

(** [upload_document], on the rows of the table: [decoded] is what
    [content.decode('utf-8')] gives and [written] what the writing of
    the file gives.  The rows are those that the table holds when the
    endpoint has answered: the commit comes before the writing of the
    file. *)
Definition upload_document (rows : list Reader.document)
    (filename : str) (decoded : result str) (doc_type : str)
    (written : result unit)
  : list Reader.document * http upload_response :=
  if negb (Importer.endswith (u ".txt") filename) then
    (rows, HTTPException 400 (u "Solo se permiten archivos .txt"))
  else
    match decoded with
    | inl e => (rows, HTTPException 500 (str_of_exn e))
    | inr content_str =>
        let doc_id := Importer.stem filename in
        match Reader.first_with_id rows doc_id with
        | Some _ =>
            (rows,
             HTTPException 409 (u "Documento '" ++ doc_id ++ u "' ya existe"))
        | None =>
            let rows := rows ++ [uploaded_document filename doc_type content_str] in
            match written with
            | inl e => (rows, HTTPException 500 (str_of_exn e))
            | inr _ =>
                (rows,
                 Response
                   {| document_id := doc_id;
                      filename := filename;
                      status := u "uploaded";
                      message :=
                        u "Documento subido exitosamente. ID: " ++ doc_id |})
            end
        end
    end.

End WithTables.

End Api.

(* ===================================================================== *)
(** * Notions used to state further properties *)
(* ===================================================================== *)

Module Facts.

(** The two sets of a mismatch, exchanged. *)
Definition mirrored (m : Comparer.mismatch) : Comparer.mismatch :=
  {| Comparer.solo_en_doc1 := Comparer.solo_en_doc2 m;
     Comparer.solo_en_doc2 := Comparer.solo_en_doc1 m |}.

(** The identifiers of the tool requests of a response, in order. *)
Definition requested (content : list Orchestrator.block) : list str :=
  flat_map (fun b =>
              match b with
              | Orchestrator.ToolUseBlock id _ _ => [id]
              | _ => []
              end)
           content.

(** The messages after the planner has asked for tools in each of the
    responses [rs], one after the other. *)
Fixpoint conversation `{PyRuntime} (srv : Orchestrator.servers)
    (messages : list Orchestrator.message) (rs : list Orchestrator.response)
  : list Orchestrator.message :=
  match rs with
  | [] => messages
  | r :: rs' =>
      conversation srv
        (messages
           ++ [Orchestrator.Assistant (Orchestrator.response_content r);
               Orchestrator.UserToolResults
                 (Orchestrator.execute_tools srv
                    (Orchestrator.response_content r))])
        rs'
  end.

(** The log of the responses [rs], received from round trip [S n] on. *)
Fixpoint logged (n : nat) (rs : list Orchestrator.response)
  : list Orchestrator.log_entry :=
  match rs with
  | [] => []
  | r :: rs' => Orchestrator.log_of (S n) r :: logged (S n) rs'
  end.





(** The order of the ranks, a NULL before every rank, as SQLite has
    it. *)
Definition level_le (d1 d2 : Reader.document) : Prop :=
  match Reader.nivel_jerarquico d1, Reader.nivel_jerarquico d2 with
  | None, _ => True
  | Some _, None => False
  | Some l1, Some l2 => (l1 <= l2)%Z
  end.

#[export] Instance level_le_dec d1 d2 : Decision (level_le d1 d2).
Proof.
  unfold level_le.
  destruct (Reader.nivel_jerarquico d1), (Reader.nivel_jerarquico d2);
    apply _.
Defined.

(** What [ORDER BY] promises: the rows it is given, in the order of
    their keys. *)
Definition orders (sql : Reader.engine) : Prop :=
  ∀ rows,
    Reader.by_level sql rows ≡ₚ rows
    ∧ StronglySorted level_le (Reader.by_level sql rows)
    ∧ Reader.by_level_and_year sql rows ≡ₚ rows.

(** A server whose reader is the reader of the documents. *)
Definition reads `{PyRuntime} (srv : Orchestrator.servers)
    (isdigit : char → bool) (sql : Reader.engine) (db : Reader.session)
  : Prop :=
  ∀ id : str,
    Orchestrator.get_document_hierarchy srv (Orchestrator.VStr id)
    = inr (Reader.get_document_hierarchy sql db id)
    ∧ Orchestrator.read_document srv (Orchestrator.VStr id) Orchestrator.VNone
      = inr (Reader.read_document isdigit db id None).

(** The content and the metadata of the document of an identifier,
    when the database holds it with a content. *)
Definition readable (db : Reader.session) (id : str)
  : option (Orchestrator.value * Orchestrator.value) :=
  match db with
  | Reader.Rows rows =>
      match Reader.first_with_id rows id with
      | Some d =>
          match Reader.content d with
          | Some c => Some (Orchestrator.VStr c, Reader.metadata_of d c)
          | None => None
          end
      | None => None
      end
  | Reader.Broken _ => None
  end.

(** The test of [_values_conflict] for a modality type, on the two
    values in lower case. *)
Definition modal_conflict (target_lower rector_lower : str) : bool :=
  existsb (fun '(key, vals) =>
             PyStr.contains (u key) target_lower
             && existsb (fun opp => PyStr.contains (u opp) rector_lower) vals)
          Analyzer.opposites.

(** [list(s)] holds the elements of the set [s], each once. *)
Definition sets_listed `{PyRuntime} : Prop :=
  ∀ s : gset str, py_list s ≡ₚ elements s.

(** A part of a file name: it holds no underscore and no full stop. *)
Definition plain (w : str) : Prop := (95%N ∉ w) ∧ (46%N ∉ w).

(** The year that [parse_filename] reads in the fourth part of a name,
    when [int] does not raise. *)
Definition year_read (isdigit : char -> bool) (py_int : str -> option Z)
    (año : str) : option Z :=
  if Importer.all_digits isdigit año then py_int año else Some 2024%Z.

(** The number of the underscores of a text. *)
Definition underscores (s : str) : nat :=
  length (List.filter (fun c => (c =? 95)%N) s).

End Facts.

(* ===================================================================== *)
(** * A small library, for the properties that need one *)
(* ===================================================================== *)

Module Library.

Import Orchestrator.

(** [str.isdigit()] and [int] on the digits of ASCII, [str.upper()] on
    its letters, and [os.path.join] of a directory and a name. *)
Definition digit : char -> bool := Latin1.decimal.

Definition int_of (s : str) : option Z :=
  let '(n, k, rest) := Latin1.read_digits s 0%Z 0%nat in
  match rest with
  | [] => if (k =? 0)%nat then None else Some n
  | _ => None
  end.

Definition upper_of (s : str) : str :=
  map (fun c => if Latin1.between 97 122 c then (c - 32)%N else c) s.

Definition path_of (root name : str) : str := root ++ u "/" ++ name.

(** In the place of the digest: the first 16 characters of the
    content.  No property reads the digest. *)
Definition digest (content : str) : str := take 16 content.

(** The order of two keys, a NULL before every value. *)
Definition key_le (k1 k2 : option Z) : bool :=
  match k1, k2 with
  | None, _ => true
  | Some _, None => false
  | Some a, Some b => (a <=? b)%Z
  end.

(** The order of the ranks and then of the years. *)
Definition level_year_le (d1 d2 : Reader.document) : Prop :=
  (if bool_decide (Reader.nivel_jerarquico d1 = Reader.nivel_jerarquico d2)
   then key_le (Reader.año d1) (Reader.año d2)
   else key_le (Reader.nivel_jerarquico d1) (Reader.nivel_jerarquico d2))
  = true.

#[export] Instance level_year_le_dec d1 d2 : Decision (level_year_le d1 d2).
Proof. unfold level_year_le. apply _. Defined.

(** An engine that sorts by merging. *)
Definition sorter : Reader.engine :=
  {| Reader.by_level := @merge_sort _ Facts.level_le Facts.level_le_dec;
     Reader.by_level_and_year :=
       @merge_sort _ level_year_le level_year_le_dec;
     Reader.null_comparison :=
       OtherError
         (u "Only '=', '!=', 'is_()', 'is_not()', 'is_distinct_from()', 'is_not_distinct_from()' operators can be used with None/True/False") |}.

(** A law and a directive under it. *)
Definition law : Reader.document :=
  {| Reader.doc_id := u "LEY_PERU_31814_2023_IA";
     Reader.filename := Some (u "LEY_PERU_31814_2023_IA.txt");
     Reader.filepath := Some (u "./data/documents/LEY_PERU_31814_2023_IA.txt");
     Reader.tipo := Some (u "LEY");
     Reader.nivel_jerarquico := Some 1%Z;
     Reader.institucion := Some (u "PERU");
     Reader.numero_oficial := Some (u "31814");
     Reader.año := Some 2023%Z;
     Reader.tema_principal := Some (u "IA");
     Reader.content := Some (u "El personal no debe compartir sus claves.");
     Reader.content_hash := None;
     Reader.es_rector := Some true;
     Reader.alcance := Some (u "nacional");
     Reader.vigente := Some true |}.

Definition directive : Reader.document :=
  {| Reader.doc_id := u "DIR_MRE_020_2024_correo";
     Reader.filename := Some (u "DIR_MRE_020_2024_correo.txt");
     Reader.filepath := Some (u "./data/documents/DIR_MRE_020_2024_correo.txt");
     Reader.tipo := Some (u "DIR");
     Reader.nivel_jerarquico := Some 4%Z;
     Reader.institucion := Some (u "MRE");
     Reader.numero_oficial := Some (u "020");
     Reader.año := Some 2024%Z;
     Reader.tema_principal := Some (u "correo");
     Reader.content := Some (u "El usuario no debe reenviar el correo.");
     Reader.content_hash := None;
     Reader.es_rector := Some false;
     Reader.alcance := Some (u "operativo");
     Reader.vigente := Some true |}.

Definition shelf : list Reader.document := [directive; law].

(** Servers whose reader reads the documents of a session, with an
    analyzer and a comparer that answer every request. *)
Definition servers_over (sql : Reader.engine) (db : Reader.session)
  : servers :=
  {| read_document := fun doc_id section =>
       match doc_id, section with
       | VStr id, VNone =>
           ret (Reader.read_document (H := Latin1.latin1) digit db id None)
       | VStr id, VStr s =>
           ret (Reader.read_document (H := Latin1.latin1) digit db id (Some s))
       | _, _ => raise (TypeError (u "doc_id: str, section: Optional[str]"))
       end;
     list_documents := fun _ _ _ => ret Examples.answered;
     get_document_hierarchy := fun doc_id =>
       match doc_id with
       | VStr id => ret (Reader.get_document_hierarchy sql db id)
       | _ => raise (TypeError (u "doc_id: str"))
       end;
     compare_documents := fun _ _ _ _ _ => ret Examples.answered;
     detect_contradictions := fun _ _ _ _ => ret Examples.answered;
     format := fun v => match v with VStr s => s | _ => [] end;
     list_of_set := fun s => elements s;
     json_dumps := fun _ => [] |}.

(** The facts of the prohibition of the law. *)
Definition ban : str := u "El personal no debe compartir sus claves.".

Definition ban_fact : Analyzer.fact :=
  {| Analyzer.value := u "no debe";
     Analyzer.position := 12;
     Analyzer.context := ban |}.

(** A planner that asks for a document once and then ends its turn,
    and one whose responses are all cut short. *)
Definition asks : response :=
  {| stop_reason := u "tool_use";
     response_content := Examples.request;
     usage := Some (10%Z, 5%Z) |}.

Definition ends : response :=
  {| stop_reason := u "end_turn";
     response_content := [TextBlock (u "Sin contradicciones.")];
     usage := Some (12%Z, 7%Z) |}.

Definition brief_planner (i : nat) (messages : list message)
  : result response :=
  if (i =? 1)%nat then ret asks else ret ends.

Definition cut_planner (i : nat) (messages : list message)
  : result response :=
  ret {| stop_reason := u "max_tokens";
         response_content := [TextBlock (u "Analizando")];
         usage := None |}.

(** A file of the import and an upload. *)
Definition new_file : Importer.file :=
  {| Importer.root := u "./data/documents/rectores";
     Importer.name := u "REGL_PCM_115_2025_IA.txt";
     Importer.text := inr (u "Reglamento de la ley.") |}.

(** Two sentences after those of the test of [comparer.py]. *)
Definition policy_a : str :=
  u "Los usuarios deben cumplir con la Política de Seguridad.".
Definition policy_b : str :=
  u "Los usuarios deben seguir la Política de Seguridad de Información.".

Definition upload_name : str := u "DIR_MRE_021_2024_claves.txt".
Definition upload_text : str := u "Las claves se cambian cada 90 días.".

Definition upload_answer : Api.upload_response :=
  {| Api.document_id := u "DIR_MRE_021_2024_claves";
     Api.filename := upload_name;
     Api.status := u "uploaded";
     Api.message :=
       u "Documento subido exitosamente. ID: DIR_MRE_021_2024_claves" |}.

(** The table after the upload. *)
Definition shelf_after : list Reader.document :=
  shelf ++ [Api.uploaded_document upper_of digest upload_name (u "dir")
              upload_text].

End Library.

(* ===================================================================== *)
(** * Verification *)
(* ===================================================================== *)

Import PyFloat Analyzer.

(** Case analysis on a membership [x ∈ [a; b; ...]]. *)
Ltac cases_in H :=
  repeat (apply elem_of_cons in H as [-> | H]);
  [ .. | by apply elem_of_nil in H ].

Lemma member {A} `{EqDecision A} (x : A) (l : list A) :
  x ∈ l → is_member x l = true.
Proof. intros. by apply bool_decide_eq_true. Qed.

(** Evaluation of the closed membership tests of the goal. *)
Ltac eval_member :=
  repeat match goal with
         | |- context [is_member ?x ?l] =>
             let b := eval vm_compute in (is_member x l) in
             change (is_member x l) with b
         end;
  cbv beta iota.

(** ** The conflict rules of [_values_conflict] *)

Section ConflictRules.
Context `{PyRuntime}.

Lemma str_eqb_eq (s t : str) : PyStr.eqb s t = true ↔ s = t.
Proof. unfold PyStr.eqb. apply bool_decide_eq_true. Qed.

Lemma str_eqb_neq (s t : str) : s ≠ t → PyStr.eqb s t = false.
Proof. intros. unfold PyStr.eqb. by apply bool_decide_eq_false. Qed.

(** Evaluation of the closed comparisons of sensitivity tiers. *)
Ltac eval_tiers :=
  repeat match goal with
         | |- context [PyStr.eqb ?a ?b] =>
             let v := eval vm_compute in (PyStr.eqb a b) in
             change (PyStr.eqb a b) with v
         end;
  cbv beta iota.

Lemma whole_number_listed N n :
  (0 ≤ n ≤ N)%Z → In (n, of_Z n) (Rounding.whole_numbers N).
Proof.
  intros Hn. unfold Rounding.whole_numbers. apply in_map_iff. exists n.
  split; [done|]. apply list_elem_of_In, elem_of_seqZ. lia.
Qed.

Lemma all_decided (N n m : Z) :
  Rounding.all_decided_alike N = true →
  (0 ≤ n ≤ N)%Z → (0 ≤ m ≤ N)%Z →
  neb (of_Z n) (of_Z m) = negb (n =? m)%Z
  ∧ gtb (abs (sub (of_Z n) (of_Z m))) (mul (of_Z m) f0_1)
    = (10 * m <? 100 * Z.abs (n - m))%Z
  ∧ gtb (abs (sub (of_Z n) (of_Z m))) (mul (of_Z m) f0_2)
    = (20 * m <? 100 * Z.abs (n - m))%Z
  ∧ gtb (abs (sub (of_Z n) (of_Z m))) (mul (of_Z m) f0_05)
    = (5 * m <? 100 * Z.abs (n - m))%Z.
Proof.
  intros Hall Hn Hm.
  unfold Rounding.all_decided_alike in Hall. cbv zeta in Hall.
  rewrite forallb_forall in Hall.
  specialize (Hall _ (whole_number_listed N m Hm)). cbv beta iota in Hall.
  rewrite forallb_forall in Hall.
  specialize (Hall _ (whole_number_listed N n Hn)).
  unfold Rounding.decided_alike in Hall.
  apply andb_prop in Hall as [Hall H5]. apply andb_prop in Hall as [Hall H20].
  apply andb_prop in Hall as [Hs H10].
  apply eqb_prop in Hs, H5, H10, H20. done.
Qed.

(** On the whole numbers up to 1000 the comparisons of binary64 decide
    what the comparisons of the numbers decide: each of the pairs is
    run. *)
Lemma whole_numbers_decided (n m : Z) :
  (0 ≤ n ≤ 1000)%Z → (0 ≤ m ≤ 1000)%Z →
  neb (of_Z n) (of_Z m) = negb (n =? m)%Z
  ∧ gtb (abs (sub (of_Z n) (of_Z m))) (mul (of_Z m) f0_1)
    = (10 * m <? 100 * Z.abs (n - m))%Z
  ∧ gtb (abs (sub (of_Z n) (of_Z m))) (mul (of_Z m) f0_2)
    = (20 * m <? 100 * Z.abs (n - m))%Z
  ∧ gtb (abs (sub (of_Z n) (of_Z m))) (mul (of_Z m) f0_05)
    = (5 * m <? 100 * Z.abs (n - m))%Z.
Proof.
  apply (all_decided 1000). vm_cast_no_check (@eq_refl bool true).
Qed.

Lemma apart_whole (a : positive) (n m : Z) :
  Spec.apart (QArith_base.Qmake (Z.pos a) 100)
    (QArith_base.inject_Z n) (QArith_base.inject_Z m)
  = (Z.pos a * m <? 100 * Z.abs (n - m))%Z.
Proof.
  unfold Spec.apart, QArith_base.Qle_bool, Qabs.Qabs, QArith_base.Qminus,
    QArith_base.Qplus, QArith_base.Qopp, QArith_base.Qmult,
    QArith_base.inject_Z.
  cbn [QArith_base.Qnum QArith_base.Qden].
  rewrite ?Z.mul_1_r, ?Pos.mul_1_r.
  replace (n + - m)%Z with (n - m)%Z by lia.
  match goal with
  | |- context [Z.leb ?x ?y] => destruct (Z.leb_spec x y) as [Hle|Hlt]
  end;
    destruct (Z.ltb_spec (Z.pos a * m) (100 * Z.abs (n - m))) as [Hlt'|Hle'];
    cbn [negb]; try done; exfalso; lia.
Qed.

Lemma differ_whole (n m : Z) :
  negb (QArith_base.Qeq_bool (QArith_base.inject_Z n) (QArith_base.inject_Z m))
  = negb (n =? m)%Z.
Proof.
  unfold QArith_base.Qeq_bool, QArith_base.inject_Z.
  cbn [QArith_base.Qnum QArith_base.Qden]. by rewrite !Z.mul_1_r.
Qed.

(** C3, as amended.  For the values of a day, month or year period or
    of a percentage, both values are parsed by [float]; if either
    fails to parse there is no conflict at any sensitivity; otherwise
    the decision is made on the two doubles, in binary64 arithmetic:
    under [strict] the values conflict iff the doubles are unequal,
    under [moderate] iff the rounded distance is above the rounded
    product of the governing double by the double 0.1, and under
    [flexible] likewise with 0.2.  For values whose doubles are those
    of whole numbers from 0 to 1000, this is the rule of the
    specification on the numbers themselves, at each of the three
    tiers. *)
Theorem C3_period_percentage_rule (t : pattern_type) (tv rv : str) :
  t ∈ [plazo_dias; plazo_meses; plazo_años; porcentaje] →
  match py_float tv, py_float rv with
  | Some x, Some r =>
      values_conflict tv rv t strict = neb x r
      ∧ values_conflict tv rv t moderate = gtb (abs (sub x r)) (mul r f0_1)
      ∧ values_conflict tv rv t flexible = gtb (abs (sub x r)) (mul r f0_2)
      ∧ ∀ n m : Z,
          (0 ≤ n ≤ 1000)%Z → (0 ≤ m ≤ 1000)%Z →
          x = of_Z n → r = of_Z m →
          ∀ s, s ∈ [strict; moderate; flexible] →
               values_conflict tv rv t s
               = Spec.period_conflict s
                   (QArith_base.inject_Z n) (QArith_base.inject_Z m)
  | _, _ => ∀ sensitivity, values_conflict tv rv t sensitivity = false
  end.
Proof.
  intros Ht. unfold values_conflict.
  rewrite (member t [plazo_dias; plazo_meses; plazo_años; porcentaje])
    by done.
  destruct (py_float tv) as [x|], (py_float rv) as [r|]; try done.
  split; [done|]. split; [done|]. split; [done|].
  intros n m Hn Hm -> -> s Hs.
  destruct (whole_numbers_decided n m Hn Hm) as (Hs0 & H10 & H20 & _).
  unfold Spec.period_conflict.
  cases_in Hs; eval_tiers.
  - by rewrite differ_whole.
  - by rewrite (apart_whole 10).
  - by rewrite (apart_whole 20).
Qed.

(** C4, as amended.  For the values of an amount in soles or in
    dollars, commas are removed and both values are parsed by [float];
    if either fails to parse there is no conflict at any sensitivity;
    otherwise the decision is made on the two doubles, in binary64
    arithmetic: under [strict] the values conflict iff the doubles are
    unequal, and under any other sensitivity iff the rounded distance
    is above the rounded product of the governing double by the double
    0.05.  For values whose doubles are those of whole numbers from 0
    to 1000, this is the rule of the specification on the numbers
    themselves, at each of the three tiers. *)
Theorem C4_currency_rule (t : pattern_type) (tv rv : str) :
  t ∈ [monto_soles; monto_dolares] →
  match py_float (PyStr.replace (chr ",") [] tv),
        py_float (PyStr.replace (chr ",") [] rv) with
  | Some x, Some r =>
      values_conflict tv rv t strict = neb x r
      ∧ (∀ sensitivity, sensitivity ≠ strict →
           values_conflict tv rv t sensitivity
           = gtb (abs (sub x r)) (mul r f0_05))
      ∧ ∀ n m : Z,
          (0 ≤ n ≤ 1000)%Z → (0 ≤ m ≤ 1000)%Z →
          x = of_Z n → r = of_Z m →
          ∀ s, s ∈ [strict; moderate; flexible] →
               values_conflict tv rv t s
               = Spec.currency_conflict s
                   (QArith_base.inject_Z n) (QArith_base.inject_Z m)
  | _, _ => ∀ sensitivity, values_conflict tv rv t sensitivity = false
  end.
Proof.
  intros Ht. unfold values_conflict.
  cases_in Ht; eval_member;
    (destruct (py_float _) as [x|]; [|done]);
    (destruct (py_float _) as [r|]; [|done]);
    (split; [done|]);
    (split; [intros s Hs; by rewrite str_eqb_neq|]);
    intros n m Hn Hm -> -> s Hs;
    destruct (whole_numbers_decided n m Hn Hm) as (Hs0 & _ & _ & H5);
    unfold Spec.currency_conflict;
    cases_in Hs; eval_tiers;
    first [by rewrite differ_whole | by rewrite (apart_whole 5)].
Qed.

End ConflictRules.

(** ** The lists that [detect_contradictions] builds *)

Section DetectLists.
Context `{PyRuntime}.

Lemma report_entry tm rm t s cs ws c :
  report tm rm t s (cs, ws) c =
    if Spec.is_contradiction (Spec.entry_of tm rm t s c)
    then (cs ++ [Spec.entry_of tm rm t s c], ws)
    else (cs, ws ++ [Spec.entry_of tm rm t s c]).
Proof.
  unfold report, Spec.is_contradiction, Spec.entry_of.
  cbn [severity].
  by destruct (calculate_severity t _ _ s).
Qed.

Lemma fold_report tm rm t s l : ∀ cs ws,
  fold_left (report tm rm t s) l (cs, ws) =
    (cs ++ List.filter Spec.is_contradiction (map (Spec.entry_of tm rm t s) l),
     ws ++ List.filter Spec.is_warning (map (Spec.entry_of tm rm t s) l)).
Proof.
  induction l as [|c l IH]; intros cs ws; cbn [fold_left map List.filter].
  - by rewrite !app_nil_r.
  - rewrite report_entry.
    replace (Spec.is_warning (Spec.entry_of tm rm t s c))
      with (negb (Spec.is_contradiction (Spec.entry_of tm rm t s c)))
      by done.
    destruct (Spec.is_contradiction _); cbn [negb]; rewrite IH;
      by rewrite <- ?app_assoc.
Qed.

Lemma check_rector_lists td tm s re : ∀ cs ws,
  check_rector td tm s (cs, ws) re =
    (cs ++ List.filter Spec.is_contradiction (Spec.conflicts_with td tm s re),
     ws ++ List.filter Spec.is_warning (Spec.conflicts_with td tm s re)).
Proof.
  destruct re as [rc rm]. unfold check_rector, Spec.conflicts_with.
  cbn [fst snd].
  induction td as [|[t tvs] td IH]; intros cs ws;
    cbn [fold_left flat_map List.filter].
  - by rewrite !app_nil_r.
  - destruct (lookup_data t _) as [rvs|].
    + rewrite fold_report, IH, !List.filter_app. by rewrite <- !app_assoc.
    + apply IH.
Qed.

Lemma fold_check_rector td tm s rectors : ∀ cs ws,
  fold_left (check_rector td tm s) rectors (cs, ws) =
    (cs ++ List.filter Spec.is_contradiction
             (flat_map (Spec.conflicts_with td tm s) rectors),
     ws ++ List.filter Spec.is_warning
             (flat_map (Spec.conflicts_with td tm s) rectors)).
Proof.
  induction rectors as [|re rectors IH]; intros cs ws;
    cbn [fold_left flat_map List.filter].
  - by rewrite !app_nil_r.
  - rewrite check_rector_lists, IH, !List.filter_app.
    by rewrite <- !app_assoc.
Qed.

(** The two lists of an analysis are the conflicts met, split by
    severity, each in the order of the loops. *)
Lemma detect_lists target tm rectors s :
  contradictions (detect_contradictions target tm rectors s)
    = List.filter Spec.is_contradiction (Spec.all_conflicts target tm rectors s)
  ∧ warnings (detect_contradictions target tm rectors s)
    = List.filter Spec.is_warning (Spec.all_conflicts target tm rectors s).
Proof.
  unfold detect_contradictions, Spec.all_conflicts.
  rewrite fold_check_rector. by cbn [contradictions warnings app].
Qed.

Lemma filter_Forall {A} (P : A → Prop) (f : A → bool) (l : list A) :
  Forall P l → Forall P (List.filter f l).
Proof.
  induction 1 as [|x l Hx Hl IH]; simpl; [constructor|].
  destruct (f x); [by constructor | done].
Qed.

Lemma filter_Forall_true {A} (f : A → bool) (l : list A) :
  Forall (fun x => f x = true) (List.filter f l).
Proof.
  induction l as [|x l IH]; simpl; [constructor|].
  destruct (f x) eqn:Hx; [by constructor | done].
Qed.

(** Every conflict met has a pair of values that [_values_conflict]
    holds to be in conflict for its fact type. *)
Lemma all_conflicts_conflict target tm rectors s :
  Forall (fun c => ∃ tv rv, values_conflict tv rv (type c) s = true)
         (Spec.all_conflicts target tm rectors s).
Proof.
  unfold Spec.all_conflicts. apply Forall_flat_map, Forall_forall.
  intros re _. unfold Spec.conflicts_with.
  apply Forall_flat_map, Forall_forall. intros [t tvs] _.
  destruct (lookup_data t _) as [rvs|]; [|constructor].
  apply Forall_map. unfold compare_values.
  apply Forall_flat_map, Forall_forall. intros tv _.
  apply Forall_flat_map, Forall_forall. intros rv _.
  destruct (values_conflict (value tv) (value rv) t s) eqn:Hc;
    [|constructor].
  repeat constructor. cbn [Spec.entry_of type]. eauto.
Qed.

End DetectLists.

(** ** The severity classifier *)

Section Severity.
Context `{PyRuntime}.

Lemma calculate_severity_classify t tl rl s :
  calculate_severity t tl rl s = Spec.classify t tl rl s.
Proof.
  unfold calculate_severity, Spec.classify.
  assert (Hb : severity_weights t = Spec.base_severity t) by (by destruct t).
  rewrite Hb. clear Hb.
  assert (E1 : ∀ x : severity_tier,
    (if (2 <? tl - rl)%Z && bool_decide (x = medium) then high else x)
    = (if bool_decide (x = medium ∧ (tl - rl > 2)%Z) then high else x)).
  { intros x. destruct (Z.ltb_spec 2 (tl - rl)); destruct x; simpl;
      repeat case_bool_decide; try done; try lia; intuition (try lia; congruence). }
  rewrite E1.
  set (s1 := if bool_decide _ then high else _). clearbody s1.
  unfold PyStr.eqb.
  destruct s1; repeat case_bool_decide; simpl; try done;
    intuition congruence.
Qed.

(** C5. The classifier returns the base severity of the fact type
    (periods and amounts high, percentage and permission medium,
    obligation, prohibition and denial critical, authorization high)
    after the two escalations, medium to high when
    [target_rank - governing_rank > 2] and then high to critical under
    [strict]; and, in the order of the loops, the conflicts classified
    critical or high make up the list of contradictions and all the
    others make up the list of warnings. *)
Theorem C5_severity_classification :
  (∀ t tl rl s, calculate_severity t tl rl s = Spec.classify t tl rl s)
  ∧ (∀ target tm rectors s,
       let r := detect_contradictions target tm rectors s in
       contradictions r
         = List.filter Spec.is_contradiction
             (Spec.all_conflicts target tm rectors s)
       ∧ warnings r
         = List.filter Spec.is_warning
             (Spec.all_conflicts target tm rectors s)
       ∧ Forall (fun c => severity c = critical ∨ severity c = high)
                (contradictions r)
       ∧ Forall (fun c => severity c = medium) (warnings r)).
Proof.
  split; [apply calculate_severity_classify|].
  intros target tm rectors s r.
  destruct (detect_lists target tm rectors s) as [Hc Hw].
  subst r. rewrite Hc, Hw. repeat split.
  - eapply Forall_impl; [apply filter_Forall_true|].
    intros c Hcs. unfold Spec.is_contradiction in Hcs.
    by apply bool_decide_eq_true in Hcs.
  - eapply Forall_impl; [apply filter_Forall_true|].
    intros c Hcs. apply negb_true_iff, bool_decide_eq_false in Hcs.
    destruct (severity c); naive_solver.
Qed.

(** C10. Whatever the two values and the sensitivity, the values of
    the authorization and denial fact types are never in conflict, so
    that no contradiction and no warning has one of these types, although
    the severity table gives them high and critical. *)
Theorem C10_authorization_denial_never_conflict :
  (∀ tv rv s, values_conflict tv rv autoriza s = false
              ∧ values_conflict tv rv deniega s = false)
  ∧ severity_weights autoriza = high
  ∧ severity_weights deniega = critical
  ∧ (∀ target tm rectors s,
       let r := detect_contradictions target tm rectors s in
       Forall (fun c => type c ≠ autoriza ∧ type c ≠ deniega)
              (contradictions r ++ warnings r)).
Proof.
  assert (Hno : ∀ tv rv s, values_conflict tv rv autoriza s = false
                           ∧ values_conflict tv rv deniega s = false).
  { intros. unfold values_conflict. by eval_member. }
  repeat split; try apply Hno.
  intros target tm rectors s r.
  destruct (detect_lists target tm rectors s) as [Hc Hw].
  subst r. rewrite Hc, Hw.
  assert (Hall : Forall (fun c => type c ≠ autoriza ∧ type c ≠ deniega)
                   (Spec.all_conflicts target tm rectors s)).
  { eapply Forall_impl; [apply all_conflicts_conflict|].
    intros c (tv & rv & Hconf).
    destruct (Hno tv rv s) as [Ha Hd].
    split; intros Ht; rewrite Ht in Hconf; congruence. }
  apply Forall_app; split; by apply filter_Forall.
Qed.

End Severity.

(** ** The compliance score *)

Section Score.
Context `{PyRuntime}.

Lemma extract_data_keys_sublist (content : str) (ps : list (pattern_type * Regex.regex)) :
  map fst
    (flat_map (fun '(pattern_type, pattern) =>
                 match extract_values pattern content with
                 | [] => []
                 | values => [(pattern_type, values)]
                 end) ps)
  `sublist_of` map fst ps.
Proof.
  induction ps as [|[t p] ps IH]; cbn [flat_map map fst]; [constructor|].
  destruct (extract_values p content); cbn [app map fst].
  - by apply sublist_cons.
  - by apply sublist_skip.
Qed.

(** The keys of the extracted data are distinct fact types. *)
Lemma extract_data_keys_NoDup (content : str) :
  NoDup (map fst (extract_data content)).
Proof.
  eapply sublist_NoDup; [|apply extract_data_keys_sublist].
  unfold contradiction_patterns. cbn [map fst]. compute_done.
Qed.

Lemma penalty_accumulate (l : list contradiction) : ∀ p,
  fold_left
    (fun penalty c =>
       if bool_decide (severity c = critical) then add penalty f0_2
       else if bool_decide (severity c = high) then add penalty f0_1
       else add penalty f0_05) l p
  = Spec.accumulate p l.
Proof.
  induction l as [|c l IH]; intros p; cbn [fold_left Spec.accumulate];
    [done|].
  rewrite IH. by destruct (severity c).
Qed.

Lemma round_one : round f1_0 3 = f1_0.
Proof. by vm_compute. Qed.

(** The score of an analysis is the formula of section 4.5 on its
    list of contradictions. *)
Lemma detect_score target tm rectors s :
  compliance_score (detect_contradictions target tm rectors s)
  = Spec.score (contradictions (detect_contradictions target tm rectors s))
      (length (extract_data target) * length rectors).
Proof.
  unfold detect_contradictions.
  destruct (fold_left _ rectors ([], [])) as [cs ws].
  cbn [compliance_score contradictions]. unfold Spec.score, penalty_of.
  rewrite penalty_accumulate.
  destruct (length (extract_data target) * length rectors) as [|n].
  - cbn [Nat.ltb Nat.leb]. rewrite bool_decide_eq_true_2 by done.
    apply round_one.
  - by rewrite bool_decide_eq_false_2 by done.
Qed.

(** C1, as amended.  [total_checks] is the number of distinct fact
    types extracted from the target times the number of governing
    documents; if it is zero the score is exactly 1.0; otherwise the
    score is [max(0, 1 - penalty / max(total_checks, 1))] rounded to
    three decimal places, where the penalty accumulates over the list
    of contradictions only, 0.2 for a critical entry and 0.1 for a
    high one (0.05 for an entry of another severity, which that list
    never holds); the warnings add nothing. *)
Theorem C1_compliance_score target tm rectors s :
  let r := detect_contradictions target tm rectors s in
  let total_checks := length (extract_data target) * length rectors in
  NoDup (map fst (extract_data target))
  ∧ compliance_score r
    = (if bool_decide (total_checks = 0) then f1_0
       else round (max0 (sub f1_0
                           (div (Spec.accumulate zero (contradictions r))
                                (of_nat (max total_checks 1))))) 3)
  ∧ Forall (fun c => Spec.weight (severity c) = f0_2
                     ∨ Spec.weight (severity c) = f0_1)
           (contradictions r).
Proof.
  intros r total_checks. subst r total_checks.
  split; [apply extract_data_keys_NoDup|].
  split; [apply detect_score|].
  destruct (detect_lists target tm rectors s) as [-> _].
  eapply Forall_impl; [apply filter_Forall_true|].
  intros c Hc. apply bool_decide_eq_true in Hc.
  destruct Hc as [-> | ->]; [by left | by right].
Qed.

End Score.

(** ** The analysis of concrete documents *)

Section WorkedExample.
Import Latin1 Examples.

(** C1 fails as stated: a conflict of medium severity is reported as a
    warning and leaves the score at 1.0, whereas a penalty of 0.05 for
    every reported item, warnings included, gives 0.95. *)
Lemma C1_counterexample :
  let r := detect_contradictions discount_10 (rank 2) [(discount_50, rank 1)]
             moderate in
  map brief (contradictions r) = []
  ∧ map brief (warnings r) = [(porcentaje, medium, u "10", u "50")]
  ∧ length (extract_data discount_10) * 1 = 1
  ∧ compliance_score r = f1_0
  ∧ Spec.score (contradictions r ++ warnings r) 1 = of_ratio 95 100
  ∧ compliance_score r ≠ Spec.score (contradictions r ++ warnings r) 1.
Proof. vm_compute. repeat split; discriminate. Qed.

Lemma conflicts_with_raw `{PyRuntime} td tm s re :
  Spec.conflicts_with td tm s re
  = flat_map (fun '(t, cs) => map (Spec.entry_of tm (snd re) t s) cs)
             (Spec.raw_conflicts td s (fst re)).
Proof.
  unfold Spec.conflicts_with, Spec.raw_conflicts.
  induction td as [|[t tvs] td IH]; cbn [flat_map]; [done|].
  rewrite IH. by destruct (lookup_data t _).
Qed.

Lemma calculate_severity_moderate_high t tl rl :
  severity_weights t = high → calculate_severity t tl rl moderate = high.
Proof.
  intros Hw. unfold calculate_severity. rewrite Hw.
  by destruct (2 <? tl - rl)%Z.
Qed.

Lemma entry_of_moderate_high tm rm t c :
  severity_weights t = high →
  Spec.is_contradiction (Spec.entry_of tm rm t moderate c) = true.
Proof.
  intros Hw. unfold Spec.is_contradiction, Spec.entry_of. cbn [severity].
  rewrite calculate_severity_moderate_high by done.
  apply bool_decide_eq_true. by right.
Qed.

Lemma example_data :
  map fst (extract_data example_target) = [plazo_dias; monto_dolares; opcion]
  ∧ map fst (extract_data example_governing)
    = [plazo_dias; monto_dolares; obligacion; prohibicion].
Proof. by vm_compute. Qed.

Lemma example_raw_conflicts :
  Spec.raw_conflicts (extract_data example_target) moderate example_governing
  = [(plazo_dias, [c_days]); (monto_dolares, [c_dollars])].
Proof. by vm_compute. Qed.

Lemma example_conflicts tm rm :
  Spec.all_conflicts example_target tm [(example_governing, rm)] moderate
  = [Spec.entry_of tm rm plazo_dias moderate c_days;
     Spec.entry_of tm rm monto_dolares moderate c_dollars].
Proof.
  unfold Spec.all_conflicts. cbn [flat_map]. rewrite app_nil_r.
  rewrite conflicts_with_raw. cbn [fst snd].
  by rewrite example_raw_conflicts.
Qed.

Lemma example_lists tm rm :
  let r := detect_contradictions example_target tm [(example_governing, rm)] moderate in
  contradictions r
  = [Spec.entry_of tm rm plazo_dias moderate c_days;
     Spec.entry_of tm rm monto_dolares moderate c_dollars]
  ∧ warnings r = [].
Proof.
  destruct (detect_lists example_target tm [(example_governing, rm)] moderate) as [Hc Hw].
  cbv zeta. rewrite Hc, Hw, example_conflicts.
  cbn [List.filter]. unfold Spec.is_warning.
  rewrite (entry_of_moderate_high tm rm plazo_dias c_days) by reflexivity.
  rewrite (entry_of_moderate_high tm rm monto_dolares c_dollars)
    by reflexivity.
  cbn [negb]. split; reflexivity.
Qed.

(** C2 fails as stated: on the documents of the example, whatever
    their ranks, no contradiction and no warning has a modality type;
    indeed "opcional" against "obligatoria" is not a conflict for any
    of the three modality types. *)
Lemma C2_counterexample :
  let r := detect_contradictions example_target target_meta
             [(example_governing, rector_meta)] moderate in
  Forall (fun c => type c ∉ [obligacion; prohibicion; opcion])
         (contradictions r ++ warnings r)
  ∧ Forall (fun t => values_conflict (u "opcional") (u "obligatoria") t
                       moderate = false)
           [obligacion; prohibicion; opcion].
Proof.
  destruct (example_lists target_meta rector_meta) as [Hc Hw].
  cbv zeta. rewrite Hc, Hw. cbn [app]. split.
  - repeat apply List.Forall_cons; try apply List.Forall_nil;
      cbn [Spec.entry_of type]; compute_done.
  - repeat apply List.Forall_cons; try apply List.Forall_nil;
      by vm_compute.
Qed.

(** C2, as amended.  On the documents of the example under [moderate]
    sensitivity, whatever the metadata, the analysis yields exactly two
    contradictions, the day periods 30 against 45 and the dollar
    amounts 5,000 against 10,000, both [high], and no warning (no
    modality conflict is found); the compliance score is 0.933, which
    is strictly less than 1.0. *)
Theorem C2_worked_example tm rm :
  let r := detect_contradictions example_target tm [(example_governing, rm)] moderate in
  map brief (contradictions r)
  = [(plazo_dias, high, u "30", u "45");
     (monto_dolares, high, u "5,000", u "10,000")]
  ∧ warnings r = []
  ∧ compliance_score r = of_ratio 933 1000
  ∧ ltb (compliance_score r) f1_0 = true.
Proof.
  destruct (example_lists tm rm) as [Hc Hw].
  cbv zeta.
  assert (Hs : compliance_score
                 (detect_contradictions example_target tm [(example_governing, rm)] moderate)
               = of_ratio 933 1000).
  { rewrite detect_score, Hc. unfold Spec.score, Spec.entry_of.
    cbn [Spec.accumulate severity].
    rewrite !calculate_severity_moderate_high by done.
    by vm_compute. }
  rewrite Hc, Hw, Hs. unfold brief, Spec.entry_of.
  cbn [map type severity target_value rector_value].
  rewrite !calculate_severity_moderate_high by done.
  repeat split; by vm_compute.
Qed.

(** The run at the end of [analyzer.py], from which the example is
    abridged: its target has four fact types (a period, an amount,
    ["puede"] and ["opcional"], and ["autoriza"] in "autorizado"), the
    same two contradictions are found, and the score is 0.95. *)
Lemma analyzer_test_run :
  let r := detect_contradictions test_target target_meta
             [(test_rector, rector_meta)] moderate in
  map fst (extract_data test_target)
  = [plazo_dias; monto_dolares; opcion; autoriza]
  ∧ map brief (contradictions r)
    = [(plazo_dias, high, u "30", u "45");
       (monto_dolares, high, u "5,000", u "10,000")]
  ∧ warnings r = []
  ∧ compliance_score r = of_ratio 95 100.
Proof. by vm_compute. Qed.

End WorkedExample.

(** ** The matching blocks of [difflib]

    The loops of the model are bounded by a number of turns; the
    bounds are never what stops them. *)

Section Blocks.
Import Difflib.
Context {A : Type} `{EqDecision A}.
Variables a b : list A.

Lemma j2len_get_pred_le n j2len j :
  Forall (fun e => snd e ≤ n) j2len → j2len_get_pred j2len j ≤ n.
Proof.
  intros Hall. unfold j2len_get_pred. destruct j as [|j]; [lia|].
  destruct (List.find _ j2len) as [e|] eqn:Hf; [|lia].
  apply find_some in Hf as [Hin _].
  rewrite Forall_forall in Hall. apply Hall. by apply list_elem_of_In.
Qed.

Lemma row_bounds alo blo bhi i best j2len :
  alo ≤ i →
  alo ≤ besti best → besti best + bestsize best ≤ i →
  Forall (fun e => snd e ≤ i - alo) j2len →
  let st := row a b blo bhi (best, j2len) i in
  alo ≤ besti (fst st) ∧ besti (fst st) + bestsize (fst st) ≤ S i
  ∧ Forall (fun e => snd e ≤ S i - alo) (snd st).
Proof.
  intros Hi Hlo Hhi Hlen. unfold row.
  destruct (a !! i) as [x|]; [|cbn; repeat split; [done|lia|constructor]].
  generalize (take_below bhi (b2j b x)). intros js.
  assert (Hstart :
    alo ≤ besti (fst (best, @nil (nat * nat)))
    ∧ besti (fst (best, @nil (nat * nat)))
      + bestsize (fst (best, @nil (nat * nat))) ≤ S i
    ∧ Forall (fun e => snd e ≤ S i - alo) (snd (best, @nil (nat * nat)))).
  { cbn. repeat split; [done|lia|constructor]. }
  revert Hstart. generalize (best, @nil (nat * nat)).
  induction js as [|j js IH]; intros [best' new] Hst; [done|].
  cbn [fold_left]. apply IH.
  destruct Hst as (Hlo' & Hhi' & Hnew). cbn [fst snd] in *.
  destruct (j <? blo); [done|].
  pose proof (j2len_get_pred_le (i - alo) j2len j Hlen) as Hk.
  destruct (bestsize best' <? _); cbn [fst snd besti bestsize].
  - repeat split; [lia|lia|]. constructor; [cbn; lia|done].
  - repeat split; [lia|lia|]. constructor; [cbn; lia|done].
Qed.

Lemma rows_bounds alo blo bhi n : ∀ i best j2len,
  alo ≤ i →
  alo ≤ besti best → besti best + bestsize best ≤ i →
  Forall (fun e => snd e ≤ i - alo) j2len →
  let st := fold_left (row a b blo bhi) (seq i n) (best, j2len) in
  alo ≤ besti (fst st) ∧ besti (fst st) + bestsize (fst st) ≤ i + n.
Proof.
  induction n as [|n IH]; intros i best j2len Hi Hlo Hhi Hlen.
  - cbn. lia.
  - cbn [seq fold_left].
    pose proof (row_bounds alo blo bhi i best j2len Hi Hlo Hhi Hlen) as Hr.
    cbv zeta in Hr. destruct (row a b blo bhi (best, j2len) i) as [best' new].
    cbn [fst snd] in Hr. destruct Hr as (Hlo' & Hhi' & Hnew).
    specialize (IH (S i) best' new). cbv zeta in IH |- *.
    replace (i + S n) with (S i + n) by lia.
    apply IH; [lia|done|done|done].
Qed.

Lemma extend_left_bounds fuel alo blo ahi : ∀ m,
  alo ≤ besti m → besti m + bestsize m ≤ ahi →
  alo ≤ besti (extend_left a b fuel alo blo m)
  ∧ besti (extend_left a b fuel alo blo m)
    + bestsize (extend_left a b fuel alo blo m) ≤ ahi.
Proof.
  induction fuel as [|fuel IH]; intros m Hlo Hhi; cbn [extend_left]; [done|].
  destruct (alo <? besti m) eqn:Hlt; cbn [andb]; [|done].
  apply Nat.ltb_lt in Hlt.
  destruct (_ && _); [|done].
  apply IH; cbn; lia.
Qed.

Lemma extend_right_bounds fuel alo ahi bhi : ∀ m,
  alo ≤ besti m → besti m + bestsize m ≤ ahi →
  alo ≤ besti (extend_right a b fuel ahi bhi m)
  ∧ besti (extend_right a b fuel ahi bhi m)
    + bestsize (extend_right a b fuel ahi bhi m) ≤ ahi.
Proof.
  induction fuel as [|fuel IH]; intros m Hlo Hhi; cbn [extend_right]; [done|].
  destruct (besti m + bestsize m <? ahi) eqn:Hlt; cbn [andb]; [|done].
  apply Nat.ltb_lt in Hlt.
  destruct (_ && _); [|done].
  apply IH; cbn; lia.
Qed.

(** A block found lies in the region searched. *)
Lemma find_longest_match_bounds alo ahi blo bhi :
  alo ≤ ahi →
  let x := find_longest_match a b alo ahi blo bhi in
  alo ≤ besti x ∧ besti x + bestsize x ≤ ahi.
Proof.
  intros Hle. unfold find_longest_match. cbv zeta.
  pose proof (rows_bounds alo blo bhi (ahi - alo) alo
                {| besti := alo; bestj := blo; bestsize := 0 |} []) as Hr.
  cbv zeta in Hr. cbn [besti bestsize] in Hr.
  destruct Hr as [Hlo Hhi]; [lia|lia|lia|constructor|].
  replace (alo + (ahi - alo)) with ahi in Hhi by lia.
  set (best := fst _) in *.
  destruct (extend_left_bounds (besti best) alo blo ahi best Hlo Hhi)
    as [Hlo' Hhi'].
  by apply extend_right_bounds.
Qed.

Lemma find_longest_match_empty alo ahi blo bhi :
  ahi < alo → bestsize (find_longest_match a b alo ahi blo bhi) = 0.
Proof.
  intros Hlt. unfold find_longest_match.
  replace (ahi - alo) with 0 by lia. cbn [seq fold_left fst besti bestsize].
  destruct alo as [|alo]; [lia|]. cbn [extend_left].
  rewrite Nat.ltb_irrefl. cbn [andb].
  destruct (ahi - _) as [|n]; [done|]. cbn [extend_right besti bestsize].
  replace (S alo + 0 <? ahi) with false; [done|].
  symmetry. apply Nat.ltb_ge. lia.
Qed.

(** With as many Spec.turns as the queue may cost, the loop stops on an
    empty queue: more Spec.turns change nothing. *)
Lemma matching_loop_turns fuel1 : ∀ fuel2 queue blocks,
  Spec.turns queue ≤ fuel1 → Spec.turns queue ≤ fuel2 →
  matching_loop a b fuel1 queue blocks = matching_loop a b fuel2 queue blocks.
Proof.
  induction fuel1 as [|fuel1 IH]; intros fuel2 queue blocks H1 H2.
  - destruct queue as [|[[[alo ahi] blo] bhi] queue]; [by destruct fuel2|].
    cbn in H1. lia.
  - destruct queue as [|[[[alo ahi] blo] bhi] queue]; [by destruct fuel2|].
    destruct fuel2 as [|fuel2]; [cbn in H2; lia|].
    cbn [matching_loop]. unfold Spec.turns in H1, H2. cbn [map sum_list] in H1, H2.
    fold (Spec.turns queue) in H1, H2. unfold id in H1, H2.
    destruct (0 <? bestsize _) eqn:Hk; [|apply IH; lia].
    apply Nat.ltb_lt in Hk.
    destruct (decide (alo ≤ ahi)) as [Hle|Hgt];
      [|rewrite find_longest_match_empty in Hk by lia; lia].
    pose proof (find_longest_match_bounds alo ahi blo bhi Hle) as Hb.
    cbv zeta in Hb. destruct Hb as [Hlo Hhi].
    set (x := find_longest_match a b alo ahi blo bhi) in *.
    apply IH.
    all: destruct (_ && _); destruct (_ && _);
      unfold Spec.turns; cbn [map sum_list]; fold (Spec.turns queue); unfold id; lia.
Qed.

Lemma matching_blocks_turns fuel :
  2 * length a + 1 ≤ fuel →
  matching_loop a b fuel [(0, length a, 0, length b)] [] = matching_blocks a b.
Proof.
  intros Hf. unfold matching_blocks.
  apply matching_loop_turns; unfold Spec.turns; cbn; lia.
Qed.

(** The two loops that extend a block stop by their tests, not for
    want of Spec.turns. *)
Lemma extend_left_turns fuel1 alo blo : ∀ fuel2 m,
  besti m ≤ fuel1 → besti m ≤ fuel2 →
  extend_left a b fuel1 alo blo m = extend_left a b fuel2 alo blo m.
Proof.
  induction fuel1 as [|fuel1 IH]; intros fuel2 m H1 H2.
  - destruct fuel2 as [|fuel2]; [done|]. cbn [extend_left].
    replace (alo <? besti m) with false; [done|].
    symmetry. apply Nat.ltb_ge. lia.
  - destruct fuel2 as [|fuel2]; cbn [extend_left].
    + replace (alo <? besti m) with false; [done|].
      symmetry. apply Nat.ltb_ge. lia.
    + destruct (alo <? besti m) eqn:Hlt; [|done]. cbn [andb].
      destruct (_ && _); [|done]. apply IH; cbn; lia.
Qed.

Lemma extend_right_turns fuel1 ahi bhi : ∀ fuel2 m,
  ahi - (besti m + bestsize m) ≤ fuel1 →
  ahi - (besti m + bestsize m) ≤ fuel2 →
  extend_right a b fuel1 ahi bhi m = extend_right a b fuel2 ahi bhi m.
Proof.
  induction fuel1 as [|fuel1 IH]; intros fuel2 m H1 H2.
  - destruct fuel2 as [|fuel2]; [done|]. cbn [extend_right].
    replace (besti m + bestsize m <? ahi) with false; [done|].
    symmetry. apply Nat.ltb_ge. lia.
  - destruct fuel2 as [|fuel2]; cbn [extend_right].
    + replace (besti m + bestsize m <? ahi) with false; [done|].
      symmetry. apply Nat.ltb_ge. lia.
    + destruct (besti m + bestsize m <? ahi) eqn:Hlt; [|done]. cbn [andb].
      apply Nat.ltb_lt in Hlt.
      destruct (_ && _); [|done]. apply IH; cbn; lia.
Qed.
End Blocks.

(** ** The similarity ratios of the comparer *)

Section Similarity.
Import Comparer.

(** C7, as amended.  The terminology similarity ratio is symmetric,
    alone and inside a full comparison: comparing (A, B) yields the
    same ratio as comparing (B, A).  (The structure ratio and the
    whole-text ratio are those of [difflib.SequenceMatcher], which
    depend on the order of the two sequences.) *)
Theorem C7_terminology_symmetric `{PyRuntime} (doc1 doc2 : str) :
  terminology_similarity (compare_terminology doc1 doc2)
  = terminology_similarity (compare_terminology doc2 doc1)
  ∧ terminology_similarity (terminology_analysis (compare_full doc1 doc2))
    = terminology_similarity (terminology_analysis (compare_full doc2 doc1))
  ∧ similar_terminology (summary (compare_full doc1 doc2))
    = similar_terminology (summary (compare_full doc2 doc1)).
Proof.
  assert (Hsym : terminology_similarity (compare_terminology doc1 doc2)
                 = terminology_similarity (compare_terminology doc2 doc1)).
  { unfold compare_terminology. cbn [terminology_similarity].
    by rewrite (comm_L (∩) (terms_of doc1)), (comm_L (∪) (terms_of doc1)). }
  unfold compare_full.
  cbn [terminology_analysis summary similar_terminology].
  by rewrite Hsym.
Qed.

Import Latin1 Examples.

(** C7 fails as stated: the whole-text ratio of "tide" against "diet"
    is 0.25 and that of "diet" against "tide" is 0.5, and so are the
    structure ratios of the two texts written one letter a line. *)
Lemma C7_counterexample :
  text_similarity (compare_full tide diet) = of_ratio 1 4
  ∧ text_similarity (compare_full diet tide) = of_ratio 1 2
  ∧ structure_similarity (compare_structure (one_a_line tide) (one_a_line diet))
    = of_ratio 1 4
  ∧ structure_similarity (compare_structure (one_a_line diet) (one_a_line tide))
    = of_ratio 1 2
  ∧ text_similarity (compare_full tide diet)
    ≠ text_similarity (compare_full diet tide)
  ∧ structure_similarity (compare_structure (one_a_line tide) (one_a_line diet))
    ≠ structure_similarity
        (compare_structure (one_a_line diet) (one_a_line tide)).
Proof. vm_compute. repeat split; discriminate. Qed.

End Similarity.

(** ** The tool-use loop *)

Section ToolUseLoop.
Import Orchestrator.
Context `{PyRuntime}.
Variable srv : servers.
Variable doc_id : option str.

(** One turn of the loop. *)
Lemma run_from_step planner iteration messages log :
  run_from srv planner doc_id iteration messages log =
    if decide (iteration < max_iterations) then
      match planner (S iteration) messages with
      | inl e => error (str_of_exn e) (S iteration) log
      | inr response =>
          if PyStr.eqb (stop_reason response) (u "end_turn") then
            completed (extract_text (response_content response))
              (S iteration) (log ++ [log_of (S iteration) response]) doc_id
          else if PyStr.eqb (stop_reason response) (u "tool_use") then
            run_from srv planner doc_id (S iteration)
              (messages
                 ++ [Assistant (response_content response);
                     UserToolResults
                       (execute_tools srv (response_content response))])
              (log ++ [log_of (S iteration) response])
          else
            run_from srv planner doc_id (S iteration) messages
              (log ++ [log_of (S iteration) response])
      end
    else max_iterations_reached iteration log.
Proof.
  rewrite run_from_equation_1.
  destruct (decide (iteration < max_iterations)) as [Hlt|Hge];
    simpl; [|done].
  destruct (planner (S iteration) messages) as [e|response];
    simpl; [done|].
  destruct (PyStr.eqb (stop_reason response) _); simpl; [done|].
  by destruct (PyStr.eqb (stop_reason response) _).
Qed.

Lemma log_snoc log iteration response :
  map log_iteration log = seq 1 iteration →
  map log_iteration (log ++ [log_of (S iteration) response])
  = seq 1 (S iteration).
Proof.
  intros Hlog. rewrite map_app, Hlog, seq_S. by cbn.
Qed.

Lemma run_from_well_logged planner (k : nat) : ∀ iteration messages log,
  max_iterations - iteration = k →
  iteration ≤ max_iterations →
  map log_iteration log = seq 1 iteration →
  Spec.well_logged (run_from srv planner doc_id iteration messages log).
Proof.
  induction k as [|k IH]; intros iteration messages log Hk Hle Hlog;
    rewrite run_from_step.
  - destruct (decide (iteration < max_iterations)); [lia|].
    cbn. split; [lia | done].
  - destruct (decide (iteration < max_iterations)) as [Hlt|]; [|lia].
    destruct (planner (S iteration) messages) as [e|response].
    { cbn. split; [lia|]. by rewrite Nat.sub_0_r. }
    destruct (PyStr.eqb (stop_reason response) _).
    { cbn. split; [lia|]. by apply log_snoc. }
    destruct (PyStr.eqb (stop_reason response) _);
      (apply IH; [lia | lia | by apply log_snoc]).
Qed.

Lemma run_from_ext planner planner' (k : nat) : ∀ iteration messages log,
  max_iterations - iteration = k →
  (∀ i msgs, i ≤ max_iterations → planner' i msgs = planner i msgs) →
  run_from srv planner' doc_id iteration messages log
  = run_from srv planner doc_id iteration messages log.
Proof.
  induction k as [|k IH]; intros iteration messages log Hk Hext;
    rewrite !run_from_step.
  - destruct (decide (iteration < max_iterations)); [lia | done].
  - destruct (decide (iteration < max_iterations)) as [Hlt|]; [|lia].
    rewrite Hext by lia.
    destruct (planner (S iteration) messages) as [e|response]; [done|].
    destruct (PyStr.eqb (stop_reason response) _); [done|].
    destruct (PyStr.eqb (stop_reason response) _); apply IH; (lia || done).
Qed.

Lemma run_from_exhausted planner (k : nat) : ∀ iteration messages log,
  max_iterations - iteration = k →
  (∀ i msgs, i ≤ max_iterations →
             ∃ r, planner i msgs = inr r ∧ stop_reason r ≠ u "end_turn") →
  ∃ log', run_from srv planner doc_id iteration messages log
          = max_iterations_reached (max iteration max_iterations) log'.
Proof.
  induction k as [|k IH]; intros iteration messages log Hk Hgo;
    rewrite run_from_step.
  - destruct (decide (iteration < max_iterations)); [lia|].
    exists log. f_equal. lia.
  - destruct (decide (iteration < max_iterations)) as [Hlt|]; [|lia].
    destruct (Hgo (S iteration) messages) as (r & -> & Hr); [lia|].
    rewrite (str_eqb_neq _ _ Hr).
    replace (max iteration max_iterations)
      with (max (S iteration) max_iterations) by lia.
    destruct (PyStr.eqb (stop_reason r) _); apply IH; (lia || done).
Qed.

(** C8. Whatever the planner answers, the loop makes at most 15 round
    trips: the outcome counts at most 15 iterations, with a log entry
    for each of them in order (all but the last when that one raised);
    nothing that the planner would answer at a 16th round trip has any
    effect on the outcome; and when the planner neither raises nor ends
    its turn in 15 round trips, the outcome is
    [max_iterations_reached] with 15 iterations and the log of all
    15. *)
Theorem C8_iteration_ceiling planner messages :
  let o := run_tool_use_loop srv planner doc_id messages in
  iterations_of o ≤ 15
  ∧ match o with
    | completed _ n log _ => map log_iteration log = seq 1 n
    | error _ n log => map log_iteration log = seq 1 (n - 1)
    | max_iterations_reached n log =>
        n = 15 ∧ map log_iteration log = seq 1 15
    end
  ∧ (∀ planner',
       (∀ i msgs, i ≤ 15 → planner' i msgs = planner i msgs) →
       run_tool_use_loop srv planner' doc_id messages = o)
  ∧ ((∀ i msgs, i ≤ 15 →
        ∃ r, planner i msgs = inr r ∧ stop_reason r ≠ u "end_turn") →
     ∃ log, o = max_iterations_reached 15 log
            ∧ map log_iteration log = seq 1 15).
Proof.
  intros o. subst o. unfold run_tool_use_loop.
  pose proof (run_from_well_logged planner (max_iterations - 0) 0 messages []
                eq_refl (Nat.le_0_l _) eq_refl) as Hw.
  split; [|split; [|split]].
  - destruct (run_from srv planner doc_id 0 messages []); cbn in *;
      unfold max_iterations in *; lia.
  - destruct (run_from srv planner doc_id 0 messages []); cbn in *;
      unfold max_iterations in *; try tauto.
    destruct Hw as [-> Hw]. by split.
  - intros planner' Hext. by apply (run_from_ext planner planner' (max_iterations - 0) 0).
  - intros Hgo.
    destruct (run_from_exhausted planner (max_iterations - 0) 0 messages []
                eq_refl Hgo)
      as [log Hlog].
    rewrite Hlog in Hw |- *. exists log. split; [done|].
    cbn in Hw. by destruct Hw as [_ ->].
Qed.

End ToolUseLoop.

(** ** Errors inside the dispatcher *)

(** Evaluation of the closed tests on the tool's name. *)
Ltac eval_names :=
  repeat match goal with
         | |- context [Orchestrator.is_name ?n ?s] =>
             let b := eval vm_compute in (Orchestrator.is_name n s) in
             change (Orchestrator.is_name n s) with b
         end;
  cbv beta iota.

Section DispatchErrors.
Import Orchestrator.
Context `{PyRuntime}.
Variable srv : servers.

Lemma fails_bind_l {A} (m : result A) (f : A → result value) e :
  m = inl e → Spec.fails (bind m f).
Proof. by intros ->. Qed.

Lemma fails_bind {A} (m : result A) (f : A → result value) :
  (∀ x, m = inr x → Spec.fails (f x)) → Spec.fails (bind m f).
Proof. destruct m as [e|x]; cbn; [done | eauto]. Qed.

Lemma fails_payload tool_name tool_input :
  Spec.fails (dispatch_body srv tool_name tool_input) →
  ∃ msg, dispatch_tool srv tool_name tool_input = error_payload msg.
Proof.
  unfold dispatch_tool.
  destruct (dispatch_body srv tool_name tool_input) as [e|v]; cbn; eauto.
Qed.

Lemma unknown_tool tool_name tool_input :
  Forall (fun entry => tool_name ≠ u (fst entry)) Spec.catalog →
  dispatch_tool srv tool_name tool_input
  = error_payload (u "Herramienta '" ++ tool_name ++ u "' no implementada").
Proof.
  intros Hall. unfold dispatch_tool, dispatch_body, is_name.
  repeat (apply Forall_cons in Hall as [Hn Hall]; cbn [fst] in Hn;
          rewrite (str_eqb_neq _ _ Hn); clear Hn).
  reflexivity.
Qed.

Ltac fails_step :=
  repeat first
    [ by eapply fails_bind_l
    | apply fails_bind; intros ? ?
    | match goal with
      | |- Spec.fails (if ?b then _ else _) => destruct b
      | |- Spec.fails (ret (error_payload _)) => by eexists
      end ].

(** The dispatch of a request that lacks a required field of its
    operation raises a [KeyError] or returns an error payload. *)
Lemma missing_field (operation : string) (fields : list string) field
    tool_input e :
  (operation, fields) ∈ Spec.catalog →
  field ∈ fields →
  getitem tool_input field = inl e →
  Spec.fails (dispatch_body srv (u operation) tool_input).
Proof.
  intros Hop Hf He. unfold dispatch_body, Spec.catalog in *.
  repeat (apply elem_of_cons in Hop as [Hop|Hop];
          [injection Hop as -> ->; eval_names; cases_in Hf; fails_step|]).
  by apply elem_of_nil in Hop.
Qed.

(** [TOOLS] declares the fields of [compare_documents] under other
    names, [doc1_id] and [doc2_id], than the [doc_id_1] and [doc_id_2]
    of the catalog, which [_dispatch_tool] reads: a request written
    after [TOOLS] gets the payload of a [KeyError]. *)
Lemma compare_documents_declared_fields doc1 doc2 :
  dispatch_tool srv (u "compare_documents")
    (VDict [(u "doc1_id", doc1); (u "doc2_id", doc2)])
  = error_payload (u "Error ejecutando compare_documents: 'doc_id_1'").
Proof.
  unfold dispatch_tool, dispatch_body. eval_names.
  by vm_compute (getitem _ "doc_id_1").
Qed.

Lemma execute_tools_payload (content : list block) id tool_name tool_input :
  ToolUseBlock id tool_name tool_input ∈ content →
  {| tool_use_id := id;
     Orchestrator.content :=
       json_dumps srv (dispatch_tool srv tool_name tool_input) |}
  ∈ execute_tools srv content.
Proof.
  intros Hin. unfold execute_tools.
  apply list_elem_of_In, in_flat_map.
  exists (ToolUseBlock id tool_name tool_input).
  split; [by apply list_elem_of_In | by left].
Qed.

(** C9. For every request dispatched inside the loop: a request
    whose operation is none of the catalog, a request that lacks a
    required field of its operation, and an exception raised in the
    course of the dispatch each yield an error payload as the result
    of the dispatch, which is a total function and raises nothing; the
    loop takes such a result like any other: it appends the request
    and the results, with the payload of each request, to the messages
    and goes on to the next round trip. *)
Theorem C9_errors_become_payloads tool_name tool_input :
  (Forall (fun entry => tool_name ≠ u (fst entry)) Spec.catalog →
   dispatch_tool srv tool_name tool_input
   = error_payload (u "Herramienta '" ++ tool_name ++ u "' no implementada"))
  ∧ (∀ operation fields field e,
       (operation, fields) ∈ Spec.catalog → tool_name = u operation →
       field ∈ fields →
       getitem tool_input field = inl e →
       ∃ msg, dispatch_tool srv tool_name tool_input = error_payload msg)
  ∧ (∀ e,
       dispatch_body srv tool_name tool_input = inl e →
       dispatch_tool srv tool_name tool_input
       = error_payload
           (u "Error ejecutando " ++ tool_name ++ u ": " ++ str_of_exn e))
  ∧ (∀ planner doc_id iteration messages log response id,
       iteration < max_iterations →
       planner (S iteration) messages = inr response →
       stop_reason response = u "tool_use" →
       ToolUseBlock id tool_name tool_input ∈ response_content response →
       let results := execute_tools srv (response_content response) in
       {| tool_use_id := id;
          Orchestrator.content :=
            json_dumps srv (dispatch_tool srv tool_name tool_input) |}
       ∈ results
       ∧ run_from srv planner doc_id iteration messages log
         = run_from srv planner doc_id (S iteration)
             (messages ++ [Assistant (response_content response);
                           UserToolResults results])
             (log ++ [log_of (S iteration) response])).
Proof.
  split; [apply unknown_tool|]. split; [|split].
  - intros operation fields field e Hop -> Hf He.
    by eapply fails_payload, missing_field.
  - intros e He. unfold dispatch_tool. by rewrite He.
  - intros planner doc_id iteration messages log response id
      Hlt Hp Hs Hin results.
    split; [by apply execute_tools_payload|].
    rewrite run_from_step.
    destruct (decide (iteration < max_iterations)); [|done].
    rewrite Hp, Hs. by vm_compute (PyStr.eqb _ _).
Qed.

End DispatchErrors.

(** ** Rounding: a product grows with the exponent of a factor *)

Section RoundingFacts.
Import Rounding.
Local Open Scope Z_scope.


Lemma fexp_eq x : SpecFloat.fexp prec emax x = fexp x.
Proof. reflexivity. Qed.

Lemma shr_shrn mrs e n : shr mrs e n = (shrn n mrs, shifted n e).
Proof. unfold shr, shrn, shifted. by destruct n. Qed.

Lemma round_aux_stages (mz e : Z) :
binary_round_aux prec emax false mz e loc_Exact =
  let n1 := fexp (Zdigits2 mz + e) - e in
  let m1 := rnd (shrn n1 (exact mz)) in
  let e1 := shifted n1 e in
  let n2 := fexp (Zdigits2 m1 + e1) - e1 in
  final (shr_m (shrn n2 (exact m1))) (shifted n2 e1).
Proof.
unfold binary_round_aux, shr_fexp. rewrite !fexp_eq.
cbn [shr_record_of_loc]. rewrite shr_shrn.
cbv zeta. fold (exact mz). fold (rnd (shrn (fexp (Zdigits2 mz + e) - e) (exact mz))).
rewrite shr_shrn. reflexivity.
Qed.

Lemma iter_pos_comm {A} (f : A → A) p : ∀ x,
SpecFloat.iter_pos f p (f x) = f (SpecFloat.iter_pos f p x).
Proof.
induction p as [p IH|p IH|]; intros x; cbn [SpecFloat.iter_pos]; [| |done].
- by rewrite !IH.
- by rewrite !IH.
Qed.

Lemma iter_pos_succ {A} (f : A → A) p : ∀ x,
SpecFloat.iter_pos f (Pos.succ p) x = f (SpecFloat.iter_pos f p x).
Proof.
induction p as [p IH|p IH|]; intros x; simpl; [| |done].
- rewrite !IH. by rewrite <- !iter_pos_comm.
- by rewrite !iter_pos_comm.
Qed.

(** One more shift. *)
Lemma shrn_succ n mrs : 0 <= n → shrn (n + 1) mrs = shr_1 (shrn n mrs).
Proof.
intros Hn. destruct n as [|p|p]; [done| |lia].
change (Z.pos p + 1) with (Z.pos (p + 1)). rewrite Pos.add_1_r.
apply iter_pos_succ.
Qed.

Lemma shr_1_nonneg mrs : 0 <= shr_m mrs → 0 <= shr_m (shr_1 mrs).
Proof. destruct mrs as [[|[p|p|]|p] r s]; cbn; lia. Qed.

Lemma shrn_nonneg n mrs : 0 <= shr_m mrs → 0 <= shr_m (shrn n mrs).
Proof.
intros Hm. destruct n as [|p|p]; [done| |done]. cbn [shrn].
induction p as [|p IH] using Pos.peano_ind; [by apply shr_1_nonneg|].
rewrite iter_pos_succ. by apply shr_1_nonneg.
Qed.

Lemma rnd_ge mrs : shr_m mrs <= rnd mrs.
Proof.
unfold rnd. destruct mrs as [m [|] [|]]; cbn; try lia.
destruct (Z.even m); lia.
Qed.

Lemma rnd_shr_1_le mrs : 0 <= shr_m mrs → rnd (shr_1 mrs) <= shr_m mrs.
Proof.
unfold rnd.
destruct mrs as [[|[p|p|]|p] [|] [|]]; cbn; intros Hm; try lia;
  try (destruct (Z.even _); lia); destruct p; cbn; lia.
Qed.

Lemma digits2_size p : digits2_pos p = Pos.size p.
Proof. induction p; cbn; congruence. Qed.

Lemma Zdigits2_log2 p : Zdigits2 (Z.pos p) = Z.log2 (Z.pos p) + 1.
Proof.
destruct p; cbn [Zdigits2 digits2_pos Z.log2];
  rewrite ?digits2_size; lia.
Qed.

Lemma Zdigits2_nonneg x : 0 <= Zdigits2 x.
Proof. destruct x; cbn; lia. Qed.

Lemma Zdigits2_mono x y : 0 <= x <= y → Zdigits2 x <= Zdigits2 y.
Proof.
intros [Hx Hxy]. destruct x as [|p|p]; [apply Zdigits2_nonneg| |lia].
destruct y as [|q|q]; [lia| |lia].
rewrite !Zdigits2_log2. pose proof (Z.log2_le_mono (Z.pos p) (Z.pos q) Hxy).
lia.
Qed.

Lemma Zdigits2_shr_1 mrs :
0 <= shr_m mrs →
Zdigits2 (shr_m (shr_1 mrs)) = Z.max 0 (Zdigits2 (shr_m mrs) - 1).
Proof.
destruct mrs as [[|[p|p|]|p] r s]; cbn; lia.
Qed.

Lemma Zdigits2_shrn n mrs :
0 <= n → 0 <= shr_m mrs →
Zdigits2 (shr_m (shrn n mrs)) = Z.max 0 (Zdigits2 (shr_m mrs) - n).
Proof.
intros Hn Hm. revert n Hn. apply natlike_ind.
- cbn. pose proof (Zdigits2_nonneg (shr_m mrs)). lia.
- intros n Hn IH. change (Z.succ n) with (n + 1).
  rewrite shrn_succ by done.
  rewrite Zdigits2_shr_1 by (by apply shrn_nonneg). lia.
Qed.

Lemma shrn_nonpos n mrs : n <= 0 → shrn n mrs = mrs.
Proof. intros Hn. destruct n; [done | lia | done]. Qed.

Lemma shifted_nonpos n e : n <= 0 → shifted n e = e.
Proof. intros Hn. unfold shifted. destruct (Z.ltb_spec 0 n); [lia | done]. Qed.

Lemma shifted_pos n e : 0 < n → shifted n e = e + n.
Proof. intros Hn. unfold shifted. destruct (Z.ltb_spec 0 n); [done | lia]. Qed.

Lemma below_refl x : below x x.
Proof. by intros d. Qed.

Lemma ltb_finite_inv m e d :
ltb (S754_finite false m e) d = true →
d = S754_infinity false
∨ ∃ m' e', d = S754_finite false m' e'
           ∧ (e < e' ∨ (e = e' ∧ (m < m')%positive)).
Proof.
unfold ltb, SFltb. destruct d as [s|[|]| |[|] m' e']; cbn; try done.
- by left.
- intros Hc. right. exists m', e'. split; [done|].
  destruct (Z.compare_spec e e'); [|lia|done].
  right. split; [done|]. fold (Pos.compare m m') in Hc.
  by destruct (Pos.compare_spec m m').
Qed.

Lemma ltb_finite_intro m e m' e' :
e < e' ∨ (e = e' ∧ (m < m')%positive) →
ltb (S754_finite false m e) (S754_finite false m' e') = true.
Proof.
unfold ltb, SFltb. cbn. intros [Hlt | [-> Hlt]].
- by rewrite (proj2 (Z.compare_lt_iff e e') Hlt).
- rewrite Z.compare_refl. fold (Pos.compare m m').
  by rewrite (proj2 (Pos.compare_lt_iff m m') Hlt).
Qed.

(** Above a finite positive number there are only positive numbers. *)
Lemma below_zero_finite m e d :
ltb (S754_finite false m e) d = true → ltb (S754_zero false) d = true.
Proof.
intros Hd. by destruct (ltb_finite_inv _ _ _ Hd) as [-> | (m' & e' & -> & _)].
Qed.

Lemma ltb_inf_false d : ltb (S754_infinity false) d = false.
Proof. by destruct d as [|[|]| |]. Qed.

Lemma final_pos p e :
final (Z.pos p) e
= if e <=? emax - prec then S754_finite false p e else S754_infinity false.
Proof. done. Qed.

(** The same mantissa with a higher exponent. *)
Lemma below_final_exp m e e' : e <= e' → below (final m e) (final m e').
Proof.
intros He d. destruct m as [|p|p]; [done| |done]. rewrite !final_pos.
destruct (Z.leb_spec e' (emax - prec)), (Z.leb_spec e (emax - prec));
  try done; try lia; [|by rewrite ltb_inf_false].
intros Hd.
destruct (ltb_finite_inv _ _ _ Hd) as [-> | (m' & e'' & -> & Hlt)];
  [done|].
apply ltb_finite_intro. lia.
Qed.

(** A smaller mantissa with the same exponent. *)
Lemma below_final_mant m m' e : 0 <= m <= m' → below (final m e) (final m' e).
Proof.
intros [Hm Hmm] d. destruct m as [|p|p]; [|  |lia].
- destruct m' as [|q|q]; [done| |lia]. rewrite final_pos. cbn [final].
  destruct (e <=? emax - prec);
    [apply below_zero_finite | by rewrite ltb_inf_false].
- destruct m' as [|q|q]; [lia| |lia]. rewrite !final_pos.
  destruct (e <=? emax - prec); [|done].
  intros Hd.
  destruct (ltb_finite_inv _ _ _ Hd) as [-> | (m' & e'' & -> & Hlt)];
    [done|].
  apply ltb_finite_intro. lia.
Qed.

(** Any mantissa with a lower exponent. *)
Lemma below_final_low m m' e e' :
0 <= m → 0 < m' → e < e' → below (final m e) (final m' e').
Proof.
intros Hm Hm' He d. destruct m' as [|q|q]; [lia| |lia].
rewrite final_pos.
destruct (Z.leb_spec e' (emax - prec)); [|by rewrite ltb_inf_false].
destruct m as [|p|p]; [apply below_zero_finite| |lia].
rewrite final_pos. destruct (Z.leb_spec e (emax - prec)); [|lia].
intros Hd.
destruct (ltb_finite_inv _ _ _ Hd) as [-> | (m' & e'' & -> & Hlt)];
  [done|].
apply ltb_finite_intro. lia.
Qed.

Lemma rnd_exact m : rnd (exact m) = m.
Proof. done. Qed.

Lemma fexp_normal x : -1074 <= x - 53 → fexp x = x - 53.
Proof. unfold fexp. lia. Qed.

Lemma fexp_subnormal x : x - 53 <= -1074 → fexp x = -1074.
Proof. unfold fexp. lia. Qed.

(** Rounding [m * 2^e] gives a number below the rounding of
  [m * 2^(e+1)]. *)
Lemma round_aux_exp_mono (m : positive) (e : Z) :
below (binary_round_aux prec emax false (Z.pos m) e loc_Exact)
      (binary_round_aux prec emax false (Z.pos m) (e + 1) loc_Exact).
Proof.
rewrite !round_aux_stages. cbv zeta.
set (D := Zdigits2 (Z.pos m)).
assert (HD : 1 <= D).
{ unfold D. rewrite Zdigits2_log2. pose proof (Z.log2_nonneg (Z.pos m)). lia. }
destruct (Z_le_gt_dec (-1074) (D + e - 53)) as [Hnormal | Hsub].
- (* the shift is the same *)
  rewrite (fexp_normal (D + e)), (fexp_normal (D + (e + 1))) by lia.
  replace (D + e - 53 - e) with (D - 53) by lia.
  replace (D + (e + 1) - 53 - (e + 1)) with (D - 53) by lia.
  set (m1 := rnd (shrn (D - 53) (exact (Z.pos m)))).
  set (e1 := shifted (D - 53) e).
  assert (He1 : shifted (D - 53) (e + 1) = e1 + 1).
  { unfold e1, shifted. destruct (0 <? D - 53); lia. }
  assert (Hmin : -1074 <= e1).
  { unfold e1, shifted. destruct (Z.ltb_spec 0 (D - 53)); lia. }
  rewrite He1.
  destruct (Z_lt_le_dec 53 (Zdigits2 m1)) as [Hbig | Hsmall].
  + rewrite (fexp_normal (Zdigits2 m1 + e1)),
      (fexp_normal (Zdigits2 m1 + (e1 + 1))) by lia.
    replace (Zdigits2 m1 + e1 - 53 - e1) with (Zdigits2 m1 - 53) by lia.
    replace (Zdigits2 m1 + (e1 + 1) - 53 - (e1 + 1))
      with (Zdigits2 m1 - 53) by lia.
    rewrite !shifted_pos by lia. apply below_final_exp. lia.
  + rewrite !(shrn_nonpos _ (exact m1)) by (unfold fexp; lia).
    rewrite !shifted_nonpos by (unfold fexp; lia).
    apply below_final_exp. lia.
- (* both are rounded at the least exponent *)
  rewrite (fexp_subnormal (D + e)), (fexp_subnormal (D + (e + 1))) by lia.
  destruct (Z_le_gt_dec (-1074 - e) 0) as [Hnone | Hshift].
  + rewrite (shrn_nonpos (-1074 - e)), (shrn_nonpos (-1074 - (e + 1)))
      by lia.
    rewrite rnd_exact.
    rewrite (shifted_nonpos (-1074 - e)), (shifted_nonpos (-1074 - (e + 1)))
      by lia.
    fold D.
    rewrite (fexp_subnormal (D + e)), (fexp_subnormal (D + (e + 1))) by lia.
    rewrite (shrn_nonpos (-1074 - e)), (shrn_nonpos (-1074 - (e + 1)))
      by lia.
    rewrite (shifted_nonpos (-1074 - e)), (shifted_nonpos (-1074 - (e + 1)))
      by lia.
    apply below_final_exp. lia.
  + set (k := -1074 - (e + 1)).
    replace (-1074 - e) with (k + 1) by (unfold k; lia).
    assert (Hk : 0 <= k) by (unfold k; lia).
    rewrite shrn_succ by done.
    set (A := shrn k (exact (Z.pos m))).
    assert (Ha : 0 <= shr_m A) by (by apply shrn_nonneg).
    assert (HdA : Zdigits2 (shr_m A) <= 53).
    { unfold A. rewrite Zdigits2_shrn by done. cbn [shr_m exact].
      fold D. unfold k. lia. }
    pose proof (rnd_shr_1_le A Ha) as HX.
    pose proof (rnd_ge A) as HY.
    pose proof (rnd_ge (shr_1 A)) as HX0.
    pose proof (shr_1_nonneg A Ha) as H1.
    set (mX := rnd (shr_1 A)) in *. set (mY := rnd A) in *.
    assert (HeX : shifted (k + 1) e = -1074).
    { rewrite shifted_pos by lia. unfold k. lia. }
    assert (HeY : shifted k (e + 1) = -1074).
    { unfold shifted, k. destruct (Z.ltb_spec 0 (-1074 - (e + 1))); lia. }
    rewrite HeX, HeY.
    assert (HdX : Zdigits2 mX <= 53).
    { etransitivity; [apply Zdigits2_mono|exact HdA]. lia. }
    rewrite (fexp_subnormal (Zdigits2 mX + -1074)) by lia.
    rewrite (shrn_nonpos _ (exact mX)), (shifted_nonpos _ (-1074)) by lia.
    cbn [shr_m exact].
    destruct (Z_lt_le_dec 53 (Zdigits2 mY)) as [Hbig | Hsmall].
    * rewrite (fexp_normal (Zdigits2 mY + -1074)) by lia.
      set (n := Zdigits2 mY + -1074 - 53 - -1074).
      assert (Hn : 0 < n) by (unfold n; lia).
      rewrite shifted_pos by done.
      apply below_final_low; [lia| |lia].
      assert (Hd : Zdigits2 (shr_m (shrn n (exact mY))) = 53).
      { rewrite Zdigits2_shrn; cbn [shr_m exact]; unfold n; lia. }
      pose proof (shrn_nonneg n (exact mY)) as Hnn. cbn [shr_m exact] in Hnn.
      destruct (shr_m (shrn n (exact mY))); [done|lia|lia].
    * rewrite (fexp_subnormal (Zdigits2 mY + -1074)) by lia.
      rewrite (shrn_nonpos _ (exact mY)), (shifted_nonpos _ (-1074)) by lia.
      cbn [shr_m exact]. apply below_final_mant. lia.
Qed.

Lemma f0_1_eq : f0_1 = S754_finite false 7205759403792794 (-56).
Proof. by vm_compute. Qed.
Lemma f0_2_eq : f0_2 = S754_finite false 7205759403792794 (-55).
Proof. by vm_compute. Qed.
Lemma f0_05_eq : f0_05 = S754_finite false 7205759403792794 (-57).
Proof. by vm_compute. Qed.

Lemma round_aux_not_negative m e l :
ltb (binary_round_aux prec emax false m e l) zero = false.
Proof.
unfold binary_round_aux.
destruct (shr_fexp prec emax m e l) as [mrs e1].
destruct (shr_fexp prec emax _ e1 loc_Exact) as [mrs2 e2].
destruct (shr_m mrs2); [done| |done].
by destruct (e2 <=? emax - prec).
Qed.

Lemma sub_self m e :
sub (S754_finite false m e) (S754_finite false m e) = S754_zero false.
Proof.
unfold sub, SFsub. rewrite Z.min_id. unfold shl_align.
rewrite Z.sub_diag. cbn [fst cond_Zopp]. rewrite ?Z.sub_diag. reflexivity.
Qed.

Lemma eqb_finite_inv t m e :
eqb t (S754_finite false m e) = true → t = S754_finite false m e.
Proof.
unfold eqb, SFeqb. destruct t as [s|s| |[|] m' e']; cbn; try done;
  try (by destruct s).
destruct (Z.compare_spec e' e) as [-> | |]; [|done|done].
fold (Pos.compare m' m). destruct (Pos.compare_spec m' m) as [-> | |]; done.
Qed.

(** Equal numbers are not further apart than a positive fraction of the
  second, when this one is not negative. *)
Lemma equal_not_apart t r mc ec :
ltb r zero = false →
eqb t r = true →
gtb (abs (sub t r)) (mul r (S754_finite false mc ec)) = false.
Proof.
intros Hr Heq. unfold gtb.
destruct r as [s|s| |s m e].
- destruct t as [s'|s'| |s' m' e']; try done; by destruct s, s'.
- destruct t as [s'|s'| |s' m' e']; try done; by destruct s, s'.
- by destruct t.
- destruct s; [done|]. apply eqb_finite_inv in Heq as ->.
  rewrite sub_self. apply round_aux_not_negative.
Qed.

(** A fifth of a number that is not negative is above a tenth of it. *)
Lemma tenth_below_fifth r :
ltb r zero = false → below (mul r f0_1) (mul r f0_2).
Proof.
intros Hr. rewrite f0_1_eq, f0_2_eq.
destruct r as [s|s| |s m e]; try apply below_refl.
destruct s; [done|]. unfold mul, SFmul. cbn [xorb].
replace (e + -55) with (e + -56 + 1) by lia.
apply round_aux_exp_mono.
Qed.


End RoundingFacts.

(** Evaluation of the closed tests on strings. *)
Ltac eval_str_eqb :=
  repeat match goal with
         | |- context [PyStr.eqb ?a ?b] =>
             let v := eval vm_compute in (PyStr.eqb a b) in
             change (PyStr.eqb a b) with v
         end;
  cbv beta iota.

(** ** The values that the patterns extract *)

(** A match leaves the matcher further in the same text; an
    expression without a group leaves group 1 as it was, and an
    expression whose group starts with a digit class leaves in it a
    text that starts with a decimal digit. *)
Section RegexFacts.
Import Regex.
Context `{PyRuntime}.
Context {R : Type}.

Lemma one_matched (p : char → bool) st (k : mstate → option R) x :
  one p st k = Some x →
  ∃ c rest, m_rest st = c :: rest ∧ p c = true ∧ k (advance st c rest) = Some x.
Proof.
  unfold one. destruct (m_rest st) as [|c rest]; [done|].
  destruct (p c) eqn:Hp; [|done]. eauto.
Qed.

Lemma matched_one r (p : char → bool) st c rest :
  groups r = 0 → Spec.captures_numeral r = false →
  (Spec.leads_digit r = true → p = isdecimal) →
  m_rest st = c :: rest → p c = true →
  Spec.matched r st (advance st c rest).
Proof.
  intros Hg Hc Hl Hrest Hp. split; [|split].
  - exists [c]. cbn. split; [done|]. split; [lia|].
    intros Hd. exists c, []. split; [done|]. by rewrite <- (Hl Hd).
  - done.
  - by rewrite Hc.
Qed.

Lemma matched_refl r st :
  Spec.leads_digit r = false → Spec.captures_numeral r = false → Spec.matched r st st.
Proof.
  intros Hl Hc. split; [|split].
  - exists []. cbn. split; [done|]. split; [lia|]. by rewrite Hl.
  - done.
  - by rewrite Hc.
Qed.

Lemma rmatch_matched (r : regex) : ∀ st (k : mstate → option R) x,
  rmatch r st k = Some x →
  ∃ st', k st' = Some x ∧ Spec.matched r st st'.
Proof.
  induction r as [|c|c| | |ranges| |r1 IH1 r2 IH2|r1 IH1 r2 IH2|r1 IH1|r1 IH1];
    intros st k x Hm; cbn [rmatch] in Hm.
  - exists st. split; [done|]. by apply matched_refl.
  - apply one_matched in Hm as (d & rest & Hrest & Hp & Hk).
    eexists. split; [exact Hk|]. by apply (matched_one _ (N.eqb c)).
  - apply one_matched in Hm as (d & rest & Hrest & Hp & Hk).
    eexists. split; [exact Hk|]. by apply (matched_one _ (ignorecase_eq c)).
  - apply one_matched in Hm as (d & rest & Hrest & Hp & Hk).
    eexists. split; [exact Hk|]. by apply (matched_one _ isdecimal).
  - apply one_matched in Hm as (d & rest & Hrest & Hp & Hk).
    eexists. split; [exact Hk|]. by apply (matched_one _ isspace).
  - apply one_matched in Hm as (d & rest & Hrest & Hp & Hk).
    eexists. split; [exact Hk|]. by apply (matched_one _ (in_ranges ranges)).
  - destruct (xorb _ _); [|done].
    exists st. split; [done|]. by apply matched_refl.
  - apply IH1 in Hm as (st1 & Hm & H1). apply IH2 in Hm as (st' & Hk & H2).
    exists st'. split; [done|].
    destruct H1 as ((c1 & Hr1 & Hp1 & Hl1) & Hg1 & Hc1).
    destruct H2 as ((c2 & Hr2 & Hp2 & Hl2) & Hg2 & Hc2).
    split; [|split].
    + exists (c1 ++ c2). rewrite Hr1, Hr2, Hp2, Hp1, length_app.
      split; [by rewrite app_assoc|]. split; [lia|].
      cbn [Spec.leads_digit]. intros Hl. destruct (Hl1 Hl) as (d & w & -> & Hd).
      by exists d, (w ++ c2).
    + cbn [groups]. intros Hg. rewrite Hg2, Hg1 by lia. done.
    + cbn [Spec.captures_numeral]. intros Hc.
      apply orb_true_iff in Hc as [Hc | Hc];
        apply andb_true_iff in Hc as [Ha Hb].
      * apply Nat.eqb_eq in Hb. rewrite Hg2 by done. by apply Hc1.
      * by apply Hc2.
  - destruct (rmatch r1 st k) as [y|] eqn:Hm1.
    + injection Hm as ->. apply IH1 in Hm1 as (st' & Hk & H1).
      exists st'. split; [done|].
      destruct H1 as ((c1 & Hr1 & Hp1 & Hl1) & Hg1 & Hc1).
      split; [|split].
      * exists c1. repeat split; try done. cbn [Spec.leads_digit].
        intros Hl. apply andb_true_iff in Hl as [Hl _]. by apply Hl1.
      * cbn [groups]. intros Hg. apply Hg1. lia.
      * cbn [Spec.captures_numeral]. intros Hc.
        apply andb_true_iff in Hc as [Hc _]. by apply Hc1.
    + apply IH2 in Hm as (st' & Hk & H2).
      exists st'. split; [done|].
      destruct H2 as ((c2 & Hr2 & Hp2 & Hl2) & Hg2 & Hc2).
      split; [|split].
      * exists c2. repeat split; try done. cbn [Spec.leads_digit].
        intros Hl. apply andb_true_iff in Hl as [_ Hl]. by apply Hl2.
      * cbn [groups]. intros Hg. apply Hg2. lia.
      * cbn [Spec.captures_numeral]. intros Hc.
        apply andb_true_iff in Hc as [_ Hc]. by apply Hc2.
  - revert Hm. generalize (length (m_rest st)) as n. intros n. revert st.
    induction n as [|n IHn]; intros st Hm.
    + exists st. split; [done|]. by apply matched_refl.
    + destruct (rmatch r1 st _) as [y|] eqn:Hm1.
      * injection Hm as ->. apply IH1 in Hm1 as (st1 & Hm1 & H1).
        destruct (m_pos st1 =? m_pos st)%nat; [done|].
        apply IHn in Hm1 as (st' & Hk & H2).
        exists st'. split; [done|].
        destruct H1 as ((c1 & Hr1 & Hp1 & Hl1) & Hg1 & Hc1).
        destruct H2 as ((c2 & Hr2 & Hp2 & Hl2) & Hg2 & Hc2).
        split; [|split]; [|cbn [groups] in *|done].
        -- exists (c1 ++ c2). rewrite Hr1, Hr2, Hp2, Hp1, length_app.
           split; [by rewrite app_assoc|]. split; [lia|done].
        -- intros Hg. rewrite Hg2, Hg1 by done. done.
      * exists st. split; [done|]. by apply matched_refl.
  - apply IH1 in Hm as (st1 & Hk & H1).
    eexists. split; [exact Hk|].
    destruct H1 as ((c1 & Hr1 & Hp1 & Hl1) & Hg1 & Hc1).
    split; [|split].
    + exists c1. cbn [m_rest m_pos Spec.leads_digit]. done.
    + done.
    + cbn [Spec.captures_numeral m_group]. intros Hc.
      apply andb_true_iff in Hc as [_ Hl].
      exists c1. split; [|by apply Hl1].
      f_equal. rewrite Hr1, Hp1.
      replace (m_pos st + length c1 - m_pos st) with (length c1) by lia.
      by rewrite take_app_length.
Qed.
End RegexFacts.

(** The values of the numeric fact types start with a decimal digit. *)
Section Extraction.
Import Regex.
Context `{PyRuntime}.

Lemma captures_numeral_groups r :
  Spec.captures_numeral r = true → groups r ≠ 0.
Proof.
  induction r; cbn [Spec.captures_numeral groups]; try done.
  - intros Hc. apply orb_true_iff in Hc as [Hc | Hc];
      apply andb_true_iff in Hc as [Ha Hb]; [apply IHr1 in Ha | apply IHr2 in Hb]; lia.
  - intros Hc. apply andb_true_iff in Hc as [Ha _]. apply IHr1 in Ha. lia.
Qed.

Lemma match_at_numeral r pos prev s m :
  Spec.captures_numeral r = true →
  match_at r pos prev s = Some m →
  Spec.digit_led (group1_or_0 r m).
Proof.
  intros Hc. unfold match_at.
  destruct (rmatch r _ Some) as [st|] eqn:Hm; [|done].
  intros [= <-].
  apply rmatch_matched in Hm as (st' & [= ->] & _ & _ & Hg).
  destruct (Hg Hc) as (g & Hgroup & Hled).
  unfold group1_or_0. cbn [group1]. rewrite Hgroup.
  pose proof (captures_numeral_groups r Hc).
  by destruct (groups r).
Qed.

Lemma scan_numeral r s : ∀ pos prev skip,
  Spec.captures_numeral r = true →
  Forall (fun m => Spec.digit_led (group1_or_0 r m)) (scan r pos prev skip s).
Proof.
  induction s as [|c s IH]; intros pos prev skip Hc; cbn [scan]; [constructor|].
  destruct skip; [|by apply IH].
  destruct (match_at r pos prev (c :: s)) as [m|] eqn:Hm; [|by apply IH].
  constructor; [by eapply match_at_numeral | by apply IH].
Qed.

Lemma extract_values_numeral r content :
  Spec.captures_numeral r = true →
  Forall (fun f => Spec.digit_led (value f)) (extract_values r content).
Proof.
  intros Hc. unfold extract_values. apply Forall_map. cbn [value].
  by apply scan_numeral.
Qed.

Lemma patterns_capture_numerals :
  forallb (fun '(t, r) => implb (Spec.numeric t) (Spec.captures_numeral r))
    contradiction_patterns = true.
Proof. by vm_compute. Qed.

Lemma extract_data_numeral content t values :
  (t, values) ∈ extract_data content →
  Spec.numeric t = true →
  Forall (fun f => Spec.digit_led (value f)) values.
Proof.
  unfold extract_data. intros Hin Hn.
  apply list_elem_of_In, in_flat_map in Hin as ([t' r] & Hp & Hin).
  pose proof patterns_capture_numerals as Hall.
  rewrite forallb_forall in Hall. specialize (Hall _ Hp). cbn beta iota in Hall.
  pose proof (extract_values_numeral r content) as Hv.
  destruct (extract_values r content) as [|f fs]; [done|].
  destruct Hin as [[= <- <-]|[]].
  rewrite Hn in Hall. by apply Hv.
Qed.

Lemma lookup_data_elem t (d : data) values :
  lookup_data t d = Some values → (t, values) ∈ d.
Proof.
  unfold lookup_data. destruct (List.find _ d) as [[t' v]|] eqn:Hf; [|done].
  intros [= <-]. apply find_some in Hf as [Hin Ht].
  apply bool_decide_eq_true in Ht. cbn in Ht. subst t'.
  by apply list_elem_of_In.
Qed.

Lemma replace_digit_led s :
  isdecimal (chr ",") = false →
  Spec.digit_led s → Spec.digit_led (PyStr.replace (chr ",") [] s).
Proof.
  intros Hcomma (c & w & -> & Hc). unfold PyStr.replace. cbn [flat_map].
  destruct (N.eqb_spec c (chr ",")) as [->|Hne]; [congruence|].
  cbn. by exists c, (flat_map (λ x, if (x =? chr ",")%N then [] else [x]) w).
Qed.

Lemma number_of_extracted v t r :
  Spec.unsigned_numerals → Spec.digit_led v →
  Spec.number_of t v = Some r → ltb r zero = false.
Proof.
  intros [Hcomma Hfloat] Hled. unfold Spec.number_of.
  destruct (is_member t [plazo_dias; _; _; _]); [by apply Hfloat|].
  destruct (is_member t [monto_soles; _]); [|done].
  apply Hfloat. by apply replace_digit_led.
Qed.
End Extraction.

(** ** The sensitivity tiers *)

Section Monotone.
Import Rounding.
Context `{PyRuntime}.

Lemma numeric_monotone x r s1 s2 :
  Spec.stricter s1 s2 →
  ltb r zero = false →
  (if PyStr.eqb s2 strict then neb x r
   else if PyStr.eqb s2 moderate then gtb (abs (sub x r)) (mul r f0_1)
        else gtb (abs (sub x r)) (mul r f0_2)) = true →
  (if PyStr.eqb s1 strict then neb x r
   else if PyStr.eqb s1 moderate then gtb (abs (sub x r)) (mul r f0_1)
        else gtb (abs (sub x r)) (mul r f0_2)) = true.
Proof.
  intros Hs Hr.
  destruct Hs as [[-> ->] | [[-> ->] | [-> ->]]]; eval_str_eqb.
  - intros Hgt. unfold neb. destruct (eqb x r) eqn:Heq; [|done].
    rewrite f0_1_eq in Hgt. by rewrite equal_not_apart in Hgt.
  - intros Hgt. unfold neb. destruct (eqb x r) eqn:Heq; [|done].
    rewrite f0_2_eq in Hgt. by rewrite equal_not_apart in Hgt.
  - unfold gtb. apply tenth_below_fifth, Hr.
Qed.

Lemma currency_monotone x r s1 s2 :
  Spec.stricter s1 s2 →
  ltb r zero = false →
  (if PyStr.eqb s2 strict then neb x r
   else gtb (abs (sub x r)) (mul r f0_05)) = true →
  (if PyStr.eqb s1 strict then neb x r
   else gtb (abs (sub x r)) (mul r f0_05)) = true.
Proof.
  intros Hs Hr.
  destruct Hs as [[-> ->] | [[-> ->] | [-> ->]]]; eval_str_eqb; [| |done].
  - intros Hgt. unfold neb. destruct (eqb x r) eqn:Heq; [|done].
    rewrite f0_05_eq in Hgt. by rewrite equal_not_apart in Hgt.
  - intros Hgt. unfold neb. destruct (eqb x r) eqn:Heq; [|done].
    rewrite f0_05_eq in Hgt. by rewrite equal_not_apart in Hgt.
Qed.

(** The rule of a stricter tier holds wherever the rule of a looser
    tier does, for a governing value that is not read as a negative
    number. *)
Lemma values_conflict_monotone (t : pattern_type) (tv rv : str) (s1 s2 : str) :
  Spec.stricter s1 s2 →
  (∀ r, Spec.number_of t rv = Some r → ltb r zero = false) →
  values_conflict tv rv t s2 = true →
  values_conflict tv rv t s1 = true.
Proof.
  intros Hs Hr. unfold values_conflict. unfold Spec.number_of in Hr.
  destruct t; revert Hr; eval_member; intros Hr; try done.
  1-3, 6:
    (destruct (py_float tv) as [x|]; [|done]);
    (destruct (py_float rv) as [r|]; [|done]);
    apply numeric_monotone; [done | by apply Hr].
  all:
    (destruct (py_float (PyStr.replace _ _ tv)) as [x|]; [|done]);
    (destruct (py_float (PyStr.replace _ _ rv)) as [r|]; [|done]);
    apply currency_monotone; [done | by apply Hr].
Qed.

(** C6, as amended.  For every fact type and every pair of values whose
    governing value [_values_conflict] does not read as a negative
    number, and for tiers [s1] stricter than [s2], a conflict detected
    under [s2] is detected under [s1]. *)
Theorem C6_stricter_detects_more (t : pattern_type) (tv rv : str) (s1 s2 : str) :
  Spec.stricter s1 s2 →
  (∀ r, Spec.number_of t rv = Some r → ltb r zero = false) →
  values_conflict tv rv t s2 = true →
  values_conflict tv rv t s1 = true.
Proof. apply values_conflict_monotone. Qed.

(** *** In the analysis of documents

    The governing values of an analysis are what the patterns extract:
    numerals that start with a digit, which [float()] reads as numbers
    that are not negative.  So the tiers are ordered on every pair of
    documents. *)
Lemma elem_of_compare_values c tvs rvs t s :
  c ∈ compare_values tvs rvs t s ↔
  ∃ tv rv, tv ∈ tvs ∧ rv ∈ rvs
    ∧ values_conflict (value tv) (value rv) t s = true
    ∧ c = {| target := value tv; rector := value rv;
             conflict_context_target := context tv;
             conflict_context_rector := context rv |}.
Proof.
  unfold compare_values. rewrite list_elem_of_In, in_flat_map. split.
  - intros (tv & Htv & Hin). apply in_flat_map in Hin as (rv & Hrv & Hin).
    exists tv, rv. rewrite !list_elem_of_In.
    destruct (values_conflict _ _ _ _); [|done].
    destruct Hin as [<-|[]]. done.
  - intros (tv & rv & Htv & Hrv & Hc & ->).
    exists tv. split; [by apply list_elem_of_In|].
    apply in_flat_map. exists rv. split; [by apply list_elem_of_In|].
    rewrite Hc. by left.
Qed.

Lemma numeric_number_of t v :
  Spec.numeric t = false → Spec.number_of t v = None.
Proof. by destruct t. Qed.

(** Between the values of two documents, a conflict detected under a
    tier is detected under every stricter tier. *)
Theorem compare_values_monotone rector_content t tvs rvs s1 s2 :
  Spec.unsigned_numerals → Spec.stricter s1 s2 →
  lookup_data t (extract_data rector_content) = Some rvs →
  ∀ c, c ∈ compare_values tvs rvs t s2 → c ∈ compare_values tvs rvs t s1.
Proof.
  intros Hu Hs Hl c. rewrite !elem_of_compare_values.
  intros (tv & rv & Htv & Hrv & Hc & ->).
  exists tv, rv. repeat split; try done.
  apply (values_conflict_monotone t _ _ s1 s2); [done| |done].
  destruct (Spec.numeric t) eqn:Hn.
  - intros r. apply number_of_extracted; [done|].
    apply lookup_data_elem, extract_data_numeral in Hl; [|done].
    rewrite Forall_forall in Hl. by apply Hl.
  - intros r. by rewrite numeric_number_of.
Qed.

Lemma elem_of_all_conflicts c target tm rectors s :
  c ∈ Spec.all_conflicts target tm rectors s ↔
  ∃ re t tvs rvs cf,
    re ∈ rectors ∧ (t, tvs) ∈ extract_data target
    ∧ lookup_data t (extract_data (fst re)) = Some rvs
    ∧ cf ∈ compare_values tvs rvs t s
    ∧ c = Spec.entry_of tm (snd re) t s cf.
Proof.
  unfold Spec.all_conflicts, Spec.conflicts_with.
  rewrite list_elem_of_In, in_flat_map. split.
  - intros (re & Hre & Hin).
    apply in_flat_map in Hin as ([t tvs] & Ht & Hin).
    destruct (lookup_data t _) as [rvs|] eqn:Hl; [|done].
    apply in_map_iff in Hin as (cf & <- & Hcf).
    exists re, t, tvs, rvs, cf. by rewrite !list_elem_of_In.
  - intros (re & t & tvs & rvs & cf & Hre & Ht & Hl & Hcf & ->).
    exists re. split; [by apply list_elem_of_In|].
    apply in_flat_map. exists (t, tvs). split; [by apply list_elem_of_In|].
    rewrite Hl. apply in_map. by apply list_elem_of_In.
Qed.

Lemma elem_of_reported c target tm rectors s :
  c ∈ contradictions (detect_contradictions target tm rectors s)
      ++ warnings (detect_contradictions target tm rectors s)
  ↔ c ∈ Spec.all_conflicts target tm rectors s.
Proof.
  destruct (detect_lists target tm rectors s) as [-> ->].
  rewrite elem_of_app, !list_elem_of_In, !filter_In.
  unfold Spec.is_warning. destruct (Spec.is_contradiction c); cbn; tauto.
Qed.

(** Every conflict that an analysis reports under a tier, as a
    contradiction or as a warning, is reported by the analysis of the
    same documents under every stricter tier. *)
Theorem detected_under_stricter target tm rectors s1 s2 c :
  Spec.unsigned_numerals → Spec.stricter s1 s2 →
  c ∈ contradictions (detect_contradictions target tm rectors s2)
      ++ warnings (detect_contradictions target tm rectors s2) →
  ∃ c',
    c' ∈ contradictions (detect_contradictions target tm rectors s1)
         ++ warnings (detect_contradictions target tm rectors s1)
    ∧ Spec.same_conflict c c'.
Proof.
  intros Hu Hs. rewrite elem_of_reported, elem_of_all_conflicts.
  intros (re & t & tvs & rvs & cf & Hre & Ht & Hl & Hcf & ->).
  exists (Spec.entry_of tm (snd re) t s1 cf). split; [|by repeat split].
  apply elem_of_reported, elem_of_all_conflicts.
  exists re, t, tvs, rvs, cf. repeat split; try done.
  by eapply compare_values_monotone.
Qed.

End Monotone.

(** ** The tables of the examples read unsigned numerals *)

Section Latin1Facts.
Import Latin1.
Local Open Scope N_scope.

Lemma decimal_cases c :
  decimal c = true →
  c ∈ [48; 49; 50; 51; 52; 53; 54; 55; 56; 57].
Proof.
  unfold decimal, between. intros Hc.
  apply andb_true_iff in Hc as [Hlo Hhi].
  apply N.leb_le in Hlo, Hhi.
  assert (Hn : ∃ n, (n < 10)%nat ∧ c = 48 + N.of_nat n).
  { exists (N.to_nat (c - 48)). split; lia. }
  destruct Hn as (n & Hn & ->).
  do 10 (destruct n as [|n]; [compute_done|]). lia.
Qed.

Lemma lstrip_by_snoc (p : char → bool) l c :
  p c = false → PyStr.lstrip_by p (l ++ [c]) = PyStr.lstrip_by p l ++ [c].
Proof.
  intros Hc. induction l as [|x l IH]; cbn; [by rewrite Hc|].
  by destruct (p x).
Qed.

Lemma strip_by_led (p : char → bool) c w :
  p c = false → ∃ w', PyStr.strip_by p (c :: w) = c :: w'.
Proof.
  intros Hc. unfold PyStr.strip_by. cbn [PyStr.lstrip_by]. rewrite Hc.
  cbn [rev]. rewrite lstrip_by_snoc, rev_app_distr by done. cbn. eauto.
Qed.

Lemma with_sign_not_negative x : ltb (with_sign false x) zero = false.
Proof. by destruct x. Qed.

Lemma latin1_unsigned_numerals : Spec.unsigned_numerals.
Proof.
  split; [done|]. intros s r (c & w & -> & Hc). cbn in Hc |- *.
  apply decimal_cases in Hc. unfold float_of_numeral.
  assert (Hs : space c = false) by (cases_in Hc; done).
  destruct (strip_by_led space c w Hs) as (w' & ->).
  assert (Hsign : split_sign (c :: w') = (false, c :: w'))
    by (cases_in Hc; done).
  rewrite Hsign.
  destruct (read_digits _ _ _) as [[ip ni] s2].
  destruct s2 as [|d s3].
  - destruct (ni =? 0)%nat; [done|]. intros [= <-]. apply with_sign_not_negative.
  - destruct (N.eqb_spec d 46) as [->|Hd].
    + destruct (read_digits _ _ _) as [[fp nf] s4].
      destruct s4; [|done]. destruct (_ =? 0)%nat; [done|].
      intros [= <-]. apply with_sign_not_negative.
    + destruct d as [|p]; [done|].
      do 6 (try (destruct p as [p|p|]; try done)).
Qed.
(** With these tables, every conflict that an analysis reports under
    a tier is reported under every stricter tier. *)
Corollary latin1_detected_under_stricter target tm rectors s1 s2 c :
  Spec.stricter s1 s2 →
  c ∈ contradictions (detect_contradictions target tm rectors s2)
      ++ warnings (detect_contradictions target tm rectors s2) →
  ∃ c',
    c' ∈ contradictions (detect_contradictions target tm rectors s1)
         ++ warnings (detect_contradictions target tm rectors s1)
    ∧ Spec.same_conflict c c'.
Proof. apply detected_under_stricter, latin1_unsigned_numerals. Qed.

End Latin1Facts.

(** ** The theorems at concrete inputs *)

Section Witnesses.
Import Latin1 Examples Orchestrator.

(** C6 fails as stated: [_values_conflict] reads a signed numeral as
    well, and "-5" against "-5" is a conflict under [moderate], the
    distance 0 being above a tenth of -5, but not under [strict]. *)
Lemma C6_counterexample :
  Spec.stricter strict moderate
  ∧ py_float (u "-5") = Some (S754_finite true 5629499534213120 (-50))
  ∧ values_conflict (u "-5") (u "-5") plazo_dias moderate = true
  ∧ values_conflict (u "-5") (u "-5") plazo_dias strict = false.
Proof. split; [by left|]. by vm_compute. Qed.

(** C3 fails as stated, on real numbers.  "1.1" against "1" is apart
    by a tenth of the governing value and no more, yet it is a conflict
    under [moderate]: the double of 1.1 is above 1.1.  The whole
    numbers 7430939385161324 and 6755399441055749, each with a double
    of its own, are apart by more than a tenth of the second, and are
    no conflict under [moderate]; 9007199254740993 and
    9007199254740992 are unequal and have the same double, and are no
    conflict under [strict]. *)
Lemma C3_counterexample :
  Spec.denoted (u "1.1") = Some (QArith_base.Qmake 11 10)
  ∧ Spec.denoted (u "1") = Some (QArith_base.inject_Z 1)
  ∧ values_conflict (u "1.1") (u "1") porcentaje moderate = true
  ∧ Spec.period_conflict_of moderate (u "1.1") (u "1") = false
  ∧ values_conflict (u "7430939385161324") (u "6755399441055749")
      plazo_dias moderate = false
  ∧ Spec.period_conflict_of moderate
      (u "7430939385161324") (u "6755399441055749") = true
  ∧ values_conflict (u "9007199254740993") (u "9007199254740992")
      plazo_dias strict = false
  ∧ Spec.period_conflict_of strict
      (u "9007199254740993") (u "9007199254740992") = true.
Proof. repeat split; by vm_compute. Qed.

(** C4 fails as stated, on real numbers: "1.05" against "1.00" is
    apart by 5% of the governing value and no more, yet it is a
    conflict under [moderate] and under [flexible]. *)
Lemma C4_counterexample :
  Spec.denoted (u "1.05") = Some (QArith_base.Qmake 105 100)
  ∧ Spec.denoted (u "1.00") = Some (QArith_base.Qmake 100 100)
  ∧ values_conflict (u "1.05") (u "1.00") monto_dolares moderate = true
  ∧ Spec.currency_conflict_of moderate (u "1.05") (u "1.00") = false
  ∧ values_conflict (u "1.05") (u "1.00") monto_dolares flexible = true
  ∧ Spec.currency_conflict_of flexible (u "1.05") (u "1.00") = false.
Proof. repeat split; by vm_compute. Qed.

Lemma C3_witness :
  plazo_dias ∈ [plazo_dias; plazo_meses; plazo_años; porcentaje]
  ∧ py_float (u "40") = Some (of_Z 40)
  ∧ py_float (u "45") = Some (of_Z 45)
  ∧ values_conflict (u "40") (u "45") plazo_dias strict = true
  ∧ values_conflict (u "40") (u "45") plazo_dias moderate = true
  ∧ values_conflict (u "40") (u "45") plazo_dias flexible = false
  ∧ ∀ s, s ∈ [strict; moderate; flexible] →
         values_conflict (u "40") (u "45") plazo_dias s
         = Spec.period_conflict s
             (QArith_base.inject_Z 40) (QArith_base.inject_Z 45).
Proof.
  assert (Hin : plazo_dias ∈ [plazo_dias; plazo_meses; plazo_años; porcentaje])
    by constructor.
  assert (Ht : py_float (u "40") = Some (of_Z 40))
    by (vm_compute; reflexivity).
  assert (Hr : py_float (u "45") = Some (of_Z 45))
    by (vm_compute; reflexivity).
  pose proof (C3_period_percentage_rule plazo_dias (u "40") (u "45") Hin)
    as Hrule.
  rewrite Ht, Hr in Hrule. destruct Hrule as (Hs & Hm & Hf & Hexact).
  split; [exact Hin|]. split; [exact Ht|]. split; [exact Hr|].
  split; [rewrite Hs; vm_compute; reflexivity|].
  split; [rewrite Hm; vm_compute; reflexivity|].
  split; [rewrite Hf; vm_compute; reflexivity|].
  intros s Hs'. apply (Hexact 40%Z 45%Z); [lia|lia|reflexivity|reflexivity|].
  exact Hs'.
Defined.

Lemma C4_witness :
  monto_dolares ∈ [monto_soles; monto_dolares]
  ∧ py_float (PyStr.replace (chr ",") [] (u "950")) = Some (of_Z 950)
  ∧ py_float (PyStr.replace (chr ",") [] (u "1,000")) = Some (of_Z 1000)
  ∧ values_conflict (u "950") (u "1,000") monto_dolares strict = true
  ∧ values_conflict (u "950") (u "1,000") monto_dolares moderate = false
  ∧ values_conflict (u "950") (u "1,000") monto_dolares flexible = false
  ∧ (∀ s, s ∈ [strict; moderate; flexible] →
          values_conflict (u "950") (u "1,000") monto_dolares s
          = Spec.currency_conflict s
              (QArith_base.inject_Z 950) (QArith_base.inject_Z 1000))
  ∧ py_float (PyStr.replace (chr ",") [] (u "5,000")) = Some (of_Z 5000)
  ∧ py_float (PyStr.replace (chr ",") [] (u "10,000")) = Some (of_Z 10000)
  ∧ values_conflict (u "5,000") (u "10,000") monto_dolares strict = true
  ∧ values_conflict (u "5,000") (u "10,000") monto_dolares moderate = true
  ∧ values_conflict (u "5,000") (u "10,000") monto_dolares flexible = true.
Proof.
  assert (Hin : monto_dolares ∈ [monto_soles; monto_dolares])
    by (constructor; constructor).
  assert (Ht : py_float (PyStr.replace (chr ",") [] (u "950"))
               = Some (of_Z 950)) by (vm_compute; reflexivity).
  assert (Hr : py_float (PyStr.replace (chr ",") [] (u "1,000"))
               = Some (of_Z 1000)) by (vm_compute; reflexivity).
  assert (Ht' : py_float (PyStr.replace (chr ",") [] (u "5,000"))
                = Some (of_Z 5000)) by (vm_compute; reflexivity).
  assert (Hr' : py_float (PyStr.replace (chr ",") [] (u "10,000"))
                = Some (of_Z 10000)) by (vm_compute; reflexivity).
  pose proof (C4_currency_rule monto_dolares (u "950") (u "1,000") Hin)
    as Hrule.
  rewrite Ht, Hr in Hrule. destruct Hrule as (Hs & Hother & Hexact).
  pose proof (C4_currency_rule monto_dolares (u "5,000") (u "10,000") Hin)
    as Hrule'.
  rewrite Ht', Hr' in Hrule'. destruct Hrule' as (Hs' & Hother' & _).
  assert (Hm : moderate ≠ strict) by (intros Heq; vm_compute in Heq; done).
  assert (Hf : flexible ≠ strict) by (intros Heq; vm_compute in Heq; done).
  split; [exact Hin|]. split; [exact Ht|]. split; [exact Hr|].
  split; [rewrite Hs; vm_compute; reflexivity|].
  split; [rewrite (Hother moderate Hm); vm_compute; reflexivity|].
  split; [rewrite (Hother flexible Hf); vm_compute; reflexivity|].
  split.
  { intros s Hin'.
    apply (Hexact 950%Z 1000%Z); [lia|lia|reflexivity|reflexivity|].
    exact Hin'. }
  split; [exact Ht'|]. split; [exact Hr'|].
  split; [rewrite Hs'; vm_compute; reflexivity|].
  split; [rewrite (Hother' moderate Hm); vm_compute; reflexivity|].
  rewrite (Hother' flexible Hf); vm_compute; reflexivity.
Defined.

Lemma C6_witness :
  Spec.stricter strict flexible
  ∧ (∀ r, Spec.number_of porcentaje (u "10") = Some r → ltb r zero = false)
  ∧ values_conflict (u "12.5") (u "10") porcentaje flexible = true
  ∧ values_conflict (u "12.5") (u "10") porcentaje strict = true.
Proof.
  assert (Hs : Spec.stricter strict flexible) by (right; left; split; reflexivity).
  assert (Hr : ∀ r, Spec.number_of porcentaje (u "10") = Some r
                    → ltb r zero = false).
  { intros r Hr. vm_compute in Hr. injection Hr as <-. reflexivity. }
  assert (Hc : values_conflict (u "12.5") (u "10") porcentaje flexible = true)
    by (vm_compute; reflexivity).
  split; [exact Hs|]. split; [exact Hr|]. split; [exact Hc|].
  exact (C6_stricter_detects_more porcentaje (u "12.5") (u "10")
           strict flexible Hs Hr Hc).
Defined.

Lemma C8_witness :
  (∀ i msgs, i ≤ 15 →
     ∃ r, restless_planner i msgs = inr r ∧ stop_reason r ≠ u "end_turn")
  ∧ ∃ log,
      run_tool_use_loop demo_servers restless_planner None [UserText []]
      = max_iterations_reached 15 log
      ∧ map log_iteration log = seq 1 15.
Proof.
  assert (Hgo : ∀ i msgs, i ≤ 15 →
            ∃ r, restless_planner i msgs = inr r
                 ∧ stop_reason r ≠ u "end_turn").
  { intros i msgs _. eexists. split; [reflexivity|].
    cbn [stop_reason]. intros Heq. vm_compute in Heq. discriminate Heq. }
  split; [exact Hgo|].
  pose proof (C8_iteration_ceiling demo_servers None restless_planner
                [UserText []]) as Hloop.
  cbv zeta in Hloop. destruct Hloop as (_ & _ & _ & Hloop).
  apply Hloop. exact Hgo.
Defined.

Lemma unknown_tool_example :
  dispatch_tool demo_servers (u "delete_document") (VDict [])
  = error_payload (u "Herramienta 'delete_document' no implementada").
Proof. by vm_compute. Qed.

(** A request for [compare_documents] without its second document:
    the dispatch gives the payload of the [KeyError]. *)
Lemma missing_field_example :
  dispatch_tool demo_servers (u "compare_documents")
    (VDict [(u "doc_id_1", VStr (u "A"))])
  = error_payload (u "Error ejecutando compare_documents: 'doc_id_2'").
Proof. by vm_compute. Qed.

End Witnesses.

(* ===================================================================== *)
(** * Further properties of the code *)
(* ===================================================================== *)

(** ** The analysis: edges, counts and composition *)

Section AnalysisFacts.
Context `{PyRuntime}.

Lemma all_conflicts_app target tm rs1 rs2 s :
  Spec.all_conflicts target tm (rs1 ++ rs2) s
  = Spec.all_conflicts target tm rs1 s ++ Spec.all_conflicts target tm rs2 s.
Proof. unfold Spec.all_conflicts. apply flat_map_app. Qed.

Lemma all_conflicts_nothing target tm rectors s :
  rectors = [] ∨ extract_data target = [] →
  Spec.all_conflicts target tm rectors s = [].
Proof.
  unfold Spec.all_conflicts, Spec.conflicts_with. intros [-> | ->]; [done|].
  induction rectors as [|re rectors IH]; [done|]. by cbn [flat_map app].
Qed.

(** X1. When there is nothing to check, no governing document or no
    fact in the target, the analysis reports no contradiction and no
    warning, the score 1.0 and the recommendation of a compliant
    document. *)
Theorem nothing_to_check target tm rectors s :
  rectors = [] ∨ extract_data target = [] →
  let r := detect_contradictions target tm rectors s in
  contradictions r = [] ∧ warnings r = []
  ∧ compliance_score r = f1_0
  ∧ recommendation (analysis_summary r)
    = u "✅ El documento cumple con los requisitos normativos".
Proof.
  intros Hn r. subst r.
  destruct (detect_lists target tm rectors s) as [Hc Hw].
  assert (Hz : length (extract_data target) * length rectors = 0).
  { destruct Hn as [-> | ->]; cbn [length]; lia. }
  rewrite Hc, Hw, detect_score, all_conflicts_nothing, Hz by done.
  repeat split.
  unfold detect_contradictions.
  destruct (fold_left _ rectors ([], [])) as [cs ws].
  cbn [analysis_summary recommendation]. rewrite Hz.
  by vm_compute.
Qed.

Lemma count_contradictions (l : list contradiction) :
  count_severity critical (List.filter Spec.is_contradiction l)
  + count_severity high (List.filter Spec.is_contradiction l)
  = length (List.filter Spec.is_contradiction l)
  ∧ count_severity medium (List.filter Spec.is_contradiction l) = 0.
Proof.
  unfold count_severity, Spec.is_contradiction.
  induction l as [|c l [IH1 IH2]]; [done|]. cbn [List.filter].
  case_bool_decide as Hd; [|done]. cbn [List.filter].
  destruct Hd as [Hs|Hs]; rewrite Hs;
    repeat (case_bool_decide; try done); cbn [length]; lia.
Qed.

(** X2. The counts of a report agree with its lists: the critical and
    the high issues add up to the contradictions found, and the count
    of medium issues is always 0, the medium conflicts being warnings. *)
Theorem summary_counts target tm rectors s :
  let r := detect_contradictions target tm rectors s in
  contradictions_found r = length (contradictions r)
  ∧ warnings_found r = length (warnings r)
  ∧ critical_issues (analysis_summary r) + high_issues (analysis_summary r)
    = contradictions_found r
  ∧ medium_issues (analysis_summary r) = 0
  ∧ total_rectores_checked (analysis_summary r) = length rectors.
Proof.
  unfold detect_contradictions. rewrite fold_check_rector.
  cbn [app contradictions_found warnings_found contradictions warnings
       analysis_summary critical_issues high_issues medium_issues
       total_rectores_checked].
  destruct (count_contradictions
              (flat_map (Spec.conflicts_with (extract_data target) tm s) rectors))
    as [Hsum Hmed].
  by repeat split.
Qed.

(** X3. The lists of an analysis against several governing documents
    are those of the analyses against each part of them, one after the
    other. *)
Theorem analysis_of_more_rectors target tm rs1 rs2 s :
  contradictions (detect_contradictions target tm (rs1 ++ rs2) s)
  = contradictions (detect_contradictions target tm rs1 s)
    ++ contradictions (detect_contradictions target tm rs2 s)
  ∧ warnings (detect_contradictions target tm (rs1 ++ rs2) s)
    = warnings (detect_contradictions target tm rs1 s)
      ++ warnings (detect_contradictions target tm rs2 s).
Proof.
  destruct (detect_lists target tm (rs1 ++ rs2) s) as [-> ->].
  destruct (detect_lists target tm rs1 s) as [-> ->].
  destruct (detect_lists target tm rs2 s) as [-> ->].
  by rewrite all_conflicts_app, !List.filter_app.
Qed.

End AnalysisFacts.
(** ** The facts that the patterns extract *)

Section Facts.
Import Regex.
Context `{PyRuntime}.

Lemma match_at_span r pos prev s m :
  match_at r pos prev s = Some m →
  m_start m = pos ∧ pos ≤ m_end m ∧ m_end m ≤ pos + length s.
Proof.
  unfold match_at. destruct (rmatch r _ Some) as [st|] eqn:Hm; [|done].
  intros [= <-]. cbn [m_start m_end].
  apply rmatch_matched in Hm as (st' & [= ->] & (w & Hw & Hpos & _) & _).
  cbn [m_rest m_pos] in Hw, Hpos. rewrite Hpos, Hw, length_app. lia.
Qed.

(** The matches of a scan start one after the other, none inside the
    one before, all within the text. *)
Lemma scan_spans r s : ∀ pos prev skip,
  Forall (fun m => pos + skip ≤ m_start m ∧ m_start m < pos + length s)
         (scan r pos prev skip s)
  ∧ StronglySorted
      (fun m1 m2 => m_start m1 < m_start m2 ∧ m_end m1 ≤ m_start m2)
      (scan r pos prev skip s).
Proof.
  induction s as [|c s IH]; intros pos prev skip; cbn [scan length].
  - split; constructor.
  - destruct skip as [|n].
    + destruct (match_at r pos prev (c :: s)) as [m|] eqn:Hm.
      * apply match_at_span in Hm as (Hstart & Hlo & Hhi).
        destruct (IH (S pos) (Some c) (m_end m - pos - 1)) as [Hall Hsorted].
        split.
        -- constructor; [lia|].
           eapply Forall_impl; [exact Hall|]. cbn. intros m' ?. lia.
        -- constructor; [done|].
           eapply Forall_impl; [exact Hall|]. cbn. intros m' ?. lia.
      * destruct (IH (S pos) (Some c) 0) as [Hall Hsorted].
        split; [|done].
        eapply Forall_impl; [exact Hall|]. cbn. intros m' ?. lia.
    + destruct (IH (S pos) (Some c) n) as [Hall Hsorted].
      split; [|done].
      eapply Forall_impl; [exact Hall|]. cbn. intros m' ?. lia.
Qed.

Lemma extract_values_positions r content :
  StronglySorted (fun f g => position f < position g)
    (extract_values r content)
  ∧ Forall (fun f => position f < length content) (extract_values r content).
Proof.
  unfold extract_values, finditer.
  destruct (scan_spans r content 0 None 0) as [Hall Hsorted].
  split.
  - induction Hsorted as [|m ms Hs IH Hm]; cbn [map]; constructor.
    + apply IH. by apply Forall_inv_tail in Hall.
    + apply Forall_map. eapply Forall_impl; [exact Hm|].
      cbn. intros m' ?. cbn [position]. lia.
  - apply Forall_map. eapply Forall_impl; [exact Hall|].
    cbn. intros m ?. cbn [position]. lia.
Qed.

Lemma extract_data_values (P : list fact → Prop) content :
  (∀ r, extract_values r content ≠ [] → P (extract_values r content)) →
  Forall (fun e => P (snd e)) (extract_data content).
Proof.
  intros HP. unfold extract_data.
  induction contradiction_patterns as [|[t r] ps IH]; cbn [flat_map];
    [constructor|].
  specialize (HP r).
  destruct (extract_values r content) as [|f fs]; cbn [app]; [done|].
  constructor; [|done]. cbn [snd]. by apply HP.
Qed.

Lemma extract_data_lookup content t values :
  (t, values) ∈ extract_data content →
  lookup_data t (extract_data content) = Some values.
Proof.
  pose proof (extract_data_keys_NoDup content) as Hnd.
  revert Hnd. generalize (extract_data content). intros d.
  unfold lookup_data.
  induction d as [|[t' v'] d IH]; intros Hnd Hin; [by apply elem_of_nil in Hin|].
  cbn [List.find fst]. cbn [map fst] in Hnd. apply NoDup_cons in Hnd as [Hnot Hnd].
  apply elem_of_cons in Hin as [[= <- <-]|Hin].
  - by rewrite bool_decide_eq_true_2.
  - rewrite bool_decide_eq_false_2; [by apply IH|].
    intros ->. apply Hnot. apply list_elem_of_fmap. by exists (t, values).
Qed.

(** X4. The extracted data have each fact type at most once, in the
    order of the table of patterns, and never with an empty list of
    values; to look a type up is to find its entry. *)
Theorem extracted_data_keys content :
  NoDup (map fst (extract_data content))
  ∧ map fst (extract_data content) `sublist_of` map fst contradiction_patterns
  ∧ Forall (fun e => snd e ≠ []) (extract_data content)
  ∧ ∀ t values,
      lookup_data t (extract_data content) = Some values
      ↔ (t, values) ∈ extract_data content.
Proof.
  split; [apply extract_data_keys_NoDup|].
  split; [apply extract_data_keys_sublist|].
  split; [by apply (extract_data_values (fun v => v ≠ []))|].
  intros t values. split; [apply lookup_data_elem | apply extract_data_lookup].
Qed.

(** X5. The facts of each type are listed in the order of the
    document: their positions grow strictly, and each is an offset
    inside the text. *)
Theorem facts_in_document_order content :
  Forall (fun e =>
            StronglySorted (fun f g => position f < position g) (snd e)
            ∧ Forall (fun f => position f < length content) (snd e))
         (extract_data content).
Proof.
  apply (extract_data_values
           (fun v => StronglySorted (fun f g => position f < position g) v
                     ∧ Forall (fun f => position f < length content) v)).
  intros r _. apply extract_values_positions.
Qed.

End Facts.
(** ** The values and the contexts of the facts *)

Section FactTexts.
Import Regex.
Context `{PyRuntime}.

(** X6. The value of a fact of a numeric type (a period, an amount or
    a percentage) starts with a decimal digit: no extracted number has
    a sign. *)
Theorem numeric_values_start_with_digit content :
  Forall (fun e =>
            Spec.numeric (fst e) = true →
            Forall (fun f => Spec.digit_led (value f)) (snd e))
         (extract_data content).
Proof.
  apply Forall_forall. intros [t values] Hin Hn.
  by apply (extract_data_numeral content t).
Qed.

Lemma lstrip_by_suffix (p : char → bool) s :
  ∃ pre, s = pre ++ PyStr.lstrip_by p s.
Proof.
  induction s as [|c s [pre IH]]; cbn; [by exists []|].
  destruct (p c); [|by exists []].
  exists (c :: pre). cbn. by f_equal.
Qed.

Lemma lstrip_by_head (p : char → bool) s :
  PyStr.lstrip_by p s = [] ∨ ∃ c w, PyStr.lstrip_by p s = c :: w ∧ p c = false.
Proof.
  induction s as [|c s IH]; cbn; [by left|].
  destruct (p c) eqn:Hc; [done|]. right. by exists c, s.
Qed.

Lemma lstrip_by_clean (p : char → bool) c w :
  p c = false → PyStr.lstrip_by p (c :: w) = c :: w.
Proof. intros Hc. cbn. by rewrite Hc. Qed.

Lemma strip_by_idemp (p : char → bool) s :
  PyStr.strip_by p (PyStr.strip_by p s) = PyStr.strip_by p s.
Proof.
  unfold PyStr.strip_by.
  destruct (lstrip_by_head p s) as [-> | (c & w & -> & Hc)]; [done|].
  cbn [rev]. rewrite (lstrip_by_snoc p (rev w) c Hc).
  rewrite rev_app_distr. cbn [rev app].
  rewrite (lstrip_by_clean p c (rev (PyStr.lstrip_by p (rev w))) Hc).
  cbn [rev]. rewrite rev_involutive.
  rewrite (lstrip_by_snoc p (PyStr.lstrip_by p (rev w)) c Hc).
  destruct (lstrip_by_head p (rev w)) as [Hw | (d & w' & Hw & Hd)];
    rewrite Hw; [done|].
  rewrite (lstrip_by_clean p d w' Hd).
  by rewrite rev_app_distr.
Qed.

Lemma strip_by_elem (p : char → bool) s x :
  x ∈ PyStr.strip_by p s → x ∈ s.
Proof.
  unfold PyStr.strip_by. rewrite !list_elem_of_In, <- in_rev.
  destruct (lstrip_by_suffix p (rev (PyStr.lstrip_by p s))) as [pre1 H1].
  destruct (lstrip_by_suffix p s) as [pre2 H2].
  intros Hx.
  assert (Hr : In x (rev (PyStr.lstrip_by p s))).
  { rewrite H1. apply in_or_app. by right. }
  apply in_rev in Hr. rewrite H2. apply in_or_app. by right.
Qed.

(** X7. The context of a fact holds no line feed, U+000A, the one
    character that the code replaces by a blank, and it is a stripped
    text.  (Nothing is said of the other line separators: a carriage
    return inside the context stays where it is.) *)
Theorem contexts_without_line_feed content :
  Forall (fun e =>
            Forall (fun f => (10%N ∉ context f) ∧ strip (context f) = context f)
                   (snd e))
         (extract_data content).
Proof.
  apply (extract_data_values
           (fun v => Forall (fun f => (10%N ∉ context f)
                                      ∧ strip (context f) = context f) v)).
  intros r _. unfold extract_values. apply Forall_map, Forall_forall.
  intros m _. cbn [context]. split.
  - intros Hin. apply strip_by_elem in Hin.
    unfold PyStr.replace in Hin.
    apply list_elem_of_In in Hin. apply in_flat_map in Hin as (x & _ & Hx).
    destruct (x =? 10)%N eqn:Hx10.
    + by destruct Hx as [?|[]].
    + destruct Hx as [Hx|[]]. by rewrite Hx, N.eqb_refl in Hx10.
  - apply strip_by_idemp.
Qed.

End FactTexts.
(** ** The comparer *)

Section ComparerFacts.
Import Comparer.
Context `{PyRuntime}.

Lemma flat_map_step {A B} (f : A → list B) x l :
  flat_map f (x :: l) = f x ++ flat_map f l.
Proof. reflexivity. Qed.

(** The loop that collects the mismatches, over any list of patterns. *)
Lemma mismatches_self doc (ps : list (category * Regex.regex)) :
  flat_map (fun '(c, p) =>
    if bool_decide (c = numeros_generales) then []
    else
      let set1 : gset str := list_to_set (Regex.findall p doc) in
      let set2 : gset str := list_to_set (Regex.findall p doc) in
      if bool_decide (set1 = set2) then []
      else [(c, {| solo_en_doc1 := set1 ∖ set2;
                   solo_en_doc2 := set2 ∖ set1 |})]) ps = [].
Proof.
  induction ps as [|[c p] ps IH]; [done|].
  rewrite flat_map_step, IH. case_bool_decide; [done|].
  cbv zeta. by rewrite bool_decide_eq_true_2.
Qed.

Lemma mismatches_swap doc1 doc2 (ps : list (category * Regex.regex)) :
  flat_map (fun '(c, p) =>
    if bool_decide (c = numeros_generales) then []
    else
      let set1 : gset str := list_to_set (Regex.findall p doc2) in
      let set2 : gset str := list_to_set (Regex.findall p doc1) in
      if bool_decide (set1 = set2) then []
      else [(c, {| solo_en_doc1 := set1 ∖ set2;
                   solo_en_doc2 := set2 ∖ set1 |})]) ps
  = map (fun e => (fst e, Facts.mirrored (snd e)))
      (flat_map (fun '(c, p) =>
        if bool_decide (c = numeros_generales) then []
        else
          let set1 : gset str := list_to_set (Regex.findall p doc1) in
          let set2 : gset str := list_to_set (Regex.findall p doc2) in
          if bool_decide (set1 = set2) then []
          else [(c, {| solo_en_doc1 := set1 ∖ set2;
                       solo_en_doc2 := set2 ∖ set1 |})]) ps).
Proof.
  induction ps as [|[c p] ps IH]; [done|].
  rewrite !flat_map_step, IH, map_app. f_equal.
  case_bool_decide; [done|]. cbv zeta.
  repeat case_bool_decide; try done; congruence.
Qed.

(** X8. The numeric comparison of a document with itself finds no
    mismatch; that of two documents taken in the other order finds the
    same categories, with the two sets of each exchanged. *)
Theorem numeric_comparison_mirror doc1 doc2 :
  mismatches (compare_numeric_values doc1 doc1) = []
  ∧ potential_contradictions (compare_numeric_values doc1 doc1) = false
  ∧ mismatches (compare_numeric_values doc2 doc1)
    = map (fun e => (fst e, Facts.mirrored (snd e)))
          (mismatches (compare_numeric_values doc1 doc2))
  ∧ potential_contradictions (compare_numeric_values doc2 doc1)
    = potential_contradictions (compare_numeric_values doc1 doc2).
Proof.
  unfold compare_numeric_values.
  cbn [mismatches potential_contradictions].
  rewrite mismatches_self, mismatches_swap, length_map. done.
Qed.

Lemma shown_values doc (ps : list (category * Regex.regex)) :
  let shown :=
    map (fun '(k, v) => (k, take 10 v))
      (List.filter (fun e => negb (bool_decide (fst e = numeros_generales)))
         (map (fun '(c, p) => (c, Regex.findall p doc)) ps)) in
  map fst shown
  = List.filter (fun c => negb (bool_decide (c = numeros_generales)))
      (map fst ps)
  ∧ Forall (fun e : category * list str => length (snd e) ≤ 10) shown.
Proof.
  cbv zeta. induction ps as [|[c p] ps [IH1 IH2]]; [by split|].
  cbn [map List.filter fst].
  destruct (negb (bool_decide (c = numeros_generales))); [|by split].
  cbn [map fst]. split; [by f_equal|].
  constructor; [|done]. cbn [snd]. rewrite length_take. lia.
Qed.

Lemma mismatches_keys doc1 doc2 (ps : list (category * Regex.regex)) :
  Forall (fun e : category * mismatch =>
            fst e ∈ List.filter
                      (fun c => negb (bool_decide (c = numeros_generales)))
                      (map fst ps))
    (flat_map (fun '(c, p) =>
       if bool_decide (c = numeros_generales) then []
       else
         let set1 : gset str := list_to_set (Regex.findall p doc1) in
         let set2 : gset str := list_to_set (Regex.findall p doc2) in
         if bool_decide (set1 = set2) then []
         else [(c, {| solo_en_doc1 := set1 ∖ set2;
                      solo_en_doc2 := set2 ∖ set1 |})]) ps).
Proof.
  induction ps as [|[c p] ps IH]; [constructor|].
  rewrite flat_map_step. cbn [map fst List.filter].
  case_bool_decide as Hc; cbn [negb app]; [done|].
  apply Forall_app. split.
  - cbv zeta. case_bool_decide; constructor; [|constructor].
    cbn [fst]. apply elem_of_cons. by left.
  - eapply Forall_impl; [exact IH|]. cbn. intros e He.
    apply elem_of_cons. by right.
Qed.

(** X9. The report of the numeric comparison has the five named
    categories, never the general numbers, with at most ten values
    each; it flags potential contradictions exactly when a category
    has a mismatch. *)
Theorem numeric_report_shape doc1 doc2 :
  let r := compare_numeric_values doc1 doc2 in
  map fst (values_doc1 r) = [dias; meses; años; porcentajes; montos]
  ∧ map fst (values_doc2 r) = [dias; meses; años; porcentajes; montos]
  ∧ Forall (fun e => length (snd e) ≤ 10) (values_doc1 r ++ values_doc2 r)
  ∧ Forall (fun e => fst e ∈ [dias; meses; años; porcentajes; montos])
           (mismatches r)
  ∧ (potential_contradictions r = true ↔ mismatches r ≠ []).
Proof.
  cbv zeta. unfold compare_numeric_values.
  cbn [values_doc1 values_doc2 mismatches potential_contradictions].
  destruct (shown_values doc1 patterns) as [Hk1 Hl1].
  destruct (shown_values doc2 patterns) as [Hk2 Hl2].
  pose proof (mismatches_keys doc1 doc2 patterns) as Hm.
  cbv zeta in Hk1, Hk2, Hl1, Hl2.
  assert (Hcats :
    List.filter (fun c => negb (bool_decide (c = numeros_generales)))
      (map fst patterns)
    = [dias; meses; años; porcentajes; montos]) by (by vm_compute).
  rewrite Hcats in Hk1, Hk2, Hm.
  split; [exact Hk1|]. split; [exact Hk2|].
  split; [by apply Forall_app|]. split; [exact Hm|].
  destruct (flat_map _ patterns); cbn; split; done.
Qed.

End ComparerFacts.
Section TerminologyFacts.
Import Comparer.
Context `{PyRuntime}.

(** The quotient of a positive integer by itself is the float 1.0. *)
Lemma of_ratio_same (p : positive) : of_ratio (Z.pos p) (Z.pos p) = f1_0.
Proof.
  unfold of_ratio, SFdiv_core_binary.
  replace (Zdigits2 (Z.pos p) + 0 - (Zdigits2 (Z.pos p) + 0))%Z with 0%Z by lia.
  change (Z.min (fexp prec emax 0) (0 - 0)) with (-53)%Z.
  change (0 - 0 - -53)%Z with 53%Z. cbv iota.
  rewrite Z.shiftl_mul_pow2 by lia.
  pose proof (Z.div_eucl_eq (Z.pos p * 2 ^ 53) (Z.pos p)) as Hdm.
  pose proof (Z.mod_mul (2 ^ 53) (Z.pos p)) as Hmod.
  pose proof (Z.div_mul (2 ^ 53) (Z.pos p)) as Hdiv.
  unfold Z.modulo, Z.div in Hmod, Hdiv.
  rewrite (Z.mul_comm (Z.pos p)).
  destruct (Z.div_eucl (2 ^ 53 * Z.pos p) (Z.pos p)) as [q r].
  rewrite Hmod, Hdiv by lia.
  unfold new_location, new_location_even, new_location_odd.
  destruct (Z.even (Z.pos p)); by vm_compute.
Qed.

(** The first elements of the list of a set: elements of the set,
    each once, and all of them when the set has no more. *)
Lemma listed_terms (n : nat) (s : gset str) :
  Facts.sets_listed →
  (∀ t, t ∈ take n (py_list s) → t ∈ s)
  ∧ NoDup (take n (py_list s))
  ∧ length (take n (py_list s)) = size s `min` n
  ∧ (size s ≤ n → list_to_set (take n (py_list s)) = s).
Proof.
  intros Hlist. pose proof (Hlist s) as Hperm.
  assert (Hlen : length (py_list s) = size s).
  { by rewrite Hperm. }
  assert (Hsub : take n (py_list s) `sublist_of` py_list s)
    by apply sublist_take.
  split; [|split; [|split]].
  - intros t Ht. apply elem_of_elements. rewrite <- Hperm.
    by apply (subseteq_take n (py_list s)).
  - apply (sublist_NoDup _ (py_list s)); [|exact Hsub].
    rewrite Hperm. apply NoDup_elements.
  - rewrite length_take, Hlen. lia.
  - intros Hn. rewrite take_ge by lia. apply set_eq. intros t.
    by rewrite elem_of_list_to_set, Hperm, elem_of_elements.
Qed.

(** X10. Where [list] of a set holds the elements of the set, each
    once: each of the three lists of terms of the terminology
    comparison holds at most 20 terms, none twice and none of the
    twelve common words; a term unique to a document is a term of that
    document and not of the other, and a common term is a term of
    both, so that no term is in two of the lists.  The totals count
    the terms of each document, in the lists or not: the lists of a
    document hold no more terms than its total, and when the total is
    at most 20 they hold exactly the terms of the document. *)
Theorem terminology_partition doc1 doc2 :
  Facts.sets_listed →
  let r := compare_terminology doc1 doc2 in
  Forall (fun l => NoDup l ∧ length l ≤ 20
                   ∧ ∀ t, t ∈ l → t ∉ common_words)
         [unique_to_doc1 r; unique_to_doc2 r; common_terms r]
  ∧ (∀ t, t ∈ unique_to_doc1 r → t ∈ terms_of doc1 ∧ t ∉ terms_of doc2)
  ∧ (∀ t, t ∈ unique_to_doc2 r → t ∈ terms_of doc2 ∧ t ∉ terms_of doc1)
  ∧ (∀ t, t ∈ common_terms r → t ∈ terms_of doc1 ∧ t ∈ terms_of doc2)
  ∧ total_unique_terms_doc1 r = size (terms_of doc1)
  ∧ total_unique_terms_doc2 r = size (terms_of doc2)
  ∧ length (unique_to_doc1 r) + length (common_terms r)
    ≤ total_unique_terms_doc1 r
  ∧ length (unique_to_doc2 r) + length (common_terms r)
    ≤ total_unique_terms_doc2 r
  ∧ (total_unique_terms_doc1 r ≤ 20 →
     list_to_set (unique_to_doc1 r ++ common_terms r) = terms_of doc1
     ∧ length (unique_to_doc1 r) + length (common_terms r)
       = total_unique_terms_doc1 r)
  ∧ (total_unique_terms_doc2 r ≤ 20 →
     list_to_set (unique_to_doc2 r ++ common_terms r) = terms_of doc2
     ∧ length (unique_to_doc2 r) + length (common_terms r)
       = total_unique_terms_doc2 r).
Proof.
  intros Hlist. cbv zeta. unfold compare_terminology.
  cbn [unique_to_doc1 unique_to_doc2 common_terms total_unique_terms_doc1
       total_unique_terms_doc2].
  set (T1 := terms_of doc1). set (T2 := terms_of doc2).
  destruct (listed_terms 20 (T1 ∖ T2) Hlist) as (Hu1 & Hn1 & Hl1 & Hw1).
  destruct (listed_terms 20 (T2 ∖ T1) Hlist) as (Hu2 & Hn2 & Hl2 & Hw2).
  destruct (listed_terms 20 (T1 ∩ T2) Hlist) as (Hc & Hnc & Hlc & Hwc).
  assert (Hsplit : ∀ X Y : gset str, X ∖ Y ∪ X ∩ Y = X).
  { intros X Y. apply set_eq. intros x.
    rewrite elem_of_union, elem_of_difference, elem_of_intersection.
    destruct (decide (x ∈ Y)); tauto. }
  assert (Hapart : ∀ X Y Z : gset str, X ∖ Y ## Z ∩ Y).
  { intros X Y Z. apply elem_of_disjoint. intros x.
    rewrite elem_of_difference, elem_of_intersection. tauto. }
  assert (Hsize1 : size T1 = size (T1 ∖ T2) + size (T1 ∩ T2)).
  { rewrite <- size_union by apply Hapart. by rewrite Hsplit. }
  assert (Hsize2 : size T2 = size (T2 ∖ T1) + size (T1 ∩ T2)).
  { rewrite (comm_L (∩) T1).
    rewrite <- size_union by apply Hapart. by rewrite Hsplit. }
  assert (Hplain : ∀ doc t, t ∈ terms_of doc → t ∉ common_words).
  { intros doc t. unfold terms_of. rewrite elem_of_difference. tauto. }
  assert (Hin1 : ∀ t, t ∈ take 20 (py_list (T1 ∖ T2)) → t ∈ T1 ∧ t ∉ T2).
  { intros t Ht. apply Hu1 in Ht. by apply elem_of_difference in Ht. }
  assert (Hin2 : ∀ t, t ∈ take 20 (py_list (T2 ∖ T1)) → t ∈ T2 ∧ t ∉ T1).
  { intros t Ht. apply Hu2 in Ht. by apply elem_of_difference in Ht. }
  assert (Hinc : ∀ t, t ∈ take 20 (py_list (T1 ∩ T2)) → t ∈ T1 ∧ t ∈ T2).
  { intros t Ht. apply Hc in Ht. by apply elem_of_intersection in Ht. }
  split; [|split; [exact Hin1|split; [exact Hin2|split; [exact Hinc|]]]].
  { rewrite !Forall_cons. split_and!; try apply Forall_nil;
      try done; try (rewrite ?Hl1, ?Hl2, ?Hlc; lia).
    - intros t Ht. apply (Hplain doc1), Hin1, Ht.
    - intros t Ht. apply (Hplain doc2), Hin2, Ht.
    - intros t Ht. apply (Hplain doc1), Hinc, Ht. }
  split; [done|]. split; [done|].
  split; [rewrite Hl1, Hlc; lia|]. split; [rewrite Hl2, Hlc; lia|].
  split.
  - intros Hle. rewrite list_to_set_app_L, Hw1, Hwc, Hl1, Hlc by lia.
    split; [apply Hsplit | lia].
  - intros Hle. rewrite list_to_set_app_L, Hw2, Hwc, Hl2, Hlc by lia.
    split; [|lia]. rewrite (comm_L (∩) T1). apply Hsplit.
Qed.

(** X11. The terminology similarity of a document with itself is 1.0
    when the document has a term, and 0.0 when it has none. *)
Theorem terminology_of_a_document_with_itself doc :
  terminology_similarity (compare_terminology doc doc)
  = if decide (terms_of doc = ∅) then zero else f1_0.
Proof.
  unfold compare_terminology. cbn [terminology_similarity].
  rewrite (idemp_L (∩) (terms_of doc)), (idemp_L (∪) (terms_of doc)).
  destruct (decide (terms_of doc = ∅)) as [->|Hne].
  - by vm_compute.
  - destruct (size (terms_of doc)) as [|n] eqn:Hn.
    { apply size_empty_iff, leibniz_equiv in Hn. done. }
    replace (S n `max` 1) with (S n) by lia.
    change (Z.of_nat (S n)) with (Z.pos (Pos.of_succ_nat n)).
    rewrite of_ratio_same. apply round_one.
Qed.

End TerminologyFacts.
(** ** The tool-use loop, round trip by round trip *)

Section LoopFacts.
Import Orchestrator.
Context `{PyRuntime}.
Variable srv : servers.
Variable doc_id : option str.

(** X12. Every tool request of a response gets one result, in the
    order of the requests and under the identifier of its request,
    whatever the dispatch of the tool gives; the other blocks get
    none. *)
Theorem one_result_per_request (content : list block) :
  map tool_use_id (execute_tools srv content) = Facts.requested content
  ∧ Forall2 (fun b r =>
               ∃ tool_name tool_input,
                 b = ToolUseBlock (tool_use_id r) tool_name tool_input
                 ∧ Orchestrator.content r
                   = json_dumps srv (dispatch_tool srv tool_name tool_input))
      (List.filter (fun b => match b with ToolUseBlock _ _ _ => true
                                        | _ => false end) content)
      (execute_tools srv content).
Proof.
  unfold execute_tools, Facts.requested.
  induction content as [|b content [IH1 IH2]]; [by split; [|constructor]|].
  cbn [flat_map List.filter].
  destruct b as [text|id tool_name tool_input|]; cbn [app map]; try done.
  split; [by f_equal|]. constructor; [|done].
  by exists tool_name, tool_input.
Qed.

Lemma run_from_script planner (rs : list response) :
  ∀ iteration messages log (final : result response),
  iteration + length rs < max_iterations →
  (∀ i r, rs !! i = Some r →
          planner (S (iteration + i))
                  (Facts.conversation srv messages (take i rs)) = inr r
          ∧ stop_reason r = u "tool_use") →
  planner (S (iteration + length rs)) (Facts.conversation srv messages rs)
  = final →
  (∀ r, final = inr r → stop_reason r = u "end_turn") →
  run_from srv planner doc_id iteration messages log
  = match final with
    | inl e =>
        error (str_of_exn e) (S (iteration + length rs))
          (log ++ Facts.logged iteration rs)
    | inr r =>
        completed (extract_text (response_content r))
          (S (iteration + length rs))
          (log ++ Facts.logged iteration (rs ++ [r])) doc_id
    end.
Proof.
  induction rs as [|r0 rs IH]; intros iteration messages log final Hlt Hrs Hfin Hend;
    rewrite run_from_step;
    (destruct (decide (iteration < max_iterations)); [|cbn [length] in Hlt; lia]).
  - cbn [length Facts.conversation] in Hfin. rewrite Nat.add_0_r in Hfin |- *.
    rewrite Hfin. destruct final as [e|r]; cbn [Facts.logged app].
    + by rewrite app_nil_r.
    + rewrite (Hend r eq_refl). by vm_compute (PyStr.eqb _ _).
  - destruct (Hrs 0 r0 eq_refl) as [Hp Hs].
    rewrite Nat.add_0_r in Hp. cbn [take Facts.conversation] in Hp.
    rewrite Hp, Hs.
    vm_compute (PyStr.eqb (u "tool_use") (u "end_turn")).
    vm_compute (PyStr.eqb (u "tool_use") (u "tool_use")).
    cbv iota.
    rewrite (IH (S iteration) _ _ final).
    + cbn [length]. replace (S iteration + length rs) with (iteration + S (length rs)) by lia.
      destruct final; cbn [Facts.logged app]; by rewrite <- app_assoc.
    + cbn [length] in Hlt. lia.
    + intros i r Hi. specialize (Hrs (S i) r Hi).
      cbn [take Facts.conversation] in Hrs.
      by replace (S iteration + i) with (iteration + S i) by lia.
    + cbn [length Facts.conversation] in Hfin.
      by replace (S iteration + length rs) with (iteration + S (length rs)) by lia.
    + done.
Qed.

(** X13. The loop follows the conversation: when the planner asks
    for tools in its first [n] answers, each given to the messages
    grown by the answers and the tool results before it, and then ends
    its turn or raises, the outcome is the text of the last answer, or
    the error, after [n + 1] round trips, with the log of the answers
    received. *)
Theorem loop_follows_the_conversation planner messages
    (rs : list response) (final : result response) :
  length rs < 15 →
  (∀ i r, rs !! i = Some r →
          planner (S i) (Facts.conversation srv messages (take i rs)) = inr r
          ∧ stop_reason r = u "tool_use") →
  planner (S (length rs)) (Facts.conversation srv messages rs) = final →
  (∀ r, final = inr r → stop_reason r = u "end_turn") →
  run_tool_use_loop srv planner doc_id messages
  = match final with
    | inl e => error (str_of_exn e) (S (length rs)) (Facts.logged 0 rs)
    | inr r =>
        completed (extract_text (response_content r)) (S (length rs))
          (Facts.logged 0 (rs ++ [r])) doc_id
    end.
Proof.
  intros Hlt Hrs Hfin Hend. unfold run_tool_use_loop.
  by rewrite (run_from_script planner rs 0 messages [] final).
Qed.

Lemma run_from_discarded planner messages (k : nat) : ∀ iteration log,
  max_iterations - iteration = k →
  (∀ i, i ≤ max_iterations →
        ∃ r, planner i messages = inr r
             ∧ stop_reason r ≠ u "end_turn" ∧ stop_reason r ≠ u "tool_use") →
  ∃ log', run_from srv planner doc_id iteration messages log
          = max_iterations_reached (max iteration max_iterations) log'.
Proof.
  induction k as [|k IH]; intros iteration log Hk Hgo; rewrite run_from_step.
  - destruct (decide (iteration < max_iterations)); [lia|].
    exists log. f_equal. lia.
  - destruct (decide (iteration < max_iterations)) as [Hlt|]; [|lia].
    destruct (Hgo (S iteration)) as (r & -> & Hr1 & Hr2); [lia|].
    rewrite (str_eqb_neq _ _ Hr1), (str_eqb_neq _ _ Hr2).
    replace (max iteration max_iterations)
      with (max (S iteration) max_iterations) by lia.
    apply IH; (lia || done).
Qed.

(** X14. An answer that neither ends the turn nor asks for a tool (one
    cut at the token limit, say) is dropped: the same messages are
    sent again.  A planner that answers so to the first messages, each
    of 15 times, exhausts the loop, whatever it would answer to other
    messages. *)
Theorem dropped_answers_are_asked_again planner messages :
  (∀ i, i ≤ 15 →
        ∃ r, planner i messages = inr r
             ∧ stop_reason r ≠ u "end_turn" ∧ stop_reason r ≠ u "tool_use") →
  ∃ log, run_tool_use_loop srv planner doc_id messages
         = max_iterations_reached 15 log.
Proof.
  intros Hgo. unfold run_tool_use_loop.
  by destruct (run_from_discarded planner messages (max_iterations - 0) 0 []
                 eq_refl Hgo) as [log ->]; exists log.
Qed.

End LoopFacts.
(** ** What the patterns of the modality types capture *)

Section Modality.
Import Regex.
Context `{PyRuntime}.










Lemma values_conflict_modal tv rv t s :
  t ∈ [obligacion; prohibicion; opcion] →
  values_conflict tv rv t s = Facts.modal_conflict (lower tv) (lower rv).
Proof. intros Ht. cases_in Ht; reflexivity. Qed.


End Modality.
Section ModalityReports.
Context `{PyRuntime}.


(** X16. When the target holds a prohibition whose value in lower case
    contains "debe" and a governing document one that contains
    "no debe", the analysis reports a critical contradiction between
    the two, at every sensitivity: two documents that forbid the same
    thing in the same words contradict each other. *)
Theorem same_prohibition_is_a_contradiction
    target rector tm rm s tvs rvs tv rv :
  (prohibicion, tvs) ∈ extract_data target →
  (prohibicion, rvs) ∈ extract_data rector →
  tv ∈ tvs → rv ∈ rvs →
  PyStr.contains (u "debe") (lower (value tv)) = true →
  PyStr.contains (u "no debe") (lower (value rv)) = true →
  ∃ c, c ∈ contradictions (detect_contradictions target tm [(rector, rm)] s)
       ∧ type c = prohibicion ∧ severity c = critical
       ∧ target_value c = value tv ∧ rector_value c = value rv.
Proof.
  intros Ht Hr Htv Hrv Hdebe Hno.
  destruct (detect_lists target tm [(rector, rm)] s) as [-> _].
  set (cf := {| target := value tv; rector := value rv;
                conflict_context_target := context tv;
                conflict_context_rector := context rv |}).
  exists (Spec.entry_of tm rm prohibicion s cf).
  assert (Hsev : severity (Spec.entry_of tm rm prohibicion s cf) = critical).
  { unfold Spec.entry_of, calculate_severity. cbn [severity severity_weights].
    rewrite andb_false_r. cbn [bool_decide]. done. }
  split; [|by repeat split].
  apply list_elem_of_In, filter_In. split.
  - apply list_elem_of_In, elem_of_all_conflicts.
    exists (rector, rm), prohibicion, tvs, rvs, cf.
    repeat split; try done.
    + apply elem_of_cons. by left.
    + by apply extract_data_lookup.
    + apply elem_of_compare_values. exists tv, rv. repeat split; try done.
      rewrite values_conflict_modal by compute_done.
      unfold Facts.modal_conflict, opposites. cbn [existsb].
      by rewrite Hdebe, Hno.
  - unfold Spec.is_contradiction. rewrite Hsev. by apply bool_decide_eq_true; left.
Qed.

End ModalityReports.
Section Latin1Case.
Import Latin1.



End Latin1Case.
(** ** The reader *)

Section ReaderFacts.
Import Orchestrator Reader.
Context `{PyRuntime}.
Variable isdigit : char → bool.

Lemma section_loop_before section pre : ∀ rest,
  Forall (fun l => PyStr.contains section (lower l) = false) pre →
  section_loop isdigit section (pre ++ rest) false []
  = section_loop isdigit section rest false [].
Proof.
  induction pre as [|l pre IH]; intros rest Hpre; [done|].
  apply Forall_cons in Hpre as [Hl Hpre].
  cbn [app section_loop]. rewrite Hl. cbn [orb]. by apply IH.
Qed.

Lemma section_loop_inside section : ∀ rest section_content,
  ∃ n, section_loop isdigit section rest true section_content
       = section_content ++ take n rest.
Proof.
  induction rest as [|line rest IH]; intros acc.
  - exists 0. by rewrite app_nil_r.
  - cbn [section_loop orb].
    destruct (_ && _).
    + by exists 1.
    + destruct (IH (acc ++ [line])) as [n ->].
      exists (S n). by rewrite <- app_assoc.
Qed.

(** X17. [_extract_section] gives back the whole content when no line
    holds the name of the section, whatever the case of the letters;
    otherwise it gives lines of the content that follow one another,
    from the first line that holds the name. *)
Theorem extract_section_lines content section :
  let lines := PyStr.split 10%N content in
  match list_find
          (fun l => PyStr.contains (lower section) (lower l) = true) lines
  with
  | None => extract_section isdigit content section = content
  | Some (i, line) =>
      ∃ n, extract_section isdigit content section
           = PyStr.join [10%N] (take (S n) (drop i lines))
  end.
Proof.
  cbv zeta. unfold extract_section.
  destruct (list_find _ _) as [[i line]|] eqn:Hfind.
  - apply list_find_Some in Hfind as (Hi & Hline & Hbefore).
    pose proof (section_loop_before (lower section)
                  (take i (PyStr.split 10%N content))
                  (drop i (PyStr.split 10%N content))) as Hb.
    rewrite take_drop in Hb. rewrite Hb; clear Hb.
    + rewrite (drop_S _ _ _ Hi). cbn [section_loop]. rewrite Hline.
      cbn [orb app length Nat.ltb Nat.leb andb].
      destruct (section_loop_inside (lower section)
                  (drop (S i) (PyStr.split 10%N content)) [line]) as [n ->].
      by exists n.
    + apply Forall_forall. intros l Hl.
      apply elem_of_take in Hl as (j & Hj & Hlt).
      by apply not_true_is_false, (Hbefore j l Hj Hlt).
  - apply list_find_None in Hfind.
    rewrite <- (app_nil_r (PyStr.split 10%N content)).
    rewrite section_loop_before; [done|].
    eapply Forall_impl; [exact Hfind|]. cbn. intros l Hl.
    by apply not_true_is_false.
Qed.

End ReaderFacts.
Section HierarchyFacts.
Import Orchestrator Reader.

(** X18. The hierarchy of a stored document that has a rank lists
    every stored document of a rank strictly above its own (a smaller
    number), and no other, in the order of the ranks: never the
    document itself and never a document whose rank is NULL.  For a
    stored document whose own rank is NULL the answer is a failure,
    with the message of the exception of the comparison with [None]. *)
Theorem hierarchy_is_the_ranks_above sql rows id document :
  Facts.orders sql →
  first_with_id rows id = Some document →
  match nivel_jerarquico document with
  | Some level =>
      let above_it := superior_docs sql rows level in
      get_document_hierarchy sql (Rows rows) id
      = VDict [ (u "success", VBool true);
                (u "documento_actual",
                  VDict [ (u "doc_id", VStr (doc_id document));
                          (u "nivel", VInt level) ]);
                (u "documentos_superiores", VList (map superior above_it)) ]
      ∧ (∀ d, d ∈ above_it ↔
              d ∈ rows
              ∧ ∃ l, nivel_jerarquico d = Some l ∧ (l < level)%Z)
      ∧ (document ∉ above_it)
      ∧ StronglySorted Facts.level_le above_it
  | None =>
      get_document_hierarchy sql (Rows rows) id
      = failure (u "Error al obtener jerarquía: "
                   ++ str_of_exn (null_comparison sql))
  end.
Proof.
  intros Hsql Hfind.
  destruct (nivel_jerarquico document) as [level|] eqn:Hlevel.
  2:{ unfold get_document_hierarchy. by rewrite Hfind, Hlevel. }
  intros above_it. subst above_it. unfold superior_docs.
  destruct (Hsql (List.filter (above level) rows)) as (Hperm & Hsorted & _).
  assert (Hin : ∀ d, d ∈ by_level sql (List.filter (above level) rows) ↔
                     d ∈ rows
                     ∧ ∃ l, nivel_jerarquico d = Some l ∧ (l < level)%Z).
  { intros d. rewrite Hperm, !list_elem_of_In, filter_In. unfold above.
    destruct (nivel_jerarquico d) as [l|]; split;
      try (intros [? ?]; done); try (intros (? & l' & ? & ?); done).
    - intros [Hd Hlt]. apply Z.ltb_lt in Hlt. split; [done|]. by exists l.
    - intros (Hd & l' & [= <-] & Hlt). split; [done|]. by apply Z.ltb_lt. }
  split; [|split; [exact Hin|split; [|exact Hsorted]]].
  - unfold get_document_hierarchy. by rewrite Hfind, Hlevel.
  - intros Hself. apply Hin in Hself as (_ & l & Hl & Hlt).
    rewrite Hl in Hlevel. injection Hlevel as <-. lia.
Qed.

End HierarchyFacts.
(** ** The analysis without the planner *)

Section DemoFacts.
Import Orchestrator Reader Demo.
Context `{PyRuntime}.
Variable srv : servers.
Variable join_ids : list value → result str.
Variable percent upper : value → result str.
Variable isdigit : char → bool.

(** X19. Without the planner, the analysis of a document that the
    database does not hold is an error, "Documento no encontrado", and
    so is that of a stored document whose rank is NULL, with the error
    of the hierarchy; that of a stored document with a rank and with
    no document of a rank above its own, when no governing document is
    named, is completed at once, "No se encontraron documentos
    rectores", and the document is not read. *)
Theorem demo_mode_without_governing_documents sql rows id rector_ids :
  Facts.orders sql →
  Facts.reads srv isdigit sql (Rows rows) →
  match first_with_id rows id with
  | None =>
      analyze_without_claude srv join_ids percent upper id rector_ids
      = inr (status_error (VStr (u "Documento no encontrado")))
  | Some document =>
      match nivel_jerarquico document with
      | None =>
          analyze_without_claude srv join_ids percent upper id rector_ids
          = inr (status_error
                   (VStr (u "Error al obtener jerarquía: "
                            ++ str_of_exn (null_comparison sql))))
      | Some level =>
          truthy rector_ids = false →
          Forall (fun d => above level d = false) rows →
          analyze_without_claude srv join_ids percent upper id rector_ids
          = inr no_rectors
      end
  end.
Proof.
  intros Hsql Hreads. destruct (Hreads id) as [Hh _].
  unfold analyze_without_claude. rewrite Hh. cbn [bind].
  unfold get_document_hierarchy.
  destruct (first_with_id rows id) as [document|]; [|vm_compute; reflexivity].
  destruct (nivel_jerarquico document) as [level|].
  2:{ unfold failure. vm_compute (getitem _ "success"). cbn [bind ret].
      vm_compute (truthy _). cbn [negb].
      vm_compute (getitem _ "error"). reflexivity. }
  intros Hnone Habove.
  assert (Hsup : superior_docs sql rows level = []).
  { assert (Hnil : List.filter (above level) rows = []).
    { clear -Habove. induction Habove as [|d rows' Hd _ IH]; [done|].
      cbn [List.filter]. by rewrite Hd. }
    unfold superior_docs. rewrite Hnil.
    destruct (Hsql []) as (Hperm & _ & _). by apply Permutation_nil_r. }
  rewrite Hsup, Hnone. vm_compute. reflexivity.
Qed.

End DemoFacts.
(** ** The dispatch of an analysis over the reader *)

Section DispatchOverReader.
Import Orchestrator Reader.
Context `{PyRuntime}.
Variable srv : servers.
Variable isdigit : char → bool.
Variable sql : engine.
Variable db : session.
Hypothesis Hreads : Facts.reads srv isdigit sql db.

Lemma read_whole id :
  (∃ c m, Facts.readable db id = Some (c, m)
          ∧ read_document isdigit db id None
            = VDict [ (u "success", VBool true); (u "doc_id", VStr id);
                      (u "content", c); (u "metadata", m) ])
  ∨ (Facts.readable db id = None
     ∧ ∃ msg, read_document isdigit db id None = failure msg).
Proof.
  unfold Facts.readable, read_document. destruct db as [rows|e]; [|right; eauto].
  destruct (first_with_id rows id) as [d|]; [|right; eauto].
  destruct (content d) as [c|]; [|right; eauto].
  left. by eexists _, _.
Qed.

Lemma read_rectors_readable (ids : list str) : ∀ rector_contents,
  read_rectors srv (map VStr ids) rector_contents
  = inr (rector_contents ++ omap (Facts.readable db) ids).
Proof.
  induction ids as [|id ids IH]; intros acc; cbn [map read_rectors].
  - by rewrite app_nil_r.
  - destruct (Hreads id) as [_ ->]. cbn [bind].
    change (omap (Facts.readable db) (id :: ids))
      with (match Facts.readable db id with
            | Some y => y :: omap (Facts.readable db) ids
            | None => omap (Facts.readable db) ids
            end).
    destruct (read_whole id) as [(c & m & -> & ->)|[-> [msg ->]]].
    + vm_compute (getitem _ "success"). cbn [bind truthy].
      vm_compute (getitem _ "content"). cbn [bind].
      vm_compute (getitem _ "metadata"). cbn [bind].
      rewrite IH. by rewrite <- app_assoc.
    + vm_compute (getitem _ "success"). cbn [bind truthy]. apply IH.
Qed.

(** X20. The dispatch of [detect_contradictions] reads the target and
    then each governing document named, in order; a governing
    document that cannot be read is left out without a word, and the
    analysis is run against the others, even against none.  Only a
    target that cannot be read gives an error payload. *)
Theorem analysis_of_the_readable_rectors
    (input : list (str * value)) (target : str) (rectors : list str) :
  assoc (u "target_doc_id") input = Some (VStr target) →
  assoc (u "rector_doc_ids") input = Some (VList (map VStr rectors)) →
  dispatch_tool srv (u "detect_contradictions") (VDict input)
  = match Facts.readable db target with
    | None =>
        error_payload
          (u "No se pudo leer el documento " ++ format srv (VStr target))
    | Some (content, metadata) =>
        match detect_contradictions srv content metadata
                (omap (Facts.readable db) rectors)
                (default (VStr (u "moderate")) (assoc (u "sensitivity") input))
        with
        | inr analysis => analysis
        | inl e =>
            error_payload
              (u "Error ejecutando detect_contradictions: " ++ str_of_exn e)
        end
    end.
Proof.
  intros Htarget Hrectors. unfold dispatch_tool, dispatch_body. eval_names.
  unfold getitem at 1. rewrite Htarget. cbn [bind ret].
  destruct (Hreads target) as [_ ->]. cbn [bind].
  destruct (read_whole target) as [(c & m & -> & ->)|[-> [msg ->]]].
  - vm_compute (getitem _ "success"). cbn [bind truthy negb].
    unfold getitem at 1. rewrite Hrectors. cbn [bind ret iterate].
    rewrite read_rectors_readable. cbn [bind app].
    vm_compute (getitem _ "content"). cbn [bind].
    vm_compute (getitem _ "metadata"). cbn [bind].
    unfold get. cbn [bind ret].
    destruct (detect_contradictions srv _ _ _ _); [|done].
    by vm_compute (u "detect_contradictions").
  - vm_compute (getitem _ "success"). cbn [bind truthy negb].
    unfold getitem. rewrite Htarget. done.
Qed.

End DispatchOverReader.

(* ===================================================================== *)
(** * The names of the files and the import *)
(* ===================================================================== *)

Section NameFacts.
Import Orchestrator Importer.
Variable isdigit : char -> bool.
Variable py_int : str -> option Z.

Lemma split_cons c x s :
  PyStr.split c (x :: s)
  = if (x =? c)%N then [] :: PyStr.split c s
    else match PyStr.split c s with
         | w :: ws => (x :: w) :: ws
         | [] => [[]]
         end.
Proof.
  cbn [PyStr.split]. destruct (PyStr.split c s) eqn:Hs.
  - exfalso. clear -Hs. destruct s as [|y s]; cbn in Hs; [done|].
    destruct (PyStr.split c s); [done|]. by destruct (y =? c)%N.
  - by destruct (x =? c)%N.
Qed.

Lemma split_clean c w : c ∉ w -> PyStr.split c w = [w].
Proof.
  induction w as [|x w IH]; intros Hc; [done|].
  rewrite split_cons, IH.
  - destruct (N.eqb_spec x c) as [->|Hne]; [|done].
    exfalso. apply Hc, elem_of_cons. by left.
  - intros Hin. apply Hc, elem_of_cons. by right.
Qed.

Lemma split_word c w rest :
  c ∉ w -> PyStr.split c (w ++ c :: rest) = w :: PyStr.split c rest.
Proof.
  induction w as [|x w IH]; intros Hc.
  - cbn [app]. by rewrite split_cons, N.eqb_refl.
  - cbn [app]. rewrite split_cons, IH.
    + destruct (N.eqb_spec x c) as [->|Hne]; [|done].
      exfalso. apply Hc, elem_of_cons. by left.
    + intros Hin. apply Hc, elem_of_cons. by right.
Qed.

Lemma join_cons sep w w' ws :
  PyStr.join sep (w :: w' :: ws) = w ++ sep ++ PyStr.join sep (w' :: ws).
Proof. reflexivity. Qed.

Lemma split_join c ws :
  ws <> [] -> Forall (fun w => c ∉ w) ws ->
  PyStr.split c (PyStr.join [c] ws) = ws.
Proof.
  intros Hne Hws. induction Hws as [|w ws Hw Hws IH]; [done|].
  destruct ws as [|w' ws].
  - by apply split_clean.
  - rewrite join_cons. cbn [app]. rewrite split_word by done.
    by rewrite IH.
Qed.

Lemma replace_app c r a b :
  PyStr.replace c r (a ++ b) = PyStr.replace c r a ++ PyStr.replace c r b.
Proof. unfold PyStr.replace. apply flat_map_app. Qed.

Lemma replace_clean c r w : c ∉ w -> PyStr.replace c r w = w.
Proof.
  induction w as [|x w IH]; intros Hc; [done|].
  unfold PyStr.replace in *. cbn [flat_map].
  destruct (N.eqb_spec x c) as [->|Hne].
  - exfalso. apply Hc, elem_of_cons. by left.
  - cbn [app]. f_equal. apply IH. intros Hin. apply Hc, elem_of_cons. by right.
Qed.

Lemma replace_join c r ws :
  Forall (fun w => c ∉ w) ws ->
  PyStr.replace c r (PyStr.join [c] ws) = PyStr.join r ws.
Proof.
  intros Hws. induction Hws as [|w ws Hw Hws IH]; [done|].
  destruct ws as [|w' ws].
  - by apply replace_clean.
  - rewrite !join_cons, !replace_app, IH, replace_clean by done.
    f_equal. f_equal. unfold PyStr.replace. cbn [flat_map].
    rewrite N.eqb_refl. apply app_nil_r.
Qed.

Lemma txt_spelled : u ".txt" = [46; 116; 120; 116]%N.
Proof. reflexivity. Qed.

Lemma stem_of_plain s : 46%N ∉ s -> stem (s ++ u ".txt") = s.
Proof.
  unfold stem, replace_text. rewrite txt_spelled.
  induction s as [|x s IH]; intros Hc; [reflexivity|].
  cbn [app replace_from PyStr.startswith].
  destruct (N.eqb_spec 46 x) as [<-|Hne].
  - exfalso. apply Hc, elem_of_cons. by left.
  - cbn [andb]. f_equal. apply IH.
    intros Hin. apply Hc, elem_of_cons. by right.
Qed.

Lemma join_clean (c : char) sep ws :
  c ∉ sep -> Forall (fun w => c ∉ w) ws -> c ∉ PyStr.join sep ws.
Proof.
  intros Hsep Hws. induction Hws as [|w ws Hw Hws IH].
  - cbn. apply not_elem_of_nil.
  - destruct ws as [|w' ws]; [done|].
    rewrite join_cons. rewrite !elem_of_app. tauto.
Qed.

(** X21. A name written after the nomenclature
    [TIPO_INSTITUCION_NUMERO_AÑO_TEMA.txt] is read back part by part:
    the four first parts as they are, the year as [int] reads it (2024
    when the part is not of digits) and the words of the subject with
    blanks for the underscores, [sin tema] when there is none. *)
Theorem parse_filename_reads_the_nomenclature
    (tipo institucion numero año : str) (words : list str) (year : Z) :
  Forall Facts.plain (tipo :: institucion :: numero :: año :: words) ->
  Facts.year_read isdigit py_int año = Some year ->
  parse_filename isdigit py_int
    (PyStr.join [95%N] (tipo :: institucion :: numero :: año :: words)
       ++ u ".txt")
  = inr (Some {| parsed_tipo := tipo;
                 parsed_institucion := institucion;
                 parsed_numero_oficial := numero;
                 parsed_año := year;
                 parsed_tema_principal :=
                   match words with
                   | [] => u "sin tema"
                   | _ => PyStr.join [32%N] words
                   end |}).
Proof.
  intros Hplain Hyear.
  assert (Forall (fun w : str => 95%N ∉ w)
            (tipo :: institucion :: numero :: año :: words)) as H95.
  { eapply Forall_impl; [exact Hplain|]. by intros w [? ?]. }
  assert (Forall (fun w : str => 46%N ∉ w)
            (tipo :: institucion :: numero :: año :: words)) as H46.
  { eapply Forall_impl; [exact Hplain|]. by intros w [? ?]. }
  unfold parse_filename.
  rewrite stem_of_plain.
  2:{ apply join_clean; [|done]. rewrite list_elem_of_singleton. done. }
  rewrite split_join by done.
  unfold Facts.year_read in Hyear.
  assert (Forall (fun w : str => 95%N ∉ w) words) as Hwords.
  { by do 4 apply Forall_inv_tail in H95. }
  destruct (all_digits isdigit año).
  - rewrite Hyear. cbn [bind ret]. do 2 f_equal.
    destruct words as [|w ws]; [by vm_compute|].
    f_equal. by apply replace_join.
  - injection Hyear as <-. cbn [bind ret]. do 2 f_equal.
    destruct words as [|w ws]; [by vm_compute|].
    f_equal. by apply replace_join.
Qed.

Lemma split_length c s :
  length (PyStr.split c s)
  = S (length (List.filter (fun x => (x =? c)%N) s)).
Proof.
  induction s as [|x s IH]; [reflexivity|].
  rewrite split_cons. cbn [List.filter].
  destruct (x =? c)%N; cbn [length]; [by rewrite IH|].
  destruct (PyStr.split c s) as [|w ws]; [done|]. exact IH.
Qed.

(** X22. [parse_filename] gives [None] for exactly the names whose
    stem holds fewer than three underscores; it reads every other
    name, or [int] raises on its year. *)
Theorem parse_filename_refuses_short_names (filename : str) :
  parse_filename isdigit py_int filename = inr None
  <-> (Facts.underscores (stem filename) < 3)%nat.
Proof.
  unfold parse_filename, Facts.underscores.
  pose proof (split_length 95%N (stem filename)) as Hlen.
  destruct (PyStr.split 95%N (stem filename)) as [|a [|b [|c [|d rest]]]];
    cbn [length] in Hlen.
  1-4: split; [intros _; lia | reflexivity].
  split; [|lia].
  destruct (all_digits isdigit d); [destruct (py_int d)|]; discriminate.
Qed.

End NameFacts.

Section LookupFacts.
Import Orchestrator.


Lemma first_with_id_app l l' id :
  Reader.first_with_id (l ++ l') id
  = match Reader.first_with_id l id with
    | Some d => Some d
    | None => Reader.first_with_id l' id
    end.
Proof.
  unfold Reader.first_with_id. induction l as [|d l IH]; [done|].
  cbn [app List.find]. by destruct (PyStr.eqb (Reader.doc_id d) id).
Qed.

Lemma first_with_id_none l id :
  Reader.first_with_id l id = None <-> id ∉ map Reader.doc_id l.
Proof.
  unfold Reader.first_with_id. induction l as [|d l IH].
  - cbn. split; [intros _; apply not_elem_of_nil | done].
  - cbn [List.find map]. unfold PyStr.eqb at 1. rewrite not_elem_of_cons.
    case_bool_decide as Hd.
    + split; [done|]. intros [Hne _]. by destruct Hne.
    + rewrite IH. split; [|tauto]. intros Hn. split; [congruence|done].
Qed.

Lemma first_with_id_found l id d :
  Reader.first_with_id l id = Some d -> Reader.doc_id d = id ∧ d ∈ l.
Proof.
  unfold Reader.first_with_id. intros Hf.
  apply find_some in Hf as [Hin Heq]. unfold PyStr.eqb in Heq.
  case_bool_decide; [|done]. split; [done|]. by apply list_elem_of_In.
Qed.

End LookupFacts.

Section ImportFacts.
Import Orchestrator Importer.
Variable isdigit : char -> bool.
Variable py_int : str -> option Z.
Variable calculate_hash : str -> str.
Variable path_join : str -> str -> str.

(** A step of the import, by cases: the file is passed over, or it is
    refused with a message that does not depend on the table, or its
    document is added under an identifier that the table lacked. *)
Lemma import_file_cases f :
  (forall q, (Importer.import_file isdigit py_int calculate_hash path_join) q f = q)
  ∨ (exists m, forall q, (Importer.import_file isdigit py_int calculate_hash path_join) q f = failed q m)
  ∨ (exists content metadata,
       text f = inr content ∧
       forall q,
         (Importer.import_file isdigit py_int calculate_hash path_join) q f
         = match Reader.first_with_id (rows q) (stem (name f)) with
           | Some _ => q
           | None =>
               {| rows := rows q ++ [(Importer.imported_document calculate_hash path_join) f content metadata];
                  imported := S (imported q);
                  errors := errors q |}
           end).
Proof.
  unfold Importer.import_file.
  destruct (negb (endswith (u ".txt") (name f))); [by left|].
  destruct (text f) as [e|content]; [right; left; eauto|].
  destruct (parse_filename isdigit py_int (name f)) as [e|[metadata|]];
    [right; left; eauto | | right; left; eauto].
  right; right. exists content, metadata. split; [done|]. done.
Qed.

Lemma failed_blank q m :
  failed q m
  = {| rows := rows q; imported := imported q;
       errors := errors q ++ errors (failed {| rows := []; imported := 0; errors := [] |} m) |}.
Proof. reflexivity. Qed.

(** The errors of a run: those of the files, one by one, whatever the
    table holds. *)
Lemma import_errors files : forall p,
  errors (fold_left (Importer.import_file isdigit py_int calculate_hash path_join) files p)
  = errors p ++ flat_map (fun f => errors ((Importer.import_file isdigit py_int calculate_hash path_join) {| rows := []; imported := 0; errors := [] |} f)) files.
Proof.
  induction files as [|f files IH]; intros p.
  - cbn. by rewrite app_nil_r.
  - cbn [fold_left flat_map]. rewrite IH, app_assoc. f_equal.
    destruct (import_file_cases f) as [Hs|[[m Hm]|(c & md & _ & Ha)]].
    + rewrite !Hs. cbn. by rewrite app_nil_r.
    + rewrite !Hm. reflexivity.
    + rewrite !Ha. cbn [rows Reader.first_with_id List.find errors].
      destruct (Reader.first_with_id (rows p) (stem (name f)));
        cbn; by rewrite app_nil_r.
Qed.

(** The rows of a run: those of the table, then the documents added,
    as many as the count says, each under the stem of the name of a
    file with the content of that file, and under no identifier
    twice. *)
Lemma import_rows files : forall p,
  NoDup (map Reader.doc_id (rows p)) ->
  exists added,
    rows (fold_left (Importer.import_file isdigit py_int calculate_hash path_join) files p) = rows p ++ added
    ∧ imported (fold_left (Importer.import_file isdigit py_int calculate_hash path_join) files p)
      = (imported p + length added)%nat
    ∧ NoDup (map Reader.doc_id (rows p ++ added))
    ∧ Forall (fun d => exists f content,
                f ∈ files ∧ text f = inr content
                ∧ Reader.doc_id d = stem (name f)
                ∧ Reader.content d = Some content) added.
Proof.
  induction files as [|f files IH]; intros p Hp.
  - exists []. cbn. rewrite app_nil_r. repeat split; try done; lia.
  - cbn [fold_left].
    assert (forall q added,
              rows q = rows p -> imported q = imported p ->
              rows (fold_left (Importer.import_file isdigit py_int calculate_hash path_join) files q) = rows q ++ added
              ∧ imported (fold_left (Importer.import_file isdigit py_int calculate_hash path_join) files q)
                = (imported q + length added)%nat
              ∧ NoDup (map Reader.doc_id (rows q ++ added))
              ∧ Forall (fun d => exists f content,
                          f ∈ files ∧ text f = inr content
                          ∧ Reader.doc_id d = stem (name f)
                          ∧ Reader.content d = Some content) added ->
              rows (fold_left (Importer.import_file isdigit py_int calculate_hash path_join) files q) = rows p ++ added
              ∧ imported (fold_left (Importer.import_file isdigit py_int calculate_hash path_join) files q)
                = (imported p + length added)%nat
              ∧ NoDup (map Reader.doc_id (rows p ++ added))
              ∧ Forall (fun d => exists f0 content,
                          f0 ∈ f :: files ∧ text f0 = inr content
                          ∧ Reader.doc_id d = stem (name f0)
                          ∧ Reader.content d = Some content) added) as Hsame.
    { intros q added Hr Hi (H1 & H2 & H3 & H4). rewrite <- Hr, <- Hi.
      repeat split; try done.
      eapply Forall_impl; [exact H4|]. intros d (f0 & c & Hin & Hrest).
      exists f0, c. split; [|done]. apply elem_of_cons. by right. }
    destruct (import_file_cases f) as [Hs|[[m Hm]|(c & md & Htext & Ha)]].
    + rewrite Hs. destruct (IH p Hp) as [added Hadded].
      exists added. by apply Hsame.
    + rewrite Hm. destruct (IH (failed p m) Hp) as [added Hadded].
      exists added. by apply Hsame.
    + rewrite Ha.
      destruct (Reader.first_with_id (rows p) (stem (name f))) eqn:Hfind.
      * destruct (IH p Hp) as [added Hadded]. exists added. by apply Hsame.
      * apply first_with_id_none in Hfind.
        set (d := (Importer.imported_document calculate_hash path_join) f c md).
        set (q := {| rows := rows p ++ [d]; imported := S (imported p);
                     errors := errors p |}).
        assert (NoDup (map Reader.doc_id (rows q))) as Hq.
        { cbn [rows q]. rewrite map_app. apply NoDup_app.
          repeat split; [done| |apply NoDup_singleton].
          intros x Hx Hx'. cbn in Hx'. apply list_elem_of_singleton in Hx'.
          subst x. done. }
        destruct (IH q Hq) as (added & H1 & H2 & H3 & H4).
        exists (d :: added). cbn [rows imported q] in H1, H2, H3.
        rewrite <- app_assoc in H1, H3. cbn [app] in H1, H3.
        repeat split; try done.
        -- rewrite H2. cbn [length]. lia.
        -- apply Forall_cons. split.
           ++ exists f, c. repeat split; try done. apply elem_of_cons. by left.
           ++ eapply Forall_impl; [exact H4|].
              intros d0 (f0 & c0 & Hin & Hrest).
              exists f0, c0. split; [|done]. apply elem_of_cons. by right.
Qed.

(** X23. An import leaves the rows of the table where they are and
    adds its documents after them, as many as it counts; no identifier
    comes twice, and each document added bears the stem of the name of
    one of the files and the content of that file. *)
Theorem import_extends_the_table (files : list file)
    (table : list Reader.document) :
  NoDup (map Reader.doc_id table) ->
  exists added,
    rows ((Importer.import_documents isdigit py_int calculate_hash path_join) files table) = table ++ added
    ∧ imported ((Importer.import_documents isdigit py_int calculate_hash path_join) files table) = length added
    ∧ NoDup (map Reader.doc_id (table ++ added))
    ∧ Forall (fun d => exists f content,
                f ∈ files ∧ text f = inr content
                ∧ Reader.doc_id d = stem (name f)
                ∧ Reader.content d = Some content) added.
Proof.
  intros Htable. unfold Importer.import_documents.
  exact (import_rows files {| rows := table; imported := 0; errors := [] |}
           Htable).
Qed.

Lemma import_grows files : forall p id,
  Reader.first_with_id (rows p) id <> None ->
  Reader.first_with_id (rows (fold_left (Importer.import_file isdigit py_int calculate_hash path_join) files p)) id <> None.
Proof.
  induction files as [|f files IH]; intros p id Hid; [done|].
  cbn [fold_left]. apply IH.
  destruct (import_file_cases f) as [Hs|[[m Hm]|(c & md & _ & Ha)]].
  - by rewrite Hs.
  - by rewrite Hm.
  - rewrite Ha. destruct (Reader.first_with_id (rows p) (stem (name f)));
      [done|]. cbn [rows]. rewrite first_with_id_app.
    by destruct (Reader.first_with_id (rows p) id).
Qed.

(** What a run has added, or found, it holds at its end. *)
Lemma import_holds files : forall p f,
  f ∈ files ->
  (forall q, (Importer.import_file isdigit py_int calculate_hash path_join) q f = q)
  ∨ (exists m, forall q, (Importer.import_file isdigit py_int calculate_hash path_join) q f = failed q m)
  ∨ Reader.first_with_id (rows (fold_left (Importer.import_file isdigit py_int calculate_hash path_join) files p))
      (stem (name f)) <> None.
Proof.
  induction files as [|f0 files IH]; intros p f Hin.
  - by apply elem_of_nil in Hin.
  - apply elem_of_cons in Hin as [->|Hin]; [|cbn [fold_left]; by apply IH].
    destruct (import_file_cases f0) as [Hs|[Hm|(c & md & _ & Ha)]];
      [by left | by right; left |].
    right; right. cbn [fold_left]. apply import_grows. rewrite Ha.
    destruct (Reader.first_with_id (rows p) (stem (name f0))) eqn:Hfind;
      [by rewrite Hfind|].
    cbn [rows]. rewrite first_with_id_app, Hfind.
    unfold Reader.first_with_id. cbn [List.find Reader.doc_id
      Importer.imported_document].
    unfold PyStr.eqb. by rewrite bool_decide_eq_true_2.
Qed.

(** A run over files whose documents the table holds changes the
    errors only. *)
Lemma import_known files : forall p,
  (forall f, f ∈ files ->
     (forall q, (Importer.import_file isdigit py_int calculate_hash path_join) q f = q)
     ∨ (exists m, forall q, (Importer.import_file isdigit py_int calculate_hash path_join) q f = failed q m)
     ∨ Reader.first_with_id (rows p) (stem (name f)) <> None) ->
  rows (fold_left (Importer.import_file isdigit py_int calculate_hash path_join) files p) = rows p
  ∧ imported (fold_left (Importer.import_file isdigit py_int calculate_hash path_join) files p) = imported p.
Proof.
  induction files as [|f files IH]; intros p Hp; [done|].
  cbn [fold_left].
  assert (rows ((Importer.import_file isdigit py_int calculate_hash path_join) p f) = rows p
          ∧ imported ((Importer.import_file isdigit py_int calculate_hash path_join) p f) = imported p) as [Hr Hi].
  { destruct (Hp f) as [Hs|[[m Hm]|Hk]]; [apply elem_of_cons; by left| | |].
    - by rewrite Hs.
    - by rewrite Hm.
    - destruct (import_file_cases f) as [Hs|[[m Hm]|(c & md & _ & Ha)]].
      + by rewrite Hs.
      + by rewrite Hm.
      + rewrite Ha.
        by destruct (Reader.first_with_id (rows p) (stem (name f))). }
  rewrite <- Hr, <- Hi. apply IH. intros f' Hin. rewrite Hr.
  apply Hp, elem_of_cons. by right.
Qed.

(** X24. An import run a second time over the same files adds nothing:
    the table stays as the first run left it, the count is zero and
    the errors are those of the first run. *)
Theorem import_again_adds_nothing (files : list file)
    (table : list Reader.document) :
  (Importer.import_documents isdigit py_int calculate_hash path_join) files (rows ((Importer.import_documents isdigit py_int calculate_hash path_join) files table))
  = {| rows := rows ((Importer.import_documents isdigit py_int calculate_hash path_join) files table);
       imported := 0;
       errors := errors ((Importer.import_documents isdigit py_int calculate_hash path_join) files table) |}.
Proof.
  unfold Importer.import_documents.
  set (once := fold_left (Importer.import_file isdigit py_int calculate_hash path_join) files
                 {| rows := table; imported := 0; errors := [] |}).
  set (start := {| rows := rows once; imported := 0; errors := [] |}).
  destruct (import_known files start) as [Hr Hi].
  { intros f Hin. cbn [rows start]. by apply import_holds. }
  pose proof (import_errors files start) as He.
  pose proof (import_errors files
                {| rows := table; imported := 0; errors := [] |}) as He'.
  fold once in He'. cbn [errors] in He, He'.
  destruct (fold_left (Importer.import_file isdigit py_int calculate_hash path_join) files start) as [r i e].
  cbn [rows imported errors] in Hr, Hi, He. subst r i e.
  by rewrite He'.
Qed.

End ImportFacts.

(* ===================================================================== *)
(** * The upload *)
(* ===================================================================== *)

Section UploadFacts.
Import Orchestrator Importer Api.
Context `{PyRuntime}.
Variable isdigit : char -> bool.
Variable upper : str -> str.
Variable calculate_hash : str -> str.

(** An upload by cases: the table as it was, or one row more under the
    stem of the name. *)
Lemma upload_cases rows filename decoded doc_type written rows' answer :
  upload_document upper calculate_hash rows filename decoded doc_type written
  = (rows', answer) ->
  (rows' = rows ∧ forall r, answer <> Response r)
  ∨ (exists content,
       decoded = inr content
       ∧ endswith (u ".txt") filename = true
       ∧ Reader.first_with_id rows (stem filename) = None
       ∧ rows'
         = rows ++ [uploaded_document upper calculate_hash filename doc_type
                      content]
       ∧ forall r, answer = Response r -> document_id r = stem filename).
Proof.
  unfold upload_document.
  destruct (endswith (u ".txt") filename); cbn [negb].
  2:{ intros [= <- <-]. by left. }
  destruct decoded as [e|content].
  { intros [= <- <-]. by left. }
  destruct (Reader.first_with_id rows (stem filename)) eqn:Hfind.
  { intros [= <- <-]. by left. }
  destruct written as [e|[]]; intros [= <- <-]; right; exists content;
    repeat split; try done.
  by intros r [= <-].
Qed.

Lemma read_last rows d content :
  Reader.first_with_id rows (Reader.doc_id d) = None ->
  Reader.content d = Some content ->
  Reader.read_document isdigit (Reader.Rows (rows ++ [d])) (Reader.doc_id d)
    None
  = VDict [ (u "success", VBool true);
            (u "doc_id", VStr (Reader.doc_id d));
            (u "content", VStr content);
            (u "metadata", Reader.metadata_of d content) ].
Proof.
  intros Hfind Hcontent. unfold Reader.read_document.
  rewrite first_with_id_app, Hfind.
  unfold Reader.first_with_id. cbn [List.find]. unfold PyStr.eqb.
  rewrite bool_decide_eq_true_2 by done. by rewrite Hcontent.
Qed.

(** X25. A document whose upload is answered with a response is read
    back from the table under the identifier of the response, with the
    content that was sent. *)
Theorem uploaded_document_is_read_back
    rows filename decoded doc_type written rows' r :
  upload_document upper calculate_hash rows filename decoded doc_type written
  = (rows', Response r) ->
  exists content,
    decoded = inr content
    ∧ Reader.read_document isdigit (Reader.Rows rows') (document_id r) None
      = VDict [ (u "success", VBool true);
                (u "doc_id", VStr (document_id r));
                (u "content", VStr content);
                (u "metadata",
                  Reader.metadata_of
                    (uploaded_document upper calculate_hash filename doc_type
                       content) content) ].
Proof.
  intros Hup. apply upload_cases in Hup as [[_ Hno]|Hyes].
  { by destruct (Hno r). }
  destruct Hyes as (content & -> & _ & Hfind & -> & Hid).
  exists content. split; [done|]. rewrite (Hid r eq_refl).
  exact (read_last rows
           (uploaded_document upper calculate_hash filename doc_type content)
           content Hfind eq_refl).
Qed.

(** X26. Once an upload has changed the table, also when it was
    answered with the status 500 because the file could not be
    written, every later upload under the same name leaves the table
    as it is: it is answered with the status 409 when its content
    decodes, and with the status 500 and the message of the decoding
    when it does not, the decoding coming before the look-up. *)
Theorem upload_again_conflicts
    rows filename decoded doc_type written rows' answer
    decoded' doc_type' written' :
  upload_document upper calculate_hash rows filename decoded doc_type written
  = (rows', answer) ->
  rows' <> rows ->
  upload_document upper calculate_hash rows' filename decoded' doc_type'
    written'
  = (rows',
     match decoded' with
     | inl e => HTTPException 500 (str_of_exn e)
     | inr _ =>
         HTTPException 409
           (u "Documento '" ++ stem filename ++ u "' ya existe")
     end).
Proof.
  intros Hup Hne. apply upload_cases in Hup as [[Heq _]|Hyes]; [done|].
  destruct Hyes as (c & _ & Hend & Hfind & -> & _).
  unfold upload_document. rewrite Hend. cbn [negb].
  destruct decoded' as [e|content]; [done|].
  rewrite first_with_id_app, Hfind.
  unfold Reader.first_with_id. cbn [List.find]. unfold PyStr.eqb.
  by rewrite bool_decide_eq_true_2.
Qed.

(** X27. An upload keeps the identifiers of the table distinct: it
    leaves the rows where they are and adds at most one after them,
    and one exactly when it answers with a response. *)
Theorem upload_keeps_identifiers_distinct
    rows filename decoded doc_type written rows' answer :
  NoDup (map Reader.doc_id rows) ->
  upload_document upper calculate_hash rows filename decoded doc_type written
  = (rows', answer) ->
  NoDup (map Reader.doc_id rows')
  ∧ exists added,
      rows' = rows ++ added
      ∧ (length added <= 1)%nat
      ∧ forall r, answer = Response r -> length added = 1%nat.
Proof.
  intros Hrows Hup. apply upload_cases in Hup as [[-> Hno]|Hyes].
  - split; [done|]. exists []. rewrite app_nil_r.
    repeat split; [cbn; lia|]. intros r ->. by destruct (Hno r).
  - destruct Hyes as (c & _ & _ & Hfind & -> & _). split.
    + rewrite map_app. apply NoDup_app. repeat split;
        [done| |apply NoDup_singleton].
      intros x Hx Hx'. cbn in Hx'. apply list_elem_of_singleton in Hx'.
      subst x. by apply first_with_id_none in Hfind.
    + eexists. repeat split; cbn; lia.
Qed.

End UploadFacts.

(* ===================================================================== *)
(** * The sign of the score *)
(* ===================================================================== *)

Section ScoreFacts.
Import PyFloat Analyzer.
Context `{PyRuntime}.

Lemma with_sign_not_below (x : float) : ltb (with_sign false x) zero = false.
Proof. by destruct x. Qed.

Lemma round_not_below (x : float) (ndigits : Z) :
  x = zero ∨ gtb x zero = true -> ltb (round x ndigits) zero = false.
Proof.
  intros [->|Hx]; [done|].
  destruct x as [s|s| |s m e]; try done.
  - by destruct s.
  - destruct s; [done|]. unfold round. apply with_sign_not_below.
Qed.

Lemma max0_cases (x : float) : max0 x = zero ∨ gtb (max0 x) zero = true.
Proof.
  unfold max0. destruct (gtb x zero) eqn:Hx; [by right | by left].
Qed.

(** X28. The score of an analysis is never below zero, however many
    contradictions are found and however heavy their penalties. *)
Theorem score_is_not_negative target tm rectors s :
  ltb (compliance_score (detect_contradictions target tm rectors s)) zero
  = false.
Proof.
  unfold detect_contradictions.
  destruct (fold_left _ rectors ([], [])) as [cs ws].
  cbn [compliance_score]. apply round_not_below.
  destruct (0 <? _)%nat; [apply max0_cases | by right].
Qed.

End ScoreFacts.

(* ===================================================================== *)
(** * The properties on the small library *)
(* ===================================================================== *)

Section LibraryFacts.
Import Orchestrator Library.

Lemma level_le_transitive : Transitive Facts.level_le.
Proof.
  intros d1 d2 d3. unfold Facts.level_le.
  destruct (Reader.nivel_jerarquico d1), (Reader.nivel_jerarquico d2),
    (Reader.nivel_jerarquico d3); try done. lia.
Qed.

Lemma level_le_total : Total Facts.level_le.
Proof.
  intros d1 d2. unfold Facts.level_le.
  destruct (Reader.nivel_jerarquico d1), (Reader.nivel_jerarquico d2);
    try (by left); try (by right). lia.
Qed.

Lemma sorter_orders : Facts.orders sorter.
Proof.
  intros rows. cbn [sorter Reader.by_level Reader.by_level_and_year].
  repeat split.
  - apply merge_sort_Permutation.
  - apply (@StronglySorted_merge_sort _ Facts.level_le _ level_le_transitive
             level_le_total).
  - apply merge_sort_Permutation.
Qed.

Lemma servers_over_reads sql db :
  Facts.reads (H := Latin1.latin1) (servers_over sql db) digit sql db.
Proof. intros id. split; reflexivity. Qed.

End LibraryFacts.

Lemma nothing_to_check_witness :
  let r := Analyzer.detect_contradictions (H := Latin1.latin1)
             Library.ban Examples.target_meta [] (u "moderate") in
  Analyzer.contradictions r = []
  ∧ Analyzer.warnings r = []
  ∧ Analyzer.compliance_score r = PyFloat.f1_0
  ∧ Analyzer.recommendation (Analyzer.analysis_summary r)
    = u "✅ El documento cumple con los requisitos normativos".
Proof.
  apply (nothing_to_check (H := Latin1.latin1)). left. reflexivity.
Defined.

Lemma terminology_partition_witness :
  let r := Comparer.compare_terminology (H := Latin1.latin1)
             Library.policy_a Library.policy_b in
  Forall (fun l => NoDup l ∧ length l ≤ 20
                   ∧ ∀ t, t ∈ l → t ∉ Comparer.common_words)
         [Comparer.unique_to_doc1 r; Comparer.unique_to_doc2 r;
          Comparer.common_terms r]
  ∧ (∀ t, t ∈ Comparer.unique_to_doc1 r →
          t ∈ Comparer.terms_of (H := Latin1.latin1) Library.policy_a
          ∧ t ∉ Comparer.terms_of (H := Latin1.latin1) Library.policy_b)
  ∧ (∀ t, t ∈ Comparer.unique_to_doc2 r →
          t ∈ Comparer.terms_of (H := Latin1.latin1) Library.policy_b
          ∧ t ∉ Comparer.terms_of (H := Latin1.latin1) Library.policy_a)
  ∧ (∀ t, t ∈ Comparer.common_terms r →
          t ∈ Comparer.terms_of (H := Latin1.latin1) Library.policy_a
          ∧ t ∈ Comparer.terms_of (H := Latin1.latin1) Library.policy_b)
  ∧ Comparer.total_unique_terms_doc1 r
    = size (Comparer.terms_of (H := Latin1.latin1) Library.policy_a)
  ∧ Comparer.total_unique_terms_doc2 r
    = size (Comparer.terms_of (H := Latin1.latin1) Library.policy_b)
  ∧ length (Comparer.unique_to_doc1 r) + length (Comparer.common_terms r)
    ≤ Comparer.total_unique_terms_doc1 r
  ∧ length (Comparer.unique_to_doc2 r) + length (Comparer.common_terms r)
    ≤ Comparer.total_unique_terms_doc2 r
  ∧ (Comparer.total_unique_terms_doc1 r ≤ 20 →
     list_to_set (Comparer.unique_to_doc1 r ++ Comparer.common_terms r)
     = Comparer.terms_of (H := Latin1.latin1) Library.policy_a
     ∧ length (Comparer.unique_to_doc1 r) + length (Comparer.common_terms r)
       = Comparer.total_unique_terms_doc1 r)
  ∧ (Comparer.total_unique_terms_doc2 r ≤ 20 →
     list_to_set (Comparer.unique_to_doc2 r ++ Comparer.common_terms r)
     = Comparer.terms_of (H := Latin1.latin1) Library.policy_b
     ∧ length (Comparer.unique_to_doc2 r) + length (Comparer.common_terms r)
       = Comparer.total_unique_terms_doc2 r).
Proof.
  apply (terminology_partition (H := Latin1.latin1)
           Library.policy_a Library.policy_b).
  intros s. reflexivity.
Defined.

Lemma loop_follows_the_conversation_witness :
  Orchestrator.run_tool_use_loop (H := Latin1.latin1) Examples.demo_servers
    Library.brief_planner (Some (u "DIR_MRE_020_2024_correo"))
    [Orchestrator.UserText (u "Analiza el documento.")]
  = Orchestrator.completed (u "Sin contradicciones.") 2
      (Facts.logged 0 [Library.asks; Library.ends])
      (Some (u "DIR_MRE_020_2024_correo")).
Proof.
  apply (loop_follows_the_conversation (H := Latin1.latin1)
           Examples.demo_servers (Some (u "DIR_MRE_020_2024_correo"))
           Library.brief_planner
           [Orchestrator.UserText (u "Analiza el documento.")]
           [Library.asks] (inr Library.ends)).
  - cbn. lia.
  - intros [|i] r Hr; [|destruct i; discriminate Hr].
    injection Hr as <-. split; reflexivity.
  - reflexivity.
  - intros r Hr. injection Hr as <-. reflexivity.
Defined.

Lemma dropped_answers_are_asked_again_witness :
  exists log,
    Orchestrator.run_tool_use_loop (H := Latin1.latin1) Examples.demo_servers
      Library.cut_planner None
      [Orchestrator.UserText (u "Analiza el documento.")]
    = Orchestrator.max_iterations_reached 15 log.
Proof.
  apply (dropped_answers_are_asked_again (H := Latin1.latin1)).
  intros i _. eexists. split; [reflexivity|].
  split; vm_compute; discriminate.
Defined.


Lemma same_prohibition_is_a_contradiction_witness :
  exists c,
    c ∈ Analyzer.contradictions
          (Analyzer.detect_contradictions (H := Latin1.latin1)
             Library.ban Examples.target_meta
             [(Library.ban, Examples.rector_meta)] (u "moderate"))
    ∧ Analyzer.type c = Analyzer.prohibicion
    ∧ Analyzer.severity c = Analyzer.critical
    ∧ Analyzer.target_value c = u "no debe"
    ∧ Analyzer.rector_value c = u "no debe".
Proof.
  assert (Analyzer.extract_data (H := Latin1.latin1) Library.ban
          = [ (Analyzer.obligacion,
                [ {| Analyzer.value := u "debe"; Analyzer.position := 15;
                     Analyzer.context := Library.ban |} ]);
              (Analyzer.prohibicion, [Library.ban_fact]) ]) as Hdata.
  { vm_compute. reflexivity. }
  assert ((Analyzer.prohibicion, [Library.ban_fact])
          ∈ Analyzer.extract_data (H := Latin1.latin1) Library.ban) as Hin.
  { rewrite Hdata. apply elem_of_cons. right. apply elem_of_cons. by left. }
  apply (same_prohibition_is_a_contradiction (H := Latin1.latin1)
           Library.ban Library.ban Examples.target_meta Examples.rector_meta
           (u "moderate") [Library.ban_fact] [Library.ban_fact]
           Library.ban_fact Library.ban_fact Hin Hin).
  - apply elem_of_cons. by left.
  - apply elem_of_cons. by left.
  - vm_compute. reflexivity.
  - vm_compute. reflexivity.
Defined.

Lemma hierarchy_is_the_ranks_above_witness :
  Reader.get_document_hierarchy Library.sorter (Reader.Rows Library.shelf)
    (u "DIR_MRE_020_2024_correo")
  = Orchestrator.VDict
      [ (u "success", Orchestrator.VBool true);
        (u "documento_actual",
          Orchestrator.VDict
            [ (u "doc_id", Orchestrator.VStr (u "DIR_MRE_020_2024_correo"));
              (u "nivel", Orchestrator.VInt 4) ]);
        (u "documentos_superiores",
          Orchestrator.VList [Reader.superior Library.law]) ]
  ∧ Library.directive ∉ Reader.superior_docs Library.sorter Library.shelf 4.
Proof.
  pose proof (hierarchy_is_the_ranks_above Library.sorter Library.shelf
                (u "DIR_MRE_020_2024_correo") Library.directive
                sorter_orders) as Hh.
  change (Reader.nivel_jerarquico Library.directive) with (Some 4%Z) in Hh.
  destruct Hh as (Hanswer & _ & Hself & _).
  - vm_compute. reflexivity.
  - split; [|exact Hself]. rewrite Hanswer. vm_compute. reflexivity.
Defined.

Lemma demo_mode_without_governing_documents_witness :
  Demo.analyze_without_claude
    (Library.servers_over Library.sorter (Reader.Rows Library.shelf))
    (fun _ => Orchestrator.ret []) (fun _ => Orchestrator.ret [])
    (fun _ => Orchestrator.ret [])
    (u "LEY_PERU_31814_2023_IA") Orchestrator.VNone
  = inr Demo.no_rectors.
Proof.
  pose proof (demo_mode_without_governing_documents (H := Latin1.latin1)
                (Library.servers_over Library.sorter
                   (Reader.Rows Library.shelf))
                (fun _ => Orchestrator.ret []) (fun _ => Orchestrator.ret [])
                (fun _ => Orchestrator.ret [])
                Library.digit Library.sorter Library.shelf
                (u "LEY_PERU_31814_2023_IA") Orchestrator.VNone
                sorter_orders
                (servers_over_reads Library.sorter
                   (Reader.Rows Library.shelf))) as Hdemo.
  replace (Reader.first_with_id Library.shelf (u "LEY_PERU_31814_2023_IA"))
    with (Some Library.law) in Hdemo by (vm_compute; reflexivity).
  change (Reader.nivel_jerarquico Library.law) with (Some 1%Z) in Hdemo.
  apply Hdemo; [reflexivity|].
  repeat constructor.
Defined.

Lemma analysis_of_the_readable_rectors_witness :
  Orchestrator.dispatch_tool (H := Latin1.latin1)
    (Library.servers_over Library.sorter (Reader.Rows Library.shelf))
    (u "detect_contradictions")
    (Orchestrator.VDict
       [ (u "target_doc_id", Orchestrator.VStr (u "DIR_MRE_020_2024_correo"));
         (u "rector_doc_ids",
           Orchestrator.VList
             [ Orchestrator.VStr (u "LEY_PERU_31814_2023_IA");
               Orchestrator.VStr (u "LEY_PERU_00000_2000_nada") ]) ])
  = Examples.answered.
Proof.
  rewrite (analysis_of_the_readable_rectors (H := Latin1.latin1)
             (Library.servers_over Library.sorter (Reader.Rows Library.shelf))
             Library.digit Library.sorter (Reader.Rows Library.shelf)
             (servers_over_reads Library.sorter (Reader.Rows Library.shelf))
             _ (u "DIR_MRE_020_2024_correo")
             [u "LEY_PERU_31814_2023_IA"; u "LEY_PERU_00000_2000_nada"]).
  - vm_compute. reflexivity.
  - vm_compute. reflexivity.
  - vm_compute. reflexivity.
Defined.

Lemma parse_filename_reads_the_nomenclature_witness :
  Importer.parse_filename Library.digit Library.int_of
    (u "LEY_PERU_31814_2023_IA_promocion_desarrollo.txt")
  = inr (Some {| Importer.parsed_tipo := u "LEY";
                 Importer.parsed_institucion := u "PERU";
                 Importer.parsed_numero_oficial := u "31814";
                 Importer.parsed_año := 2023;
                 Importer.parsed_tema_principal :=
                   u "IA promocion desarrollo" |}).
Proof.
  pose proof (parse_filename_reads_the_nomenclature Library.digit
                Library.int_of (u "LEY") (u "PERU") (u "31814") (u "2023")
                [u "IA"; u "promocion"; u "desarrollo"] 2023) as Hparse.
  etransitivity; [|etransitivity; [apply Hparse|]].
  - vm_compute. reflexivity.
  - unfold Facts.plain. repeat constructor; compute_done.
  - vm_compute. reflexivity.
  - vm_compute. reflexivity.
Defined.

Lemma import_extends_the_table_witness :
  exists added,
    Importer.rows
      (Importer.import_documents Library.digit Library.int_of Library.digest
         Library.path_of [Library.new_file] Library.shelf)
    = Library.shelf ++ added
    ∧ Importer.imported
        (Importer.import_documents Library.digit Library.int_of Library.digest
           Library.path_of [Library.new_file] Library.shelf)
      = length added
    ∧ NoDup (map Reader.doc_id (Library.shelf ++ added))
    ∧ Forall (fun d => exists f content,
                f ∈ [Library.new_file] ∧ Importer.text f = inr content
                ∧ Reader.doc_id d = Importer.stem (Importer.name f)
                ∧ Reader.content d = Some content) added.
Proof.
  apply (import_extends_the_table Library.digit Library.int_of Library.digest
           Library.path_of [Library.new_file] Library.shelf).
  apply (bool_decide_unpack _). vm_compute. exact I.
Defined.

Lemma uploaded_document_is_read_back_witness :
  exists content,
    inr Library.upload_text = (inr content : Orchestrator.result str)
    ∧ Reader.read_document (H := Latin1.latin1) Library.digit
        (Reader.Rows Library.shelf_after)
        (Api.document_id Library.upload_answer) None
      = Orchestrator.VDict
          [ (u "success", Orchestrator.VBool true);
            (u "doc_id",
              Orchestrator.VStr (Api.document_id Library.upload_answer));
            (u "content", Orchestrator.VStr content);
            (u "metadata",
              Reader.metadata_of
                (Api.uploaded_document Library.upper_of Library.digest
                   Library.upload_name (u "dir") content) content) ].
Proof.
  apply (uploaded_document_is_read_back (H := Latin1.latin1) Library.digit
           Library.upper_of Library.digest Library.shelf Library.upload_name
           (inr Library.upload_text) (u "dir") (inr tt)
           Library.shelf_after Library.upload_answer).
  vm_compute. reflexivity.
Defined.

Lemma upload_again_conflicts_witness :
  Api.upload_document Library.upper_of Library.digest Library.shelf_after
    Library.upload_name (inr Library.upload_text) (u "dir") (inr tt)
  = (Library.shelf_after,
     Api.HTTPException 409
       (u "Documento '" ++ Importer.stem Library.upload_name
          ++ u "' ya existe"))
  ∧ Api.upload_document Library.upper_of Library.digest Library.shelf_after
      Library.upload_name
      (inl (Orchestrator.OtherError (u "'utf-8' codec can't decode byte")))
      (u "dir") (inr tt)
    = (Library.shelf_after,
       Api.HTTPException 500
         (Orchestrator.str_of_exn
            (Orchestrator.OtherError (u "'utf-8' codec can't decode byte")))).
Proof.
  assert (Api.upload_document Library.upper_of Library.digest Library.shelf
            Library.upload_name (inr Library.upload_text) (u "dir")
            (inl (Orchestrator.OtherError (u "No space left")))
          = (Library.shelf_after, Api.HTTPException 500 (u "No space left")))
    as Hfirst.
  { vm_compute. reflexivity. }
  assert (Library.shelf_after <> Library.shelf) as Hchanged.
  { intros Heq. apply (f_equal length) in Heq. vm_compute in Heq.
    discriminate Heq. }
  split.
  - exact (upload_again_conflicts Library.upper_of Library.digest
             Library.shelf Library.upload_name (inr Library.upload_text)
             (u "dir") (inl (Orchestrator.OtherError (u "No space left")))
             Library.shelf_after
             (Api.HTTPException 500 (u "No space left"))
             (inr Library.upload_text) (u "dir") (inr tt) Hfirst Hchanged).
  - exact (upload_again_conflicts Library.upper_of Library.digest
             Library.shelf Library.upload_name (inr Library.upload_text)
             (u "dir") (inl (Orchestrator.OtherError (u "No space left")))
             Library.shelf_after
             (Api.HTTPException 500 (u "No space left"))
             (inl (Orchestrator.OtherError
                     (u "'utf-8' codec can't decode byte")))
             (u "dir") (inr tt) Hfirst Hchanged).
Defined.

Lemma upload_keeps_identifiers_distinct_witness :
  NoDup (map Reader.doc_id Library.shelf_after)
  ∧ exists added,
      Library.shelf_after = Library.shelf ++ added
      ∧ (length added <= 1)%nat
      ∧ forall r,
          Api.HTTPException (A := Api.upload_response) 500 (u "No space left")
          = Api.Response r ->
          length added = 1%nat.
Proof.
  apply (upload_keeps_identifiers_distinct Library.upper_of Library.digest
           Library.shelf Library.upload_name (inr Library.upload_text)
           (u "dir") (inl (Orchestrator.OtherError (u "No space left")))).
  - apply (bool_decide_unpack _). vm_compute. exact I.
  - vm_compute. reflexivity.
Defined.
